(* ===== verification/_CoqProject ===== *)
-Q . S2P
Prelude.v
PyBuiltins.v
PyRandom.v
Regex.v
Normalizer.v
Analyzer.v
Json.v
Quiz.v
Generator.v
Logging.v
Commands.v
Handler.v
HandlerLog.v
Server.v
App.v
