(* ===== verification/Prelude.v ===== *)
(** * EduQuest quiz generator: a verification development

    The program is [src/python/app.py], a Flask server with two parts:
    - the request handler [generate_transcript] (lines 150-274): it checks
      that ffmpeg is installed ([check_ffmpeg], lines 32-38), validates the
      upload, saves it in a temporary directory, transcodes it with ffmpeg,
      runs Whisper, cleans the transcript (timestamp regex, whitespace
      regex, [strip]), joins its sentences with blank lines for display,
      calls [generate_quiz_questions], and answers with JSON; a [finally]
      removes the directory and an outer [except Exception] answers 500;
    - [generate_quiz_questions] (lines 42-148): it segments the transcript
      into sentences (NLTK [sent_tokenize]), strips the simple [[m:s]]
      markers from each, builds the document-wide pool of "important words"
      (tokens whose POS tag starts with NN, VB or JJ), and then loops,
      drawing a question type and a sentence at random, removing the
      sentence, and building a true/false item ([create_true_false]) or a
      multiple-choice item ([create_mcq]) for it, until 50 items exist or
      the sentences run out.

    Files of the development, in dependency order, and what they model:
    - [Prelude] (this file): Python strings as [list ascii], the Python
      exceptions the code can raise, and [PyM], a state-and-exception monad
      whose state is the process-wide random generator, with its notation
      [let* x := m in k], its inversion lemmas, the hint database [pyq],
      the tactics [py_step], [no_raise], [by_eval], and generic list lemmas.
    - [PyBuiltins]: [str.split], [' '.join], [str.strip], [str.replace],
      [str.startswith], [list.remove], indexing and item assignment, with
      the exceptions they raise; the lemma that [' '.join(s.split())] is
      whitespace-normal; [str.split(sep)] as a reference for [str.replace]
      and the equivalence [s.replace(old, new) == new.join(s.split(old))].
    - [PyRandom]: the random module's calls used by the code ([choice],
      [randint], [sample], [shuffle]) written after CPython's algorithms over
      an abstract generator ([RandomSource], a typeclass whose only law is
      that [_randbelow n] lands in [0, n)); their permutation and range
      lemmas; a list-of-draws instance [stream_source] for running examples.
    - [Regex]: a backtracking matcher for the regular expressions of lines
      47, 220 and 222, and [re.sub] over it; a deterministic scanner for
      the timestamp pattern and the theorem that the matcher agrees with it
      on every string (the pattern never backtracks).
    - [Normalizer]: the transcript cleaning of lines 220-222 ([normalize])
      and the per-sentence cleaning of line 47 ([clean_sentence]).
    - [Analyzer]: the NLTK collaborator as an interface ([Nlp] class), the
      important-word pool (line 54) and key terms (line 102), and a stand-in
      tokenizer [toy_nlp] used only to run examples.
    - [Json]: [json.dumps] of a string and of a list of strings, a decoder,
      and the round-trip theorems.
    - [Quiz]: the item record, the builders [create_true_false] and
      [create_mcq] and the dispatch [build_item]; what each builder
      produces for every random outcome, when it returns, the item schema
      of the specification ([item_schema]) that every built item follows,
      and the builder
      runs where the code departs from the specification (a "False" item
      equal to the truth, repeated options, every occurrence blanked).
    - [Generator]: the loop [gen_loop] and [generate_quiz_questions];
      termination; the abstract specification of the loop as a step
      relation [gen_step], its invariant by rule induction, the refinement
      theorem [generate_refines], and the properties of the result derived
      from it (orders, non-reuse, bounds, exact count, success, item shapes,
      option integrity, the item schema, the empty transcript); the
      counts of the summary that the function logs ([quiz_summary], lines
      141-146) and their consistency; runs on the example of the specification and the
      runs that crash or repeat a statement.
    - [Handler]: [check_ffmpeg] and [generate_transcript], split as the
      code nests it: [read_transcript] (lines 209-215),
      [transcribe_and_quiz] (lines 217-252), [process_upload] (the inner
      [try], lines 168-259), [handle_upload] (the outer [try] with the
      [finally], lines 155-268) and [outer_except] (lines 269-274).  The
      outside world (the ffmpeg probe, the upload, [mkdtemp], [file.save],
      the saved size, the conversion, Whisper, [audio.txt], the UUID,
      [rmtree]) is a record of answers, each with the exceptions the call
      can raise; the temporary directories are explicit state.  Theorems:
      cleanup on every path, exceptions included; the content of a
      successful answer; exactly when the answer is "Server error"; the
      only non-JSON answer (an exception of the probe, raised outside the
      [try]); exactly when it is a 400; and the schema every other answer
      follows.  The model leaves out the logger calls; [HandlerLog] puts
      them back.
    - [Logging]: the logger configuration of lines 20-25 (level INFO, the
      record format), log records and [logged], a writer monad that keeps
      the records written before an exception; [str(int)] of the f-strings
      (stdpp's [pretty]) and the round trip [int(str(n)) == n]; the summary
      [generate_quiz_questions] logs (lines 141-148) and the theorem that
      its numbers read back as the counts of the returned items;
      [log_question] (lines 59-68, never called).
    - [HandlerLog]: [check_ffmpeg] and the handler written again with all
      their [logger.info]/[logger.error] calls; the erasure theorem (with
      the records dropped it is [Handler.generate_transcript], so logging
      never changes the answer or the directories), and which 500 answers
      write no ERROR record.
    - [Commands]: the paths and commands the handler builds:
      [os.path.join] and [os.path.splitext] as [posixpath] writes them, the
      video, audio and text paths (lines 170, 184, 210), the ffmpeg job
      (lines 186-188) and the Whisper command line (lines 200-205); and
      where Whisper writes its text, a model of the external tool (its
      [--output_dir] defaults to the working directory).  The theorem: the
      file line 210 looks for is [tmp_dir/audio.txt], whatever dots the
      directory name has, while Whisper writes [audio.txt] in the server's
      working directory, so the branch that reads the file is never taken.
    - [App]: the Flask application of lines 17-18, 150 and 276-278:
      the route table, [CORS(app)], [app.run(debug=True)], and [dispatch],
      the answer to one HTTP request (404, automatic [OPTIONS], 405, the
      view's JSON with its status and the CORS header, the debugger's page
      for an exception that leaves the view).  Theorems: exactly which
      requests get the debugger's traceback page, and that every JSON
      answer of the application is [generate_transcript]'s answer.
    - [Server]: the handler run over a sequence of requests ([serve]) and
      the directory states a process can reach ([reachable], an inductive
      relation); the invariant that the directories stay well formed and
      distinct, and the count of the directories left behind (one per
      request whose [rmtree] failed).

    Randomness.  The code calls the unseeded global [random] module.  Every
    call is modelled through [_randbelow], the primitive CPython uses for
    [choice], [randrange]/[randint], [sample] and [shuffle]; the theorems
    about the generator hold for every source satisfying the range law, so
    they quantify over all random outcomes.  For more than 21 candidates
    [random.sample] redraws a position until it finds an unselected one, a
    loop that ends with probability 1 but not for every sequence of draws:
    the model gives it as many draws as there are candidates and reports
    [RejectionExhausted] beyond, and the theorems that need it to end
    assume a [FairSource] (the counting source [counter_source] is one).
    Witnesses replay fixed draws.

    Fuel.  The [while] loop of [generate_quiz_questions] is modelled with
    fuel [len(sentences)]; one sentence is removed per iteration, and
    [Generator.gen_loop_no_fuel_exhaustion] shows that this fuel is never
    exhausted.  The regex matcher bounds the repetitions of a [+] by the
    length of the remaining input, enough because each repetition of the
    patterns used consumes a character.  The JSON list decoder takes the
    length of its input as fuel, enough because each element takes at least
    one character.

    Not modelled: Flask's and Werkzeug's own code (routing, the debugger,
    the CORS hook), of which [App] models only the answer they document
    for this configuration; the NLTK resource downloads (lines 27-29) and
    the start-up [print] (line 40), which change no state the program
    reads, except that NLTK may be left without a resource it needs (see
    the assumption below); in the log, the time stamp and the text [str(e)] of an
    exception (a record keeps the exception); the bytes of the upload; the
    ffmpeg and Whisper processes themselves (the commands and paths are in
    [Commands], their outcomes, exceptions included, are inputs of the
    handler model); and NLTK's algorithms (sentence splitting, tokenizing,
    tagging), which are an interface with the one law the code relies on.
    After an exception the state of the random generator is not tracked
    ([PyM] drops it), which no
    theorem needs since the handler answers at once.  Characters are the
    code points 0-255 (the [ascii] type); [\d], [\s] and [str.isspace]
    are exact on them, and code points above 255 are not represented.

    Assumption on NLTK.  [Analyzer.Nlp] gives [sent_tokenize],
    [word_tokenize] and [pos_tag] as total functions: the model assumes
    that they return.  The real calls raise [LookupError] when a resource
    is not installed, and the program downloads [punkt] (line 27) while
    NLTK 3.8.2 and later look up [punkt_tab] for [sent_tokenize].  With
    such an NLTK, the call of line 225 raises [LookupError], which no inner
    [except] catches; after the [finally], the [except Exception] of line
    269 answers 500 ["Server error"], and the
    theorems that characterise the 500 answers ([Handler.handler_server_error])
    describe the program only where the resources are present.

    Plan of later additions: a model of [sent_tokenize]'s boundary rule
    to discharge the hypotheses on the sentences of real transcripts (for
    instance that a sentence of a marker-free transcript has no marker,
    which [Analyzer.sentences_of_marker_free] takes as given). *)

From stdpp Require Export base list strings.
From Stdlib Require Export ZArith Ascii.

(** Python [str] values, as lists of characters. *)
Abbreviation str := (list ascii).

(** A Rocq string literal as a Python string. *)
Definition lit (s : string) : str := String.list_ascii_of_string s.

(** The exceptions the modelled code can raise.  [OSError] stands for the
    failures of the file system and of starting a process (its subclasses
    [FileNotFoundError] and [PermissionError] included) and
    [UnicodeDecodeError] for reading a file that is not UTF-8.  The last
    two are not Python exceptions.  [FuelExhausted] is the outcome of the fuel-bounded
    [while] loop of the generator when it runs out, and a theorem shows it
    never does.  [RejectionExhausted] is the outcome of the rejection loop
    of [random.sample] when its draws keep hitting the selected positions:
    the loop ends with probability 1 for a real generator, and theorems
    that need it to end assume a [FairSource]. *)
Inductive exn :=
  IndexError | ValueError | OSError | UnicodeDecodeError | FuelExhausted | RejectionExhausted.

#[export] Instance exn_eq_dec : EqDecision exn.
Proof. solve_decision. Defined.

(** ** The state-and-exception monad *)

Definition PyM (Σ A : Type) : Type := Σ → exn + (A * Σ).

Section Monad.
Context {Σ : Type}.

Definition pret {A} (x : A) : PyM Σ A := λ s, inr (x, s).
Definition praise {A} (e : exn) : PyM Σ A := λ _, inl e.
Definition pbind {A B} (m : PyM Σ A) (k : A → PyM Σ B) : PyM Σ B :=
  λ s, match m s with inl e => inl e | inr (a, s') => k a s' end.
End Monad.

Declare Scope py_scope.
Delimit Scope py_scope with py.
Notation "'let*' x ':=' m 'in' k" := (pbind m (λ x, k))
  (at level 20, x name, m at level 100, k at level 200) : py_scope.
Open Scope py_scope.

Section MonadLemmas.
Context {Σ A B : Type}.

Lemma pbind_inr (m : PyM Σ A) (k : A → PyM Σ B) s r :
  pbind m k s = inr r ↔ ∃ a s', m s = inr (a, s') ∧ k a s' = inr r.
Proof.
  unfold pbind. split.
  - destruct (m s) as [e|[a s']]; [done|]. eauto.
  - intros (a & s' & -> & ?). done.
Qed.

Lemma pbind_inl (m : PyM Σ A) (k : A → PyM Σ B) s e :
  pbind m k s = inl e ↔
    m s = inl e ∨ ∃ a s', m s = inr (a, s') ∧ k a s' = inl e.
Proof.
  unfold pbind. split.
  - destruct (m s) as [e'|[a s']]; [left; congruence|]. eauto.
  - intros [-> | (a & s' & -> & ?)]; done.
Qed.

Lemma pbind_ok (m : PyM Σ A) (k : A → PyM Σ B) s a s' :
  m s = inr (a, s') → pbind m k s = k a s'.
Proof. unfold pbind. by intros ->. Qed.

Lemma pbind_err (m : PyM Σ A) (k : A → PyM Σ B) s e :
  m s = inl e → pbind m k s = inl e.
Proof. unfold pbind. by intros ->. Qed.

Lemma pret_bind (x : A) (k : A → PyM Σ B) s : pbind (pret x) k s = k x s.
Proof. done. Qed.

Lemma pbind_assoc {C} (m : PyM Σ A) (k1 : A → PyM Σ B) (k2 : B → PyM Σ C) s :
  pbind (pbind m k1) k2 s = pbind m (λ a, pbind (k1 a) k2) s.
Proof. unfold pbind. by destruct (m s) as [|[]]. Qed.
End MonadLemmas.

Create HintDb pyq discriminated.
Create Rewrite HintDb pyq_rw.
#[export] Hint Rewrite @pret_bind @pbind_assoc : pyq_rw.

(** [py_inv] splits every successful bind in the hypotheses into the
    successful run of its first computation and of its continuation. *)
Ltac py_inv :=
  repeat match goal with
  | H : pbind _ _ _ = inr _ |- _ =>
      apply pbind_inr in H; destruct H as (? & ? & ? & H)
  | H : pret _ _ = inr _ |- _ => injection H as <- <-
  | H : praise _ _ = inr _ |- _ => discriminate H
  end.

(** [py_step H] rewrites a successful run [H] of the first computation of a
    bind in the goal. *)
Ltac py_step H := rewrite ?pbind_assoc; rewrite (pbind_ok _ _ _ _ _ H).

(** ** Shared list lemmas *)

Lemma submseteq_cons_perm {A} (x : A) (l k m : list A) :
  l ⊆+ k → x :: k ≡ₚ m → x :: l ⊆+ m.
Proof. intros Hl Hp. rewrite <- Hp. by apply submseteq_skip. Qed.
#[export] Hint Resolve submseteq_cons_perm : pyq.

Lemma suffix_cons_cases {A} (t s : list A) c :
  t `suffix_of` c :: s → t = c :: s ∨ t `suffix_of` s.
Proof.
  intros [[|a p] Hp]; [by left|]. right. injection Hp as _ ->. by exists p.
Qed.

Lemma filter_eq_absent {A} `{EqDecision A} (a : A) l :
  a ∉ l → filter (λ o, o = a) l = [].
Proof.
  induction l as [|x l IH]; intros Ha; [done|]. rewrite elem_of_cons in Ha.
  rewrite filter_cons_False by naive_solver. apply IH. naive_solver.
Qed.

(** An element and a list without it: the element occurs once. *)
Lemma count_once {A} `{EqDecision A} (a : A) l ds :
  l ≡ₚ a :: ds → a ∉ ds → length (filter (λ o, o = a) l) = 1.
Proof.
  intros Hp Ha. rewrite Hp, filter_cons_True by done. simpl.
  by rewrite filter_eq_absent.
Qed.

(** Filtering with a predicate every element satisfies keeps the list. *)
Lemma filter_Forall_id {A} (P : A → Prop) `{∀ x, Decision (P x)} l :
  Forall P l → filter P l = l.
Proof. induction 1; [done|]. rewrite filter_cons_True by done. by f_equal. Qed.

(** A sub-multiset of a list without duplicates has none. *)
Lemma submseteq_NoDup {A} (l k : list A) : l ⊆+ k → NoDup k → NoDup l.
Proof.
  intros (r & Hr)%submseteq_Permutation Hk. rewrite Hr in Hk.
  by apply NoDup_app in Hk as [? _].
Qed.

Lemma submseteq_omap {A B} (f : A → option B) l1 l2 : l1 ⊆+ l2 → omap f l1 ⊆+ omap f l2.
Proof.
  intros (k & Hk)%submseteq_Permutation. rewrite Hk, omap_app.
  by apply submseteq_inserts_r.
Qed.

Lemma omap_lookup_seq {A} (pre l : list A) :
  omap ((pre ++ l) !!.) (seq (length pre) (length l)) = l.
Proof.
  revert pre. induction l as [|x l IH]; intros pre; [done|]. simpl.
  rewrite list_lookup_middle by done. f_equal.
  specialize (IH (pre ++ [x])). rewrite length_app, <- (assoc_L (++)) in IH.
  simpl in IH. by rewrite Nat.add_1_r in IH.
Qed.

(** The elements of a list at pairwise distinct positions form a
    sub-multiset of it. *)
Lemma omap_lookup_submseteq {A} (l : list A) (js : list nat) :
  NoDup js → Forall (λ j, j < length l) js → omap (l !!.) js ⊆+ l.
Proof.
  intros Hnd Hlt. assert (js ⊆+ seq 0 (length l)) as Hsub.
  { apply NoDup_submseteq; [done|]. intros j Hj. apply elem_of_seq.
    eapply Forall_forall in Hlt; [|done]. lia. }
  etrans; [by apply submseteq_omap|]. by rewrite <- (omap_lookup_seq [] l) at 2.
Qed.

(** The two computation rules of [≫=] on [option], for rewriting where
    [simpl] would unfold too much. *)
Lemma bind_some {A B} (x : A) (f : A → option B) : Some x ≫= f = f x.
Proof. done. Qed.

Lemma bind_none {A B} (f : A → option B) : None ≫= f = None.
Proof. done. Qed.

#[export] Hint Rewrite @bind_some @bind_none : pyq_rw.

(** ** Computations that never raise a given exception *)

Definition never_raises {Σ A} (e : exn) (m : PyM Σ A) : Prop := ∀ s, m s ≠ inl e.

Section NeverRaises.
Context {Σ : Type} (e : exn).

Lemma never_raises_ret {A} (x : A) : never_raises (Σ:=Σ) e (pret x).
Proof. by intros s. Qed.

Lemma never_raises_raise {A} e' : e' ≠ e → never_raises (Σ:=Σ) (A:=A) e (praise e').
Proof. intros Hne s [= ?]. by subst. Qed.

Lemma never_raises_bind {A B} (m : PyM Σ A) (k : A → PyM Σ B) :
  never_raises e m → (∀ a, never_raises e (k a)) → never_raises e (pbind m k).
Proof.
  intros Hm Hk s Hs. apply pbind_inl in Hs as [Hs|(a & s' & _ & Hs)]; [by apply (Hm s)|].
  by apply (Hk a s').
Qed.
End NeverRaises.

#[export] Hint Resolve never_raises_ret never_raises_bind : pyq.
#[export] Hint Extern 1 (never_raises _ (praise _)) => apply never_raises_raise; discriminate : pyq.

(** [no_raise] splits a chain of binds and closes the pieces with [pyq]. *)
Ltac no_raise := repeat (apply never_raises_bind; intros); auto with pyq.

(** [by_eval] closes a decidable goal about concrete data by evaluating
    its decision procedure. *)
Ltac by_eval := apply (bool_decide_unpack _); vm_compute; reflexivity.
