(* ===== verification/PyBuiltins.v ===== *)
(** * Python built-ins used by the program

    The list and [str] operations [app.py] calls: indexing and item
    assignment of a list (with Python's negative indices and [IndexError]),
    [list.remove] ([ValueError] when absent), [str.isspace] on code points 0-255,
    [str.split()] with no separator, [sep.join], [str.strip()],
    [str.startswith] and [str.replace].  Each is written the way CPython
    behaves, so that the code that calls them can be modelled line by line. *)

From S2P Require Import Prelude.

(** ** Lists *)

Section ListOps.
Context {Σ A : Type}.

(** [seq[i]] for a non-negative index. *)
Definition getitem (l : list A) (i : nat) : PyM Σ A :=
  match l !! i with Some x => pret x | None => praise IndexError end.

(** [seq[i] = x]: negative indices count from the end, anything else out
    of range raises [IndexError]. *)
Definition setitem (l : list A) (i : Z) (x : A) : PyM Σ (list A) :=
  let n := Z.of_nat (length l) in
  if decide (0 ≤ i < n)%Z then pret (<[Z.to_nat i := x]> l)
  else if decide (- n ≤ i < 0)%Z then pret (<[Z.to_nat (n + i) := x]> l)
  else praise IndexError.

Context `{EqDecision A}.

(** [list.remove(x)] removes the first element equal to [x]. *)
Fixpoint remove_first (x : A) (l : list A) : option (list A) :=
  match l with
  | [] => None
  | y :: l' => if decide (y = x) then Some l' else (y ::.) <$> remove_first x l'
  end.

Definition list_remove (l : list A) (x : A) : PyM Σ (list A) :=
  match remove_first x l with Some l' => pret l' | None => praise ValueError end.
End ListOps.

(** ** Strings *)

(** [str.isspace] on the code points 0-255 (also the [\s] class of [re]
    for [str] patterns): tab, line feed, vertical tab, form feed, carriage
    return, the four information separators 0x1c-0x1f, the space, NEL 0x85
    and the no-break space 0xa0. *)
Definition is_space (c : ascii) : bool :=
  let n := nat_of_ascii c in
  ((9 <=? n) && (n <=? 13)) || ((28 <=? n) && (n <=? 32)) || (n =? 133) || (n =? 160).

(** [str.split()]: maximal runs of non-space characters, in order. *)
Fixpoint split_go (acc : str) (s : str) : list str :=
  match s with
  | [] => match acc with [] => [] | _ => [reverse acc] end
  | c :: s' =>
      if is_space c then
        match acc with [] => split_go [] s' | _ => reverse acc :: split_go [] s' end
      else split_go (c :: acc) s'
  end.

Definition py_split (s : str) : list str := split_go [] s.

(** [sep.join(l)]. *)
Fixpoint py_join (sep : str) (l : list str) : str :=
  match l with
  | [] => []
  | [w] => w
  | w :: ws => w ++ sep ++ py_join sep ws
  end.

(** The suffix after the longest prefix of characters satisfying [p]. *)
Fixpoint skip_while (p : ascii → bool) (s : str) : str :=
  match s with
  | c :: s' => if p c then skip_while p s' else s
  | [] => []
  end.

(** [str.lstrip()] and [str.strip()]: drop leading (and trailing)
    whitespace. *)
Definition lstrip (s : str) : str := skip_while is_space s.

Definition py_strip (s : str) : str := reverse (lstrip (reverse (lstrip s))).

(** [s.startswith(p)]. *)
Fixpoint starts_with (p s : str) : bool :=
  match p, s with
  | [], _ => true
  | c :: p', d :: s' => bool_decide (c = d) && starts_with p' s'
  | _ :: _, [] => false
  end.

(** [s.replace(old, new)] for a non-empty [old]: every non-overlapping
    occurrence, scanning left to right.  [skip] counts the characters of
    the occurrence just replaced that are still to be dropped. *)
Fixpoint replace_go (old new : str) (skip : nat) (s : str) : str :=
  match s with
  | [] => []
  | c :: s' =>
      match skip with
      | S k => replace_go old new k s'
      | 0 =>
          if starts_with old s then new ++ replace_go old new (length old - 1) s'
          else c :: replace_go old new 0 s'
      end
  end.

(** With an empty [old], CPython inserts [new] before every character and
    at the end: ["ab".replace("", "X") == "XaXbX"]. *)
Definition py_replace (s old new : str) : str :=
  match old with
  | [] => new ++ mjoin (map (λ c, c :: new) s)
  | _ :: _ => replace_go old new 0 s
  end.

(** [s.split(sep)] with an explicit separator: the pieces between the
    non-overlapping occurrences of [sep], scanning left to right, with the
    empty pieces kept ([",a,".split(",") == ["", "a", ""]]).  The program
    does not call it; it is the reference [str.replace] is compared with. *)
Fixpoint split_sep_go (sep : str) (skip : nat) (acc s : str) : list str :=
  match s with
  | [] => [reverse acc]
  | c :: s' =>
      match skip with
      | S k => split_sep_go sep k acc s'
      | 0 =>
          if starts_with sep s then reverse acc :: split_sep_go sep (length sep - 1) [] s'
          else split_sep_go sep 0 (c :: acc) s'
      end
  end.

Definition py_split_sep (sep s : str) : list str := split_sep_go sep 0 [] s.

(** The newline character ['\n']. *)
Definition nl : ascii := ascii_of_nat 10.

(** ** Words *)

(** A word of [str.split()]: non-empty and free of whitespace. *)
Definition word_ok (w : str) : Prop := w ≠ [] ∧ Forall (λ c, is_space c = false) w.

(** A whitespace-normal string: words joined by single spaces, with no
    leading or trailing whitespace. *)
Definition ws_normal (s : str) : Prop :=
  ∃ ws, Forall word_ok ws ∧ s = py_join [" "%char] ws.

(** ** Lemmas *)

Section ListLemmas.
Context {Σ A : Type}.

Lemma setitem_in_range (l : list A) (i : nat) (x : A) :
  i < length l → setitem (Σ:=Σ) l (Z.of_nat i) x = pret (<[i := x]> l).
Proof.
  intros Hi. unfold setitem. rewrite decide_True by lia. by rewrite Nat2Z.id.
Qed.

Lemma setitem_ok (l : list A) (i : nat) x l' s s' :
  i < length l → setitem (Σ:=Σ) l (Z.of_nat i) x s = inr (l', s') → l' = <[i := x]> l.
Proof. intros Hi. rewrite setitem_in_range by done. by intros [= <- _]. Qed.

Lemma getitem_ok (l : list A) i s x s' : getitem (Σ:=Σ) l i s = inr (x, s') → l !! i = Some x.
Proof. unfold getitem. destruct (l !! i); [by intros [= -> _]|done]. Qed.

Lemma getitem_lookup (l : list A) i x :
  l !! i = Some x → getitem (Σ:=Σ) l i = pret x.
Proof. unfold getitem. by intros ->. Qed.

Context `{EqDecision A}.

Lemma remove_first_perm (x : A) l l' : remove_first x l = Some l' → l ≡ₚ x :: l'.
Proof.
  revert l'. induction l as [|y l IH]; intros l'; simpl; [done|].
  case_decide; [intros [= <-]; by subst|].
  destruct (remove_first x l) as [l''|]; simpl; [|done].
  intros [= <-]. rewrite (IH l'' eq_refl). by constructor.
Qed.

Lemma remove_first_elem (x : A) l : x ∈ l → is_Some (remove_first x l).
Proof.
  induction l as [|y l IH]; simpl; [by intros ?%elem_of_nil|].
  case_decide; [by eauto|]. intros [->|Hx]%elem_of_cons; [done|].
  destruct (IH Hx) as [l' ->]. by eexists.
Qed.

Lemma list_remove_elem (l : list A) x s :
  x ∈ l → ∃ l', list_remove (Σ:=Σ) l x s = inr (l', s) ∧ l ≡ₚ x :: l'.
Proof.
  intros Hx. destruct (remove_first_elem x l Hx) as [l' Hl'].
  exists l'. unfold list_remove. rewrite Hl'. split; [done|].
  by apply remove_first_perm.
Qed.
End ListLemmas.

Lemma split_go_word acc w s :
  Forall (λ c, is_space c = false) w →
  split_go acc (w ++ s) = split_go (reverse w ++ acc) s.
Proof.
  revert acc. induction w as [|c w IH]; intros acc Hw; [done|].
  inversion Hw as [|? ? Hc Hw']; subst. simpl. rewrite Hc, IH by done.
  by rewrite reverse_cons, <- (assoc_L (++)).
Qed.

Lemma reverse_nonempty {A} (l : list A) : l ≠ [] → reverse l ≠ [].
Proof. intros Hl Hr. apply Hl, (inj reverse). by rewrite Hr. Qed.

Lemma split_flush {B} w (nil_case : B) (cons_case : str → B) :
  w ≠ [] →
  match reverse w with [] => nil_case | _ :: _ => cons_case (reverse (reverse w)) end
  = cons_case w.
Proof.
  intros Hw. rewrite reverse_involutive.
  destruct (reverse w) eqn:E; [by destruct (reverse_nonempty w Hw)|done].
Qed.

Lemma py_join_cons2 sep w w' ws :
  py_join sep (w :: w' :: ws) = w ++ sep ++ py_join sep (w' :: ws).
Proof. done. Qed.

Lemma split_go_space c acc s :
  is_space c = true →
  split_go acc ([c] ++ s) =
  match acc with [] => split_go [] s | _ => reverse acc :: split_go [] s end.
Proof. intros Hc. simpl. by rewrite Hc. Qed.

(** [str.split()] inverts [' '.join] on words. *)
Lemma split_join ws : Forall word_ok ws → py_split (py_join [" "%char] ws) = ws.
Proof.
  unfold py_split. induction ws as [|w ws IH]; intros Hws; [done|].
  inversion Hws as [|? ? [Hw Hwc] Hws']; subst.
  destruct ws as [|w' ws].
  - simpl. rewrite <- (app_nil_r w), split_go_word, !app_nil_r by done.
    exact (split_flush w [] (λ x, [x]) Hw).
  - rewrite py_join_cons2, split_go_word, app_nil_r by done.
    rewrite (split_go_space " "%char) by done.
    rewrite (split_flush w (split_go [] _) (λ x, x :: split_go [] _) Hw).
    f_equal. by apply IH.
Qed.

Lemma ws_normal_join_split s : ws_normal s → py_join [" "%char] (py_split s) = s.
Proof. intros (ws & Hws & ->). by rewrite split_join. Qed.

Lemma lstrip_cons c s : lstrip (c :: s) = if is_space c then lstrip s else c :: s.
Proof. done. Qed.

Lemma lstrip_nil : lstrip [] = [].
Proof. done. Qed.

Lemma lstrip_suffix s : ∃ p, s = p ++ lstrip s ∧ Forall (λ c, is_space c = true) p.
Proof.
  induction s as [|c s (p & Hp & Hsp)]; [by exists []|]. rewrite lstrip_cons.
  destruct (is_space c) eqn:Hc.
  - exists (c :: p). split; [by rewrite Hp at 1|by constructor].
  - by exists [].
Qed.

Lemma lstrip_app_spaces p y : Forall (λ c, is_space c = true) p → lstrip (p ++ y) = lstrip y.
Proof. induction 1 as [|c p Hc _ IH]; [done|]. simpl. by rewrite lstrip_cons, Hc. Qed.

Lemma split_go_words acc s :
  Forall (λ c, is_space c = false) acc → Forall word_ok (split_go acc s).
Proof.
  assert (∀ acc : str, acc ≠ [] → Forall (λ c, is_space c = false) acc → word_ok (reverse acc))
    as Hw by (intros a Ha Hf; split; [by apply reverse_nonempty|by apply Forall_reverse]).
  revert acc. induction s as [|c s IH]; intros acc Hacc; simpl.
  - destruct acc as [|a acc]; constructor; [by apply Hw|constructor].
  - destruct (is_space c) eqn:Hc.
    + destruct acc as [|a acc]; [by apply IH|]. constructor; [by apply Hw|by apply IH].
    + apply IH. by constructor.
Qed.

(** Every word of [str.split()] is non-empty and free of whitespace. *)
Lemma py_split_words s : Forall word_ok (py_split s).
Proof. by apply split_go_words. Qed.

Lemma py_join_last sep ws c :
  Forall word_ok ws → last (py_join sep ws) = Some c → is_space c = false.
Proof.
  induction 1 as [|w ws [Hw Hwc] Hws IH]; [done|]. destruct ws as [|w' ws].
  - intros Hl. apply last_Some_elem_of in Hl. by eapply Forall_forall in Hwc.
  - rewrite py_join_cons2. inversion Hws as [|? ? [Hw' _] _]; subst.
    rewrite (assoc_L (++)), last_app. destruct (last (py_join sep (w' :: ws))) eqn:E.
    + intros [= <-]. by apply IH.
    + destruct ws; simpl in E; apply last_None in E; [done|].
      by apply app_eq_nil in E as [? _].
Qed.

Lemma list_remove_ok {Σ A} `{EqDecision A} (l : list A) x l' s s' :
  list_remove (Σ:=Σ) l x s = inr (l', s') → l ≡ₚ x :: l'.
Proof.
  unfold list_remove. destruct (remove_first x l) eqn:E; [|done].
  intros [= <- _]. by apply remove_first_perm.
Qed.

Section NeverFuel.
Context {Σ A : Type}.

Lemma getitem_no_fuel (l : list A) i : never_raises (Σ:=Σ) FuelExhausted (getitem l i).
Proof. unfold getitem. destruct (l !! i); auto with pyq. Qed.

Lemma setitem_no_fuel (l : list A) i x : never_raises (Σ:=Σ) FuelExhausted (setitem l i x).
Proof. unfold setitem. repeat case_decide; auto with pyq. Qed.

Lemma list_remove_no_fuel `{EqDecision A} (l : list A) x :
  never_raises (Σ:=Σ) FuelExhausted (list_remove l x).
Proof. unfold list_remove. destruct (remove_first x l); auto with pyq. Qed.
End NeverFuel.

#[export] Hint Resolve getitem_no_fuel setitem_no_fuel list_remove_no_fuel : pyq.

Lemma list_remove_head {Σ} (x : str) l (st : Σ) : list_remove (x :: l) x st = inr (l, st).
Proof. unfold list_remove. simpl. by rewrite decide_True. Qed.

(** ** [str.replace] against [str.split] *)

Lemma split_sep_go_cons sep skip acc s : ∃ w ws, split_sep_go sep skip acc s = w :: ws.
Proof.
  revert skip acc. induction s as [|c s IH]; intros skip acc; [by eexists _, _|].
  destruct skip; simpl; [|apply IH]. destruct (starts_with sep (c :: s)); [by eexists _, _|apply IH].
Qed.

Lemma replace_go_split old new skip acc s :
  reverse acc ++ replace_go old new skip s = py_join new (split_sep_go old skip acc s).
Proof.
  revert skip acc. induction s as [|c s IH]; intros skip acc.
  { by rewrite app_nil_r. }
  destruct skip as [|k]; simpl; [|apply IH].
  destruct (starts_with old (c :: s)).
  - destruct (split_sep_go_cons old (length old - 1) [] s) as (w & ws & Hs).
    rewrite Hs, py_join_cons2, <- Hs, <- IH. done.
  - rewrite <- IH, reverse_cons, <- (assoc_L (++)). done.
Qed.

(** [s.replace(old, new) == new.join(s.split(old))] for a non-empty
    [old]: the model of [str.replace] that builds the blank of a
    multiple-choice question (line 107) agrees with the reference given by
    [str.split] and [str.join]. *)
Theorem replace_is_join_split s old new :
  old ≠ [] → py_replace s old new = py_join new (py_split_sep old s).
Proof. intros Hold. destruct old as [|o old]; [done|]. apply (replace_go_split _ _ 0 []). Qed.
