(* ===== verification/PyRandom.v ===== *)
(** * The [random] module calls of the program

    [app.py] uses the global generator through [random.choice],
    [random.randint], [random.sample] and [random.shuffle].  CPython builds
    each of them on one primitive, [Random._randbelow(n)], which returns an
    integer of [range(n)].  The generator is the interface [RandomSource]:
    a state type with [randbelow] and the law that its result is below [n].
    The theorems of the development are proved against this interface, so
    they hold for every outcome of the random draws; [stream_source] is an
    implementation, a scripted list of draws, used to run the model on
    concrete inputs.

    [sample] follows CPython's [Random.sample]: the pool algorithm when the
    population has at most [setsize] elements, and otherwise the rejection
    loop that redraws a position until it is not yet selected.  That loop
    ends with probability 1 but not for every generator, so the model gives
    it as many draws as the population has elements and reports
    [RejectionExhausted] beyond; [FairSource] is the class of generators
    for which the budget always suffices, and [counter_source] is one. *)

From S2P Require Import Prelude PyBuiltins.

Class RandomSource (Σ : Type) := {
  randbelow : nat → Σ → nat * Σ;
  randbelow_lt n s : 0 < n → (randbelow n s).1 < n
}.

Section Random.
Context {Σ : Type} {rs : RandomSource Σ}.

Definition py_randbelow (n : nat) : PyM Σ nat := λ s, inr (randbelow n s).

(** [random.choice(seq)]: [IndexError] on an empty sequence. *)
Definition choice {A} (l : list A) : PyM Σ A :=
  match l with
  | [] => praise IndexError
  | _ :: _ => let* i := py_randbelow (length l) in getitem l i
  end.

(** [random.randrange(start, stop)] and [random.randint(a, b)], which is
    [randrange(a, b + 1)]: an empty range raises [ValueError]. *)
Definition randrange (start stop : Z) : PyM Σ Z :=
  let width := (stop - start)%Z in
  if decide (0 < width)%Z then
    let* i := py_randbelow (Z.to_nat width) in pret (start + Z.of_nat i)%Z
  else praise ValueError.

Definition randint (a b : Z) : PyM Σ Z := randrange a (b + 1).

(** The loop of [random.sample]: [m] elements of [pool] are still
    candidates; pick [j], emit [pool[j]], move [pool[m-1]] into slot [j]. *)
Fixpoint sample_loop {A} (k : nat) (pool : list A) (m : nat) : PyM Σ (list A) :=
  match k with
  | 0 => pret []
  | S k' =>
      let* j := py_randbelow m in
      let* x := getitem pool j in
      let* last := getitem pool (m - 1) in
      let* rest := sample_loop k' (<[j := last]> pool) (m - 1) in
      pret (x :: rest)
  end.

(** [4 ** _ceil(_log(x, 4))]: the least power of 4 that is at least [x]
    (for [x = 3k], which is never a power of 4, the float computation gives
    the same number). *)
Fixpoint pow4_ceil_go (x e fuel : nat) : nat :=
  match fuel with
  | 0 => 4 ^ e
  | S f => if x <=? 4 ^ e then 4 ^ e else pow4_ceil_go x (S e) f
  end.

(** [setsize] of [Random.sample]. *)
Definition sample_setsize (k : nat) : nat :=
  21 + (if 5 <? k then pow4_ceil_go (3 * k) 0 (3 * k) else 0).

(** [j = randbelow(n)] and [while j in selected: j = randbelow(n)], with a
    budget of [fuel] draws. *)
Fixpoint reject_draw (fuel n : nat) (selected : list nat) : PyM Σ nat :=
  match fuel with
  | 0 => praise RejectionExhausted
  | S f =>
      let* j := py_randbelow n in
      if decide (j ∈ selected) then reject_draw f n selected else pret j
  end.

(** The loop of the set branch: [k] positions drawn by rejection. *)
Fixpoint sample_set_loop {A} (k : nat) (population : list A) (selected : list nat)
    : PyM Σ (list A) :=
  match k with
  | 0 => pret []
  | S k' =>
      let* j := reject_draw (length population) (length population) selected in
      let* x := getitem population j in
      let* rest := sample_set_loop k' population (j :: selected) in
      pret (x :: rest)
  end.

(** [random.sample(population, k)]: [ValueError] unless [k <= n], then the
    pool algorithm or the set algorithm depending on [setsize]. *)
Definition sample {A} (population : list A) (k : nat) : PyM Σ (list A) :=
  let n := length population in
  if decide (k ≤ n) then
    if decide (n ≤ sample_setsize k) then sample_loop k population n
    else sample_set_loop k population []
  else praise ValueError.

(** [x[i], x[j] = x[j], x[i]]. *)
Definition list_swap {A} (x : list A) (i j : nat) : list A :=
  match x !! i, x !! j with
  | Some a, Some b => <[j := a]> (<[i := b]> x)
  | _, _ => x
  end.

(** [for i in reversed(range(1, len(x))): j = _randbelow(i + 1); swap]. *)
Fixpoint shuffle_loop {A} (i : nat) (x : list A) : PyM Σ (list A) :=
  match i with
  | 0 => pret x
  | S i' => let* j := py_randbelow (S i) in shuffle_loop i' (list_swap x i j)
  end.

Definition shuffle {A} (x : list A) : PyM Σ (list A) := shuffle_loop (length x - 1) x.
End Random.

(** A scripted generator: each draw takes the next number of the list,
    reduced modulo [n]; an exhausted script draws 0. *)
#[export] Program Instance stream_source : RandomSource (list nat) := {
  randbelow n s := match s with [] => (0, []) | r :: s' => (r mod n, s') end
}.
Next Obligation. intros n [|r s] Hn; simpl; [lia|]. apply Nat.mod_upper_bound. lia. Qed.

(** ** Specifications of the random calls *)

Section RandomLemmas.
Context {Σ : Type} {rs : RandomSource Σ}.

Lemma py_randbelow_lt n s : 0 < n → ∃ i, py_randbelow n s = inr (i, (randbelow n s).2) ∧ i < n.
Proof.
  intros Hn. exists (randbelow n s).1. split; [|by apply randbelow_lt].
  unfold py_randbelow. by destruct (randbelow n s).
Qed.

Lemma py_randbelow_ok n s j s' : 0 < n → py_randbelow n s = inr (j, s') → j < n.
Proof.
  unfold py_randbelow. intros Hn Hj. pose proof (randbelow_lt n s Hn) as Hlt.
  destruct (randbelow n s). by simplify_eq.
Qed.

(** [choice] returns an element of a non-empty list. *)
Lemma choice_elem {A} (l : list A) s :
  l ≠ [] → ∃ x s', choice l s = inr (x, s') ∧ x ∈ l.
Proof.
  intros Hl. destruct l as [|a l']; [done|].
  destruct (py_randbelow_lt (length (a :: l')) s) as (i & Hi & Hlt); [simpl; lia|].
  destruct (lookup_lt_is_Some_2 (a :: l') i Hlt) as [x Hx].
  exists x, (randbelow (length (a :: l')) s).2. split.
  - unfold choice. py_step Hi. by rewrite (getitem_lookup _ _ _ Hx).
  - by eapply list_elem_of_lookup_2.
Qed.

Lemma choice_ok_elem {A} (l : list A) s x s' : choice l s = inr (x, s') → x ∈ l.
Proof.
  unfold choice, getitem. destruct l as [|a l']; [done|]. intros Hc. py_inv.
  destruct ((a :: l') !! _) eqn:E; [|done]. py_inv. by eapply list_elem_of_lookup_2.
Qed.

Lemma choice_nil {A} s : choice (A:=A) [] s = inl IndexError.
Proof. done. Qed.

(** [randint a b] draws from [[a, b]] and raises [ValueError] when [b < a]. *)
Lemma randint_range a b s :
  (a ≤ b)%Z → ∃ i s', randint a b s = inr (i, s') ∧ (a ≤ i ≤ b)%Z.
Proof.
  intros Hab. unfold randint, randrange. rewrite decide_True by lia.
  destruct (py_randbelow_lt (Z.to_nat (b + 1 - a)) s) as (i & Hi & Hlt); [lia|].
  eexists _, _. py_step Hi. split; [done|]. lia.
Qed.

Lemma randint_ok a b s i s' : randint a b s = inr (i, s') → (a ≤ i ≤ b)%Z.
Proof.
  unfold randint, randrange. case_decide; [|done]. intros Hr.
  apply pbind_inr in Hr as (j & s1 & Hj & [= <- _]).
  apply py_randbelow_ok in Hj; lia.
Qed.

Lemma randint_empty a b s : (b < a)%Z → randint a b s = inl ValueError.
Proof. intros Hab. unfold randint, randrange. by rewrite decide_False by lia. Qed.

Lemma sample_step_perm {A} (pool : list A) m j x y :
  j < m → m ≤ length pool → pool !! j = Some x → pool !! (m - 1) = Some y →
  x :: take (m - 1) (<[j := y]> pool) ≡ₚ take m pool.
Proof.
  intros Hj Hm Hx Hy.
  replace (take m pool) with (take (m - 1) pool ++ [y])
    by (rewrite <- (take_S_r pool (m - 1) y Hy); f_equal; lia).
  destruct (decide (j = m - 1)) as [->|Hne].
  - rewrite take_insert_ge by lia. simplify_eq. by rewrite Permutation_cons_append.
  - rewrite take_insert_lt by lia. rewrite <- Permutation_cons_append.
    assert (take (m - 1) pool !! j = Some x) by (rewrite lookup_take_lt by lia; done).
    etrans; [|apply (Permutation_insert_swap (y :: take (m - 1) pool) 0 (S j) y x)];
      simpl; done.
Qed.

Lemma sample_loop_spec {A} k (pool : list A) m s :
  k ≤ m → m ≤ length pool →
  ∃ r s', sample_loop k pool m s = inr (r, s') ∧ r ⊆+ take m pool ∧ length r = k.
Proof.
  revert pool m s. induction k as [|k IH]; intros pool m s Hk Hm.
  { eexists [], _. split; [done|]. split; [apply submseteq_nil_l|done]. }
  destruct (py_randbelow_lt m s) as (j & Hj & Hlt); [lia|].
  destruct (lookup_lt_is_Some_2 pool j) as [x Hx]; [lia|].
  destruct (lookup_lt_is_Some_2 pool (m - 1)) as [y Hy]; [lia|].
  destruct (IH (<[j := y]> pool) (m - 1) (randbelow m s).2) as (r & s' & Hr & Hsub & Hlen);
    [lia|rewrite length_insert; lia|].
  exists (x :: r), s'. split.
  - simpl. py_step Hj. rewrite (getitem_lookup _ _ _ Hx).
    rewrite pret_bind, (getitem_lookup _ _ _ Hy), pret_bind. by py_step Hr.
  - split; [|simpl; lia]. eapply submseteq_cons_perm; [done|].
    by apply sample_step_perm.
Qed.

Lemma list_swap_perm {A} (x : list A) i j :
  i < length x → j < length x → list_swap x i j ≡ₚ x.
Proof.
  intros Hi Hj. unfold list_swap.
  destruct (lookup_lt_is_Some_2 x i Hi) as [a Ha], (lookup_lt_is_Some_2 x j Hj) as [b Hb].
  rewrite Ha, Hb. by apply Permutation_insert_swap.
Qed.

Lemma shuffle_loop_spec {A} i (x : list A) s :
  (i < length x ∨ i = 0) → ∃ r s', shuffle_loop i x s = inr (r, s') ∧ r ≡ₚ x.
Proof.
  revert x s. induction i as [|i IH]; intros x s Hi; [by eexists _, _|].
  destruct (py_randbelow_lt (S (S i)) s) as (j & Hj & Hlt); [lia|].
  destruct (IH (list_swap x (S i) j) (randbelow (S (S i)) s).2) as (r & s' & Hr & Hp).
  { left. rewrite (Permutation_length (list_swap_perm x (S i) j ltac:(lia) ltac:(lia))). lia. }
  exists r, s'. simpl. py_step Hj. split; [done|].
  by rewrite Hp, list_swap_perm by lia.
Qed.

(** [random.shuffle] permutes the list. *)
Lemma shuffle_perm {A} (x : list A) s : ∃ r s', shuffle x s = inr (r, s') ∧ r ≡ₚ x.
Proof. apply shuffle_loop_spec. destruct x; simpl; lia. Qed.

Lemma shuffle_ok_perm {A} (x r : list A) s s' : shuffle x s = inr (r, s') → r ≡ₚ x.
Proof.
  intros Hs. destruct (shuffle_perm x s) as (r' & s'' & Hs' & Hp). congruence.
Qed.

(** The pool branch with [k <= len(population)] succeeds with [k]
    elements taken at distinct positions of the population. *)
Lemma sample_pool_spec {A} (pop : list A) k s :
  k ≤ length pop →
  ∃ r s', sample_loop k pop (length pop) s = inr (r, s') ∧ r ⊆+ pop ∧ length r = k.
Proof.
  intros Hk. destruct (sample_loop_spec k pop (length pop) s) as (r & s' & ? & ? & ?); [done..|].
  exists r, s'. by rewrite take_ge in * by lia.
Qed.

(** A draw of the rejection loop is a position not yet selected. *)
Lemma reject_draw_ok f n sel s j s' : reject_draw f n sel s = inr (j, s') → j ∉ sel.
Proof.
  revert s. induction f as [|f IH]; intros s Hr; [done|]. simpl in Hr.
  apply pbind_inr in Hr as (j' & s1 & _ & Hr). case_decide; [by eapply IH|]. by py_inv.
Qed.

(** The set branch takes the population at distinct positions, none of
    them selected before. *)
Lemma sample_set_loop_ok {A} k (pop : list A) sel s r s' :
  sample_set_loop k pop sel s = inr (r, s') → NoDup sel → Forall (λ j, j < length pop) sel →
  r ++ omap (pop !!.) sel ⊆+ pop ∧ length r = k.
Proof.
  revert sel s r s'. induction k as [|k IH]; intros sel s r s' Hs Hnd Hlt; simpl in Hs.
  { injection Hs as <- _. split; [by apply omap_lookup_submseteq|done]. }
  apply pbind_inr in Hs as (j & s1 & Hj & Hs). apply reject_draw_ok in Hj.
  apply pbind_inr in Hs as (x & s2 & Hx & Hs). apply getitem_ok in Hx.
  apply pbind_inr in Hs as (rest & s3 & Hrest & [= <- _]).
  destruct (IH (j :: sel) _ _ _ Hrest) as [Hsub Hlen];
    [by constructor|constructor; [by eapply lookup_lt_Some|done]|].
  split; [|simpl; lia]. simpl in Hsub. rewrite Hx in Hsub. simpl.
  by rewrite Permutation_middle.
Qed.

(** Whatever the branch, a result of [random.sample] is a sub-multiset of
    the population of the requested length. *)
Lemma sample_ok {A} (pop r : list A) k s s' :
  sample pop k s = inr (r, s') → r ⊆+ pop ∧ length r = k.
Proof.
  unfold sample. case_decide as Hk; [|done]. case_decide; intros Hs.
  - destruct (sample_pool_spec pop k s Hk) as (r' & s'' & Hs' & ?). rewrite Hs in Hs'. by simplify_eq.
  - destruct (sample_set_loop_ok k pop [] s r s' Hs) as [Hsub Hlen]; [constructor..|].
    rewrite app_nil_r in Hsub. done.
Qed.
End RandomLemmas.

(** ** Generators for which the rejection loop ends *)

(** A fair generator: from every state, the budget of [n] draws below [n]
    reaches every position missing from [sel]. *)
Class FairSource (Σ : Type) {rs : RandomSource Σ} :=
  reject_draw_fair n sel s :
    (∃ j, j < n ∧ j ∉ sel) → ∃ j s', reject_draw n n sel s = inr (j, s').

(** A set with fewer than [n] positions misses a position below [n]. *)
Lemma length_lt_free n (sel : list nat) : length sel < n → ∃ j, j < n ∧ j ∉ sel.
Proof.
  intros Hlt. destruct (decide (Forall (λ j, j ∈ sel) (seq 0 n))) as [Hall|Hnot].
  - exfalso. assert (seq 0 n ⊆+ sel) as Hsub.
    { apply NoDup_submseteq; [apply NoDup_seq|]. by apply Forall_forall. }
    apply submseteq_length in Hsub. rewrite length_seq in Hsub. lia.
  - apply not_Forall_Exists, Exists_exists in Hnot as (j & Hj%elem_of_seq & Hn); [|apply _].
    exists j. split; [lia|done].
Qed.

Section FairSampling.
Context {Σ : Type} {rs : RandomSource Σ} {fs : FairSource Σ}.

Lemma reject_draw_lt f n sel s j s' : 0 < n → reject_draw f n sel s = inr (j, s') → j < n.
Proof.
  revert s. induction f as [|f IH]; intros s Hn Hr; [done|]. simpl in Hr.
  apply pbind_inr in Hr as (j' & s1 & Hj' & Hr). case_decide; [by eapply IH|].
  py_inv. by eapply py_randbelow_ok.
Qed.

Lemma sample_set_loop_spec {A} k (pop : list A) sel s :
  length sel + k ≤ length pop → ∃ r s', sample_set_loop k pop sel s = inr (r, s').
Proof.
  revert sel s. induction k as [|k IH]; intros sel s Hk; [by eexists _, _|].
  destruct (reject_draw_fair (length pop) sel s) as (j & s1 & Hj);
    [apply length_lt_free; lia|].
  assert (j < length pop) as Hjl by (eapply reject_draw_lt; [|exact Hj]; lia).
  destruct (lookup_lt_is_Some_2 pop j Hjl) as [x Hx].
  destruct (IH (j :: sel) s1) as (r & s' & Hr); [simpl; lia|].
  eexists _, _. simpl. py_step Hj. rewrite (getitem_lookup _ _ _ Hx), pret_bind. by py_step Hr.
Qed.

(** With a fair generator, [random.sample(population, k)] returns for every
    [k <= len(population)]. *)
Lemma sample_spec {A} (pop : list A) k s :
  k ≤ length pop → ∃ r s', sample pop k s = inr (r, s') ∧ r ⊆+ pop ∧ length r = k.
Proof.
  intros Hk. assert (∃ r s', sample pop k s = inr (r, s')) as (r & s' & Hs).
  { unfold sample. rewrite decide_True by done. case_decide.
    - destruct (sample_pool_spec pop k s Hk) as (r & s' & ? & _). by exists r, s'.
    - apply sample_set_loop_spec. simpl. lia. }
  exists r, s'. split; [done|]. by eapply sample_ok.
Qed.
End FairSampling.

Section RandomNeverFuel.
Context {Σ : Type} {rs : RandomSource Σ}.

Lemma py_randbelow_no_fuel n : never_raises FuelExhausted (py_randbelow (Σ:=Σ) n).
Proof. by intros s. Qed.
Hint Resolve py_randbelow_no_fuel : pyq.

Lemma choice_no_fuel {A} (l : list A) : never_raises FuelExhausted (choice (Σ:=Σ) l).
Proof. unfold choice. destruct l; auto with pyq. Qed.

Lemma randint_no_fuel a b : never_raises FuelExhausted (randint (Σ:=Σ) a b).
Proof. unfold randint, randrange. case_decide; auto with pyq. Qed.

Lemma sample_loop_no_fuel {A} k (l : list A) m :
  never_raises FuelExhausted (sample_loop (Σ:=Σ) k l m).
Proof. revert l m. induction k; simpl; no_raise. Qed.
Hint Resolve sample_loop_no_fuel : pyq.

Lemma reject_draw_no_fuel f n sel : never_raises FuelExhausted (reject_draw (Σ:=Σ) f n sel).
Proof. induction f; simpl; no_raise. case_decide; auto with pyq. Qed.
Hint Resolve reject_draw_no_fuel : pyq.

Lemma sample_set_loop_no_fuel {A} k (l : list A) sel :
  never_raises FuelExhausted (sample_set_loop (Σ:=Σ) k l sel).
Proof. revert sel. induction k; simpl; no_raise. Qed.
Hint Resolve sample_set_loop_no_fuel : pyq.

Lemma sample_no_fuel {A} (l : list A) k : never_raises FuelExhausted (sample (Σ:=Σ) l k).
Proof. unfold sample. repeat case_decide; no_raise. Qed.

Lemma shuffle_no_fuel {A} (l : list A) : never_raises FuelExhausted (shuffle (Σ:=Σ) l).
Proof.
  unfold shuffle. generalize (length l - 1). generalize l. intros l' i. revert l'.
  induction i; simpl; no_raise.
Qed.
End RandomNeverFuel.

#[export] Hint Resolve py_randbelow_no_fuel choice_no_fuel randint_no_fuel sample_no_fuel
  shuffle_no_fuel : pyq.

(** ** The scripted generator on given draws *)

Lemma randbelow_stream_lt r k rest :
  r < k → py_randbelow (Σ:=list nat) k (r :: rest) = inr (r, rest).
Proof. intros Hr. unfold py_randbelow. simpl. by rewrite Nat.mod_small. Qed.

Lemma randint_stream a b r rest :
  (a ≤ b)%Z → r < Z.to_nat (b + 1 - a) →
  randint (Σ:=list nat) a b (r :: rest) = inr ((a + Z.of_nat r)%Z, rest).
Proof.
  intros Hab Hr. unfold randint, randrange. rewrite decide_True by lia.
  unfold pbind, py_randbelow. simpl. by rewrite Nat.mod_small.
Qed.

Lemma choice_stream {A} (l : list A) j w rest :
  l !! j = Some w → choice (Σ:=list nat) l (j :: rest) = inr (w, rest).
Proof.
  intros Hw. pose proof (lookup_lt_Some _ _ _ Hw) as Hj.
  destruct l as [|a l]; [done|]. unfold choice.
  py_step (randbelow_stream_lt j (length (a :: l)) rest Hj). by rewrite (getitem_lookup _ _ _ Hw).
Qed.

Lemma choice_head {A} (x : A) l rest : choice (Σ:=list nat) (x :: l) (0 :: rest) = inr (x, rest).
Proof. by apply choice_stream. Qed.

(** A counting generator: the [i]-th draw below [n] is [(s + i) mod n].
    It is fair, since [n] consecutive draws reach every position. *)
#[export] Program Instance counter_source : RandomSource nat := {
  randbelow n s := (s mod n, S s)
}.
Next Obligation. intros n s Hn. simpl. apply Nat.mod_upper_bound. lia. Qed.

Lemma counter_reject f n sel s i :
  i < f → (s + i) mod n ∉ sel → ∃ j s', reject_draw (Σ:=nat) f n sel s = inr (j, s').
Proof.
  revert s i. induction f as [|f IH]; intros s i Hi Hn; [lia|].
  simpl. unfold pbind, py_randbelow. simpl. case_decide as Hin; [|by eexists _, _].
  destruct i as [|i]; [by rewrite Nat.add_0_r in Hn|].
  apply (IH (S s) i); [lia|]. by replace (S s + i) with (s + S i) by lia.
Qed.

#[export] Instance counter_fair : FairSource nat.
Proof.
  intros n sel s (j & Hj & Hjs). pose proof (Nat.div_mod_eq s n) as Hs.
  pose proof (Nat.mod_upper_bound s n ltac:(lia)) as Hr.
  destruct (decide (s mod n ≤ j)).
  - apply (counter_reject n n sel s (j - s mod n)); [lia|].
    rewrite <- (Nat.mod_unique (s + (j - s mod n)) n (s / n) j); [done|lia|lia].
  - apply (counter_reject n n sel s (j + n - s mod n)); [lia|].
    rewrite <- (Nat.mod_unique (s + (j + n - s mod n)) n (S (s / n)) j); [done|lia|nia].
Qed.

(** The set branch on 30 candidates: the second draw hits the selected
    position 5 and is drawn again. *)
Example sample_set_branch_redraw :
  sample (Σ:=list nat) (seq 100 30) 2 [5; 5; 7] = inr ([105; 107], []).
Proof. vm_compute. reflexivity. Qed.
