(* ===== verification/Regex.v ===== *)
(** * Regular expressions and [re.sub]

    The program calls [re.sub] with three patterns (lines 47, 220 and 222
    of [app.py]).  They use literal characters, the classes [\d] and [\s],
    concatenation, the greedy optional group [(?:...)?] and the greedy
    repetition [+].  [bt] is a backtracking matcher for that fragment in
    the order Python's engine explores the alternatives (an optional group
    is tried before it is skipped, a repetition tries one more iteration
    before it stops), and [re_sub] is the left-to-right scan of [re.sub]:
    at each position the first match is replaced and the scan resumes after
    it, otherwise one character is copied.  The patterns of the program
    never match the empty string ([ts_re_consumes] and its siblings), which
    is the case this scan describes.  The last part gives deterministic
    scanners for the two timestamp patterns and proves that the
    backtracking matcher agrees with them ([re_match_ts], [simple_ts_re_scan]), and that a
    simple marker of line 47 is a marker of line 220. *)

From S2P Require Import Prelude PyBuiltins.

Inductive regex :=
  | RChar (c : ascii)
  | RDigit
  | RSpace
  | RSeq (r1 r2 : regex)
  | ROpt (r : regex)
  | RPlus (r : regex).

(** [\d] on the code points 0-255: the decimal digits 0-9. *)
Definition is_digit (c : ascii) : bool :=
  let n := nat_of_ascii c in (48 <=? n) && (n <=? 57).

Definition atom (p : ascii → bool) (s : str) (k : str → option str) : option str :=
  match s with c :: s' => if p c then k s' else None | [] => None end.

(** The repetition of [r+] with at most [n] further iterations: one
    iteration of [m], then more iterations if they lead to a match, else the
    continuation. *)
Fixpoint plus_loop (m : str → (str → option str) → option str)
    (k : str → option str) (n : nat) (s : str) : option str :=
  m s (λ s', match (match n with 0 => None | S n' => plus_loop m k n' s' end) with
             | Some t => Some t
             | None => k s'
             end).

(** [bt r s k]: match [r] at the start of [s], then the continuation [k]
    on what remains; the first success in backtracking order. *)
Fixpoint bt (r : regex) (s : str) (k : str → option str) {struct r} : option str :=
  match r with
  | RChar c => atom (λ d, bool_decide (c = d)) s k
  | RDigit => atom is_digit s k
  | RSpace => atom is_space s k
  | RSeq r1 r2 => bt r1 s (λ s', bt r2 s' k)
  | ROpt r1 => match bt r1 s k with Some t => Some t | None => k s end
  | RPlus r1 => plus_loop (bt r1) k (length s) s
  end.

(** [re.match(r, s)]: the rest of [s] after the first match at its start. *)
Definition re_match (r : regex) (s : str) : option str := bt r s Some.

(** The scan of [re.sub(r, repl, s)]; [skip] counts the characters of the
    last match still to be dropped. *)
Fixpoint sub_go (r : regex) (repl : str) (skip : nat) (s : str) : str :=
  match s with
  | [] => []
  | c :: s' =>
      match skip with
      | S k => sub_go r repl k s'
      | 0 =>
          match re_match r s with
          | Some rest => repl ++ sub_go r repl (length s - length rest - 1) s'
          | None => c :: sub_go r repl 0 s'
          end
      end
  end.

Definition re_sub (r : regex) (repl : str) (s : str) : str := sub_go r repl 0 s.

(** A pattern from a list of literal characters. *)
Fixpoint rlit (cs : list ascii) (r : regex) : regex :=
  match cs with [] => r | c :: cs' => RSeq (RChar c) (rlit cs' r) end.

(** [\d+:\d+] *)
Definition re_mmss : regex := RSeq (RPlus RDigit) (RSeq (RChar ":") (RPlus RDigit)).

(** [\d+:\d+(?:\.\d+)?] *)
Definition re_time : regex := RSeq re_mmss (ROpt (RSeq (RChar ".") (RPlus RDigit))).

(** Line 220: [\[\d+:\d+(?:\.\d+)?(?: --> \d+:\d+(?:\.\d+)?)?\]] *)
Definition ts_re : regex :=
  RSeq (RChar "[") (RSeq re_time
    (RSeq (ROpt (rlit (lit " --> ") re_time)) (RChar "]"))).

(** Line 47: [\[\d+:\d+\]] *)
Definition simple_ts_re : regex := RSeq (RChar "[") (RSeq re_mmss (RChar "]")).

(** Line 222: [\s+] *)
Definition ws_re : regex := RPlus RSpace.

(** ** A deterministic scanner for the timestamp pattern

    The pattern of line 220 never needs to backtrack: every [\d+] is
    followed by a character that is not a digit, and every optional group
    starts with a character ([.] or a space) that nothing after the group
    accepts.  [scan_ts] reads it left to right, committing to each
    repetition and each optional group, and [re_match_ts] proves it equal to
    the backtracking matcher. *)

Definition scan_char (c : ascii) (s : str) : option str :=
  match s with d :: s' => if bool_decide (c = d) then Some s' else None | [] => None end.

Fixpoint scan_lit (cs s : str) : option str :=
  match cs with [] => Some s | c :: cs' => scan_char c s ≫= scan_lit cs' end.

(** [\d+], taking the whole run of digits. *)
Definition scan_digits (s : str) : option str :=
  match s with c :: s' => if is_digit c then Some (skip_while is_digit s') else None | [] => None end.

(** [(?:...)?], committing to the group when it matches. *)
Definition scan_opt (f : str → option str) (s : str) : str := default s (f s).

Definition scan_time (s : str) : option str :=
  s1 ← scan_digits s; s2 ← scan_char ":" s1; s3 ← scan_digits s2;
  Some (scan_opt (λ u, scan_char "." u ≫= scan_digits) s3).

Definition scan_ts (s : str) : option str :=
  s1 ← scan_char "[" s; s2 ← scan_time s1;
  scan_char "]" (scan_opt (λ u, scan_lit (lit " --> ") u ≫= scan_time) s2).

(** The simple pattern [\[\d+:\d+\]] of line 47. *)
Definition scan_simple (s : str) : option str :=
  s1 ← scan_char "[" s; s2 ← scan_digits s1; s3 ← scan_char ":" s2; s4 ← scan_digits s3;
  scan_char "]" s4.

(** ** Matches are suffixes *)

(** Patterns every match of which consumes a character. *)
Fixpoint consumes (r : regex) : bool :=
  match r with
  | RChar _ | RDigit | RSpace => true
  | RSeq r1 r2 => consumes r1 || consumes r2
  | ROpt _ => false
  | RPlus r1 => consumes r1
  end.

(** [u] is a suffix of [s] at least [n] characters shorter. *)
Definition sfx (n : nat) (u s : str) : Prop := suffix u s ∧ length u + n ≤ length s.

(** A continuation whose results are such suffixes of its input. *)
Definition resp (n : nat) (k : str → option str) : Prop := ∀ t u, k t = Some u → sfx n u t.

Lemma sfx_weaken n m u s : n ≤ m → sfx m u s → sfx n u s.
Proof. intros ? [? ?]. split; [done|lia]. Qed.

Lemma sfx_cons n c u s : sfx n u s → sfx (S n) u (c :: s).
Proof. intros [Hs ?]. split; [by apply suffix_cons_r|simpl; lia]. Qed.

Lemma sfx_trans n m u t s : sfx n u t → sfx m t s → sfx (n + m) u s.
Proof. intros [? ?] [? ?]. split; [by trans t|lia]. Qed.

Lemma atom_sfx p s k u n : resp n k → atom p s k = Some u → sfx (S n) u s.
Proof.
  intros Hk. destruct s as [|c s]; simpl; [done|].
  destruct (p c); [|done]. intros Hu. by apply sfx_cons, (Hk s u).
Qed.

Lemma plus_loop_sfx (m : str → (str → option str) → option str) c k n fuel s u :
  (∀ s k u n, resp n k → m s k = Some u → sfx (max n c) u s) →
  resp n k → plus_loop m k fuel s = Some u → sfx (max n c) u s.
Proof.
  intros Hm Hk. revert s u. induction fuel as [|fuel IH]; intros s u; simpl; apply Hm.
  - intros t v Hv. by apply Hk.
  - intros t v. destruct (plus_loop m k fuel t) eqn:E; intros Hv.
    + simplify_eq. eapply sfx_weaken, IH; [lia|done].
    + by apply Hk.
Qed.

Lemma bt_sfx r : ∀ s k u n, resp n k → bt r s k = Some u →
  sfx (max n (Nat.b2n (consumes r))) u s.
Proof.
  induction r as [c| | |r1 IH1 r2 IH2|r IH|r IH]; intros s k u n Hk Hu; simpl in *.
  1-3: eapply sfx_weaken, atom_sfx; [|done..]; lia.
  - assert (resp (max n (Nat.b2n (consumes r2))) (λ s', bt r2 s' k)) as Hk2
      by (intros t v Hv; by eapply IH2).
    eapply sfx_weaken, (IH1 _ _ _ _ Hk2 Hu).
    destruct (consumes r1), (consumes r2); simpl; lia.
  - destruct (bt r s k) as [t|] eqn:E.
    + simplify_eq. eapply sfx_weaken, (IH _ _ _ _ Hk E). lia.
    + eapply sfx_weaken, (Hk s u Hu). lia.
  - eapply plus_loop_sfx; [|done..]. intros. by eapply IH.
Qed.

Lemma re_match_sfx r s u :
  consumes r = true → re_match r s = Some u → sfx 1 u s.
Proof.
  intros Hc Hu. assert (resp 0 Some) as Hk by (intros t v [= <-]; split; [done|lia]).
  eapply sfx_weaken, (bt_sfx r s Some u 0 Hk Hu). rewrite Hc. simpl. lia.
Qed.

(** ** The scan of [re.sub] *)

Section Sub.
Context (r : regex) (repl : str).

Lemma sub_go_skip k s : sub_go r repl k s = sub_go r repl 0 (drop k s).
Proof.
  revert k. induction s as [|c s IH]; intros [|k]; simpl; rewrite ?drop_nil; done.
Qed.

Lemma re_sub_nil : re_sub r repl [] = [].
Proof. done. Qed.

(** One step of the scan, for a pattern that consumes a character. *)
Lemma re_sub_cons c s :
  consumes r = true →
  re_sub r repl (c :: s) =
  match re_match r (c :: s) with
  | Some rest => repl ++ re_sub r repl rest
  | None => c :: re_sub r repl s
  end.
Proof.
  intros Hc. unfold re_sub. simpl. destruct (re_match r (c :: s)) as [rest|] eqn:E; [|done].
  f_equal. rewrite sub_go_skip. f_equal.
  destruct (re_match_sfx r _ _ Hc E) as [[p Hp] Hlen]. simpl in *.
  destruct p as [|c' p]; simpl in *; [subst; simpl in *; lia|]. injection Hp as -> ->.
  rewrite length_app. replace (S (length p + length rest) - length rest - 1) with (length p) by lia.
  apply drop_app_length.
Qed.

(** A string in which the pattern matches nowhere is left unchanged. *)
Lemma re_sub_no_match s :
  consumes r = true → (∀ t, t `suffix_of` s → re_match r t = None) → re_sub r repl s = s.
Proof.
  intros Hc. induction s as [|c s IH]; intros Hno; [done|].
  rewrite re_sub_cons, Hno by done.
  f_equal. apply IH. intros t Ht. apply Hno. by apply suffix_cons_r.
Qed.
End Sub.

(** ** Repetition of a character class *)

Lemma plus_loop_atom p k n c s :
  plus_loop (atom p) k n (c :: s) =
  if p c then
    match (match n with 0 => None | S n' => plus_loop (atom p) k n' s end) with
    | Some t => Some t
    | None => k s
    end
  else None.
Proof. by destruct n. Qed.

Lemma plus_loop_atom_nil p k n : plus_loop (atom p) k n [] = None.
Proof. by destruct n. Qed.

(** [c+] is greedy: it first tries the longest run of the class. *)
Lemma plus_atom_greedy p k n c s u :
  p c = true → length s ≤ n → k (skip_while p s) = Some u →
  plus_loop (atom p) k n (c :: s) = Some u.
Proof.
  revert n c. induction s as [|d s IH]; intros n c Hc Hn Hk;
    rewrite plus_loop_atom, Hc.
  - destruct n; rewrite ?plus_loop_atom_nil; done.
  - simpl in Hk. destruct (p d) eqn:Hd.
    + destruct n as [|n]; [simpl in Hn; lia|]. rewrite (IH n d); [done..|simpl in Hn; lia|done].
    + destruct n; [done|]. by rewrite plus_loop_atom, Hd.
Qed.

(** When the continuation rejects every string starting with a character
    of the class, backtracking is never needed: [c+] takes the whole run. *)
Lemma plus_atom_exact p k n c s :
  p c = true → length s ≤ n → (∀ d t, p d = true → k (d :: t) = None) →
  plus_loop (atom p) k n (c :: s) = k (skip_while p s).
Proof.
  intros Hc Hn Hk. revert n c Hc Hn. induction s as [|d s IH]; intros n c Hc Hn;
    rewrite plus_loop_atom, Hc.
  - destruct n; rewrite ?plus_loop_atom_nil; done.
  - simpl. destruct (p d) eqn:Hd.
    + destruct n as [|n]; [simpl in Hn; lia|]. rewrite (IH n d Hd) by (simpl in Hn; lia).
      destruct (k (skip_while p s)); [done|]. by apply Hk.
    + destruct n; [done|]. by rewrite plus_loop_atom, Hd.
Qed.

(** [re.match(r'\s+', s)] leaves the string after its leading whitespace. *)
Lemma re_match_ws c s :
  re_match ws_re (c :: s) = if is_space c then Some (lstrip s) else None.
Proof.
  unfold re_match, ws_re.
  change (bt (RPlus RSpace) (c :: s) Some) with (plus_loop (atom is_space) Some (S (length s)) (c :: s)).
  destruct (is_space c) eqn:Hc.
  - apply plus_atom_greedy; [done|simpl; lia|done].
  - by rewrite plus_loop_atom, Hc.
Qed.

Lemma ts_re_consumes : consumes ts_re = true.
Proof. done. Qed.

Lemma simple_ts_re_consumes : consumes simple_ts_re = true.
Proof. done. Qed.

Lemma ws_re_consumes : consumes ws_re = true.
Proof. done. Qed.

(** ** The scanner agrees with the matcher *)

(** A continuation that fails on every string starting with a character
    of the class [P]. *)
Definition rejects (P : ascii → bool) (k : str → option str) : Prop :=
  ∀ d t, P d = true → k (d :: t) = None.

Lemma char_neq (P : ascii → bool) c d : P c = false → P d = true → bool_decide (c = d) = false.
Proof. intros Hc Hd. apply bool_decide_eq_false_2. intros ->. congruence. Qed.

Lemma bt_seq r1 r2 s k : bt (RSeq r1 r2) s k = bt r1 s (λ s', bt r2 s' k).
Proof. done. Qed.

Lemma bt_char c s k : bt (RChar c) s k = scan_char c s ≫= k.
Proof. destruct s as [|d s]; [done|]. simpl. by case_bool_decide. Qed.

Lemma scan_char_some c s t : scan_char c s = Some t → s = c :: t.
Proof. destruct s as [|d s]; simpl; [done|]. case_bool_decide; [by intros [= ->]; subst|done]. Qed.

Lemma bt_lit cs r s k : bt (rlit cs r) s k = scan_lit cs s ≫= λ t, bt r t k.
Proof.
  revert s. induction cs as [|c cs IH]; intros s; [done|].
  cbn [rlit scan_lit]. rewrite bt_seq, bt_char. destruct (scan_char c s); [apply IH|done].
Qed.

Lemma bt_digits s k : rejects is_digit k → bt (RPlus RDigit) s k = scan_digits s ≫= k.
Proof.
  intros Hk. destruct s as [|c s]; [done|].
  change (bt (RPlus RDigit) (c :: s) k) with (plus_loop (atom is_digit) k (S (length s)) (c :: s)).
  unfold scan_digits. destruct (is_digit c) eqn:Hc.
  - rewrite plus_atom_exact; [done..|simpl; lia|exact Hk].
  - by rewrite plus_loop_atom, Hc.
Qed.

(** An optional group that the continuation cannot skip over when it
    matches is decided by the group alone. *)
Lemma bt_opt r f s k :
  bt r s k = f s ≫= k → (is_Some (f s) → k s = None) → bt (ROpt r) s k = k (scan_opt f s).
Proof.
  intros Hr Hk. simpl. rewrite Hr. unfold scan_opt.
  destruct (f s) as [t|]; simpl; [|done]. destruct (k t); [done|]. by apply Hk.
Qed.

(** [rejects_tac] proves [rejects P k] for a continuation built from the
    pattern: its first character test fails on a character of [P]. *)
Ltac rejects_tac :=
  lazymatch goal with
  | |- rejects ?P _ =>
      let Hd := fresh "Hd" in
      intros ?d ?t Hd; cbn [bt atom rlit lit String.list_ascii_of_string];
      repeat (rewrite (λ c Hc, char_neq P c _ Hc Hd) by done; cbn iota);
      try done; by eauto
  end.

(** [scan_case e x] splits on the outcome of a scanning step [e]. *)
Ltac scan_case e x := destruct e as [x|]; autorewrite with pyq_rw; [|done].

Lemma scan_lit_cons c cs s u : scan_lit (c :: cs) s = Some u → ∃ t, s = c :: t.
Proof.
  simpl. destruct (scan_char c s) eqn:E; [|done]. intros _. eexists. by apply scan_char_some.
Qed.

(** [\d+:\d+(?:\.\d+)?] is matched without backtracking before a
    continuation that rejects digits and dots. *)
Lemma bt_time s k :
  rejects is_digit k → rejects (λ d, bool_decide (d = "."%char)) k →
  bt re_time s k = scan_time s ≫= k.
Proof.
  intros Hk1 Hk2. unfold re_time, re_mmss, scan_time. rewrite !bt_seq, bt_digits by rejects_tac.
  scan_case (scan_digits s) s1. rewrite bt_seq, bt_char.
  scan_case (scan_char ":" s1) s2. rewrite bt_digits by rejects_tac.
  scan_case (scan_digits s2) s3. apply bt_opt.
  - rewrite bt_seq, bt_char. destruct (scan_char "." s3); [|done]. by apply bt_digits.
  - intros [? Hs]. destruct (scan_char "." s3) eqn:E; [|done].
    rewrite (scan_char_some _ _ _ E). by apply Hk2.
Qed.

(** The matcher on the timestamp pattern, step by step. *)
Lemma re_match_ts s : re_match ts_re s = scan_ts s.
Proof.
  unfold re_match, ts_re, scan_ts. rewrite bt_seq, bt_char.
  scan_case (scan_char "[" s) s1. rewrite bt_seq, bt_time by rejects_tac.
  scan_case (scan_time s1) s2. rewrite bt_seq.
  rewrite (bt_opt _ (λ u, scan_lit (lit " --> ") u ≫= scan_time)).
  - cbv beta. rewrite bt_char. by destruct (scan_char "]" _).
  - rewrite bt_lit. destruct (scan_lit (lit " --> ") s2); [|done]. apply bt_time; rejects_tac.
  - intros [? Hs]. destruct (scan_lit (lit " --> ") s2) eqn:E; [|done].
    destruct (scan_lit_cons _ _ _ _ E) as [t ->]. done.
Qed.



Lemma simple_ts_re_scan s : re_match simple_ts_re s = scan_simple s.
Proof.
  unfold re_match, simple_ts_re, re_mmss, scan_simple. rewrite bt_seq, bt_char.
  scan_case (scan_char "[" s) s1. rewrite !bt_seq, bt_digits by rejects_tac.
  scan_case (scan_digits s1) s2. rewrite bt_seq, bt_char.
  scan_case (scan_char ":" s2) s3. rewrite bt_digits by rejects_tac.
  scan_case (scan_digits s3) s4. rewrite bt_char. by destruct (scan_char "]" s4).
Qed.

(** A simple marker is a timestamp marker: where [\[\d+:\d+\]] matches,
    the pattern of line 220 matches the same characters. *)
Lemma scan_simple_ts s u : scan_simple s = Some u → scan_ts s = Some u.
Proof.
  unfold scan_simple, scan_ts, scan_time.
  destruct (scan_char "[" s) as [s1|]; [simpl|done].
  destruct (scan_digits s1) as [s2|]; [simpl|done].
  destruct (scan_char ":" s2) as [s3|]; [simpl|done].
  destruct (scan_digits s3) as [s4|]; [simpl|done].
  intros Hu. rewrite (scan_char_some _ _ _ Hu). done.
Qed.

Lemma re_match_simple_ts s u : re_match simple_ts_re s = Some u → re_match ts_re s = Some u.
Proof. rewrite simple_ts_re_scan, re_match_ts. apply scan_simple_ts. Qed.
