(* ===== verification/Normalizer.v ===== *)
(** * Transcript normalisation (lines 220-222 and 47 of [app.py])

    [generate_transcript] removes the Whisper timestamp markers with the
    pattern [ts_re], collapses every run of whitespace into one space and
    strips the ends ([normalize]).  [generate_quiz_questions] removes the
    simple [[m:s]] markers from each sentence and strips it again
    ([clean_sentence]).

    The theorems: the whitespace cleanup is [' '.join(s.split())], so the
    output of [normalize] is whitespace-normal; [normalize] is idempotent
    on every input whose output contains no marker; and it is not
    idempotent in general, because removing a marker can join the pieces
    of a new one: [[a[m:n]:b]] becomes [[a:b]] for all digit runs. *)

From S2P Require Import Prelude PyBuiltins Regex.

(** Line 220: [re.sub(r'\[\d+:\d+(?:\.\d+)?(?: --> \d+:\d+(?:\.\d+)?)?\]', '', transcript)] *)
Definition strip_timestamps (t : str) : str := re_sub ts_re [] t.

(** Line 222, first half: [re.sub(r'\s+', ' ', transcript)] *)
Definition collapse_ws (t : str) : str := re_sub ws_re [" "%char] t.

(** Lines 220-222: the cleaned transcript. *)
Definition normalize (t : str) : str := py_strip (collapse_ws (strip_timestamps t)).

(** Line 47: [re.sub(r'\[\d+:\d+\]', '', sentence).strip()] *)
Definition clean_sentence (s : str) : str := py_strip (re_sub simple_ts_re [] s).

(** ** Whitespace collapse *)

(** The first character, if any, is not whitespace. *)
Definition head_ok (x : str) : Prop :=
  match x with c :: _ => is_space c = false | [] => True end.

(** The last character exists and is whitespace. *)
Definition ends_space (x : str) : bool :=
  match last x with Some c => is_space c | None => false end.

Lemma collapse_ws_cons c s :
  collapse_ws (c :: s) =
  if is_space c then " "%char :: collapse_ws (lstrip s) else c :: collapse_ws s.
Proof.
  unfold collapse_ws. rewrite re_sub_cons, re_match_ws by done.
  by destruct (is_space c).
Qed.

Lemma lstrip_head_ok s : head_ok (lstrip s).
Proof.
  induction s as [|c s IH]; [done|]. rewrite lstrip_cons.
  destruct (is_space c) eqn:E; [done|]. simpl. done.
Qed.

Lemma lstrip_id x : head_ok x → lstrip x = x.
Proof. destruct x as [|c x]; simpl; [done|]. rewrite lstrip_cons. by intros ->. Qed.

Lemma collapse_ws_head_ok x : head_ok x → head_ok (collapse_ws x).
Proof. destruct x as [|c x]; [done|]. simpl. intros Hc. by rewrite collapse_ws_cons, Hc. Qed.

Lemma lstrip_collapse_ws x : lstrip (collapse_ws x) = collapse_ws (lstrip x).
Proof.
  destruct x as [|c s]; [done|]. rewrite (lstrip_cons c s), collapse_ws_cons.
  destruct (is_space c) eqn:Hc.
  - rewrite lstrip_cons. cbn -[collapse_ws lstrip].
    apply lstrip_id, collapse_ws_head_ok, lstrip_head_ok.
  - cbn -[collapse_ws lstrip]. rewrite (collapse_ws_cons c s), Hc.
    apply lstrip_id. simpl. done.
Qed.

Lemma split_go_lstrip s : split_go [] (lstrip s) = split_go [] s.
Proof.
  induction s as [|c s IH]; [done|]. rewrite lstrip_cons.
  destruct (is_space c) eqn:Hc; [|done]. rewrite IH. simpl. by rewrite Hc.
Qed.

Lemma split_go_nonempty acc s : acc ≠ [] → split_go acc s ≠ [].
Proof.
  revert acc. induction s as [|c s IH]; intros acc Hacc; simpl.
  - by destruct acc.
  - destruct (is_space c); [by destruct acc|]. by apply IH.
Qed.

Lemma ends_space_app p y : y ≠ [] → ends_space (p ++ y) = ends_space y.
Proof.
  intros Hy. unfold ends_space. rewrite last_app.
  destruct (last y) eqn:E; [done|]. by apply last_None in E.
Qed.

Definition trail (x : str) : str := if ends_space x then [" "%char] else [].

Lemma ends_space_lstrip_nil c s :
  is_space c = true → lstrip s = [] → ends_space (c :: s) = true.
Proof.
  intros Hc Hs. destruct (lstrip_suffix s) as (p & Hp & Hsp). rewrite Hs, app_nil_r in Hp.
  subst. unfold ends_space. rewrite last_cons.
  destruct (last p) eqn:E; [|done]. apply last_Some_elem_of in E.
  by eapply Forall_forall in Hsp.
Qed.

Lemma trail_lstrip c s :
  is_space c = true → lstrip s ≠ [] → trail (c :: s) = trail (lstrip s).
Proof.
  intros Hc Hs. destruct (lstrip_suffix s) as (p & Hp & _). unfold trail.
  rewrite Hp at 1. by rewrite app_comm_cons, ends_space_app.
Qed.

Lemma trail_cons c s : is_space c = false → trail (c :: s) = trail s.
Proof.
  intros Hc. unfold trail. destruct s as [|d s].
  - unfold ends_space. simpl. by rewrite Hc.
  - by rewrite <- (ends_space_app [c] (d :: s)).
Qed.

Lemma split_go_flush acc :
  acc ≠ [] → split_go acc [] = [reverse acc].
Proof. by destruct acc. Qed.

(** The collapsed string is the words of the input joined by single
    spaces, with one space more when the input ends with whitespace. *)
Lemma collapse_ws_words n x acc :
  length x ≤ n → (acc ≠ [] ∨ head_ok x) →
  reverse acc ++ collapse_ws x = py_join [" "%char] (split_go acc x) ++ trail x.
Proof.
  revert x acc. induction n as [|n IH]; intros [|c s] acc Hn Hpre; simpl in Hn;
    try (destruct acc as [|a acc]; [done|]; by rewrite split_go_flush, !app_nil_r);
    try lia.
  rewrite collapse_ws_cons. destruct (is_space c) eqn:Hc.
  - destruct Hpre as [Hacc|Hh]; [|simpl in Hh; congruence].
    cbn [split_go]. rewrite Hc. destruct acc as [|a acc]; [done|].
    rewrite <- split_go_lstrip. destruct (lstrip s) as [|d y] eqn:Hy.
    + unfold trail. by rewrite ends_space_lstrip_nil by done.
    + pose proof (lstrip_head_ok s) as Hd. rewrite Hy in Hd.
      assert (length (d :: y) ≤ n).
      { rewrite <- Hy. destruct (lstrip_suffix s) as (p & Hp & _).
        rewrite Hp, length_app in Hn. lia. }
      rewrite (trail_lstrip c s), Hy by (done || congruence).
      pose proof (IH (d :: y) [] ltac:(done) (or_intror Hd)) as IHy.
      rewrite reverse_nil, app_nil_l in IHy. rewrite IHy.
      destruct (split_go [] (d :: y)) as [|w ws] eqn:Hw.
      { simpl in Hw. rewrite Hd in Hw. by apply split_go_nonempty in Hw. }
      rewrite py_join_cons2. by rewrite <- !(assoc_L (++)).
  - cbn [split_go]. rewrite Hc, trail_cons by done.
    rewrite <- (IH s (c :: acc)) by (lia || by left).
    by rewrite reverse_cons, <- (assoc_L (++)).
Qed.

Lemma rstrip_join ws t :
  Forall word_ok ws → Forall (λ c, is_space c = true) t →
  reverse (lstrip (reverse (py_join [" "%char] ws ++ t))) = py_join [" "%char] ws.
Proof.
  intros Hws Ht. rewrite reverse_app, lstrip_app_spaces by by apply Forall_reverse.
  rewrite lstrip_id; [apply reverse_involutive|].
  destruct (reverse (py_join _ ws)) as [|c r] eqn:E; [done|]. simpl.
  apply (py_join_last [" "%char] ws c Hws). by rewrite <- head_reverse, E.
Qed.

(** The whitespace cleanup of line 222 is [' '.join(t.split())]. *)
Lemma strip_collapse_ws x : py_strip (collapse_ws x) = py_join [" "%char] (py_split x).
Proof.
  unfold py_strip. rewrite lstrip_collapse_ws.
  pose proof (collapse_ws_words _ (lstrip x) [] (le_n _) (or_intror (lstrip_head_ok x))) as H.
  simpl in H. rewrite H, split_go_lstrip. apply rstrip_join; [apply py_split_words|].
  unfold trail. destruct (ends_space _); repeat constructor.
Qed.

(** ** Properties of [normalize] *)

(** No match of [r] starts anywhere in [s]. *)
Fixpoint match_free (r : regex) (s : str) : bool :=
  match s with
  | [] => true
  | _ :: s' => bool_decide (re_match r s = None) && match_free r s'
  end.

Lemma match_free_suffix r s t :
  consumes r = true → match_free r s = true → t `suffix_of` s → re_match r t = None.
Proof.
  intros Hc. induction s as [|c s IH]; simpl; intros Hf Ht.
  - apply suffix_nil_inv in Ht as ->. destruct (re_match r []) eqn:E; [|done].
    apply re_match_sfx in E as [_ E]; [simpl in E; lia|done].
  - apply andb_prop in Hf as [Hm%bool_decide_eq_true Hf].
    apply suffix_cons_cases in Ht as [->|Ht]; [done|]. by apply IH.
Qed.

(** On a string without a timestamp marker of line 220, the cleaning of
    line 47 only strips: its simple markers are timestamp markers. *)
Lemma clean_sentence_marker_free s : match_free ts_re s = true → clean_sentence s = py_strip s.
Proof.
  intros Hf. unfold clean_sentence. rewrite re_sub_no_match; [done|done|].
  intros t Ht. destruct (re_match simple_ts_re t) eqn:E; [|done].
  apply re_match_simple_ts in E. by rewrite (match_free_suffix ts_re s t) in E.
Qed.

Lemma normalize_join_split t :
  normalize t = py_join [" "%char] (py_split (strip_timestamps t)).
Proof. apply strip_collapse_ws. Qed.

Lemma ws_normal_collapse s : ws_normal s → py_strip (collapse_ws s) = s.
Proof. intros Hs. rewrite strip_collapse_ws. by apply ws_normal_join_split. Qed.

Lemma ws_normal_normalize t : ws_normal (normalize t).
Proof.
  exists (py_split (strip_timestamps t)). split; [apply py_split_words|].
  apply normalize_join_split.
Qed.

(** C22: The whitespace cleanup of line 222 ([re.sub(r'\s+', ' ', x).strip()])
    computes exactly [' '.join(x.split())]. *)
Theorem collapse_strip_is_join_split x :
  py_strip (collapse_ws x) = py_join [" "%char] (py_split x).
Proof. apply strip_collapse_ws. Qed.

(** C23: [normalize] is idempotent on every transcript whose normalised form
    contains no timestamp marker. *)
Theorem normalize_idempotent_if_marker_free t :
  match_free ts_re (normalize t) = true → normalize (normalize t) = normalize t.
Proof.
  intros Hf. unfold normalize at 1. unfold strip_timestamps.
  rewrite re_sub_no_match by (done || intros u Hu; by eapply match_free_suffix).
  apply ws_normal_collapse, ws_normal_normalize.
Qed.

(** A run of decimal digits, the text [\d+] matches. *)
Definition digit_run (s : str) : bool := bool_decide (s ≠ []) && forallb is_digit s.

(** A marker [[m:n]] written inside the digits of another one:
    [[a[m:n]:b]]. *)
Definition nested_marker (a m n b : str) : str :=
  "["%char :: a ++ "["%char :: m ++ ":"%char :: n ++ "]"%char :: ":"%char :: b ++ ["]"%char].

(** ** Markers revealed by removing a marker *)

Lemma digit_run_Forall s :
  digit_run s = true → Forall (λ c, is_space c = false ∧ c ≠ "["%char) s.
Proof.
  intros [_ Hs]%andb_prop. induction s as [|c s IH]; [done|].
  apply andb_prop in Hs as [Hc Hs]. constructor; [|by apply IH].
  split; [|by intros ->]. revert Hc. by destruct c as [[] [] [] [] [] [] [] []].
Qed.

Lemma skip_digits a c x :
  forallb is_digit a = true → is_digit c = false → skip_while is_digit (a ++ c :: x) = c :: x.
Proof.
  induction a as [|d a IH]; simpl; [by intros _ ->|].
  intros [-> Ha]%andb_prop Hc. by apply IH.
Qed.

Lemma scan_digits_run a c x :
  digit_run a = true → is_digit c = false → scan_digits (a ++ c :: x) = Some (c :: x).
Proof.
  destruct a as [|d a]; [done|]. intros [_ [Hd Ha]%andb_prop]%andb_prop Hc.
  simpl. rewrite Hd. f_equal. by apply skip_digits.
Qed.

Lemma scan_ts_digits m n rest :
  digit_run m = true → digit_run n = true →
  scan_ts ("["%char :: m ++ ":"%char :: n ++ "]"%char :: rest) = Some rest.
Proof.
  intros Hm Hn. unfold scan_ts, scan_time. simpl (scan_char _ _ ≫= _).
  rewrite scan_digits_run by done. simpl (_ ≫= _). by rewrite scan_digits_run.
Qed.

Lemma scan_char_other c d s : c ≠ d → scan_char c (d :: s) = None.
Proof. intros Hcd. unfold scan_char. by rewrite bool_decide_eq_false_2. Qed.

Lemma strip_timestamps_no_open p t :
  Forall (λ c, c ≠ "["%char) p → strip_timestamps (p ++ t) = p ++ strip_timestamps t.
Proof.
  induction 1 as [|c p Hc Hp IH]; [done|]. unfold strip_timestamps in *. simpl.
  rewrite re_sub_cons, re_match_ts by apply ts_re_consumes. unfold scan_ts.
  rewrite (scan_char_other "["%char c) by congruence. simpl. by rewrite IH.
Qed.

Lemma split_go_nospace acc x :
  Forall (λ c, is_space c = false) x → acc ++ x ≠ [] → split_go acc x = [reverse acc ++ x].
Proof.
  intros Hx. revert acc. induction Hx as [|c x Hc Hx IH]; intros acc Hne.
  - rewrite app_nil_r in Hne |- *. by destruct acc.
  - simpl. rewrite Hc, IH by (destruct acc; simpl; congruence).
    by rewrite reverse_cons, <- app_assoc.
Qed.

(** A non-empty string without whitespace goes through line 222 unchanged. *)
Lemma strip_collapse_nospace w :
  w ≠ [] → Forall (λ c, is_space c = false) w → py_strip (collapse_ws w) = w.
Proof.
  intros Hw Hs. rewrite strip_collapse_ws. unfold py_split.
  by rewrite (split_go_nospace [] w).
Qed.

(** The characters of [a:b]] after its opening bracket. *)
Lemma marker_tail_chars a b :
  digit_run a = true → digit_run b = true →
  Forall (λ c, is_space c = false ∧ c ≠ "["%char) (a ++ ":"%char :: b ++ ["]"%char]).
Proof.
  intros Ha%digit_run_Forall Hb%digit_run_Forall.
  apply Forall_app. split; [done|]. constructor; [done|].
  apply Forall_app. split; [done|]. by repeat constructor.
Qed.

(** C27: [normalize] is not idempotent: for all digit runs [a], [m], [n],
    [b], removing the marker [[m:n]] from [[a[m:n]:b]] joins the pieces of
    a new marker [[a:b]], which the cleaned transcript keeps and a second
    pass removes. *)
Theorem normalize_not_idempotent a m n b :
  digit_run a = true → digit_run m = true → digit_run n = true → digit_run b = true →
  normalize (nested_marker a m n b) = "["%char :: a ++ ":"%char :: b ++ ["]"%char] ∧
  normalize (normalize (nested_marker a m n b)) = [].
Proof.
  intros Ha Hm Hn Hb. pose proof (digit_run_Forall a Ha) as Fa.
  pose proof (marker_tail_chars a b Ha Hb) as [Fs Fo]%Forall_and.
  assert (Hin : strip_timestamps (nested_marker a m n b) = "["%char :: a ++ ":"%char :: b ++ ["]"%char]).
  { unfold nested_marker, strip_timestamps at 1.
    rewrite re_sub_cons, re_match_ts by apply ts_re_consumes.
    unfold scan_ts, scan_time. simpl (scan_char _ _ ≫= _). rewrite scan_digits_run by done. simpl.
    fold (strip_timestamps (a ++ "["%char :: m ++ ":"%char :: n ++ "]"%char :: ":"%char :: b ++ ["]"%char])).
    rewrite strip_timestamps_no_open by (eapply Forall_impl; [exact Fa|by intros ? []]).
    unfold strip_timestamps at 1.
    rewrite re_sub_cons, re_match_ts, scan_ts_digits by (done || apply ts_re_consumes).
    rewrite <- (app_nil_r (":"%char :: _)). fold (strip_timestamps (":"%char :: b ++ ["]"%char] ++ [])).
    rewrite strip_timestamps_no_open; [by rewrite !app_nil_r|].
    by apply Forall_app in Fo as [_ Fo]. }
  assert (Hout : strip_timestamps ("["%char :: a ++ ":"%char :: b ++ ["]"%char]) = []).
  { unfold strip_timestamps. by rewrite re_sub_cons, re_match_ts, scan_ts_digits by (done || apply ts_re_consumes). }
  assert (Hw : normalize (nested_marker a m n b) = "["%char :: a ++ ":"%char :: b ++ ["]"%char]).
  { unfold normalize. rewrite Hin. apply strip_collapse_nospace; [done|by constructor]. }
  split; [exact Hw|]. rewrite Hw. unfold normalize. by rewrite Hout.
Qed.

Lemma normalize_not_idempotent_witness :
  (digit_run (lit "1") = true ∧ digit_run (lit "0") = true ∧ digit_run (lit "00") = true ∧
   digit_run (lit "2") = true) ∧
  normalize (nested_marker (lit "1") (lit "0") (lit "00") (lit "2")) = lit "[1:2]" ∧
  normalize (normalize (nested_marker (lit "1") (lit "0") (lit "00") (lit "2"))) = [].
Proof.
  assert (Ha : digit_run (lit "1") = true) by reflexivity.
  assert (Hm : digit_run (lit "0") = true) by reflexivity.
  assert (Hn : digit_run (lit "00") = true) by reflexivity.
  assert (Hb : digit_run (lit "2") = true) by reflexivity.
  split; [auto|]. exact (normalize_not_idempotent _ _ _ _ Ha Hm Hn Hb).
Defined.

(** The example of the specification: a range marker with fractional
    seconds is removed and the surrounding spaces collapse to one. *)
Example normalize_spec_example :
  normalize (lit "Hello [01:02.500 --> 01:05.000] world") = lit "Hello world".
Proof. vm_compute. reflexivity. Qed.

Lemma normalize_idempotent_witness :
  match_free ts_re (normalize (lit " a  [0:01]  b ")) = true ∧
  normalize (normalize (lit " a  [0:01]  b ")) = normalize (lit " a  [0:01]  b ").
Proof.
  split; [vm_compute; reflexivity|].
  apply normalize_idempotent_if_marker_free. vm_compute. reflexivity.
Defined.
