(* ===== verification/Analyzer.v ===== *)
(** * Sentence segmentation and the important-word pool (lines 43-54, 98-102)

    NLTK is a collaborator the program only calls: [sent_tokenize],
    [word_tokenize] and [pos_tag].  Their algorithms are not modelled; the
    interface [Nlp] states them as functions with the one law the code
    relies on, that [pos_tag] pairs each token with a tag in order, and
    assumes that they return (NLTK raises [LookupError] when a resource
    is missing, which the model leaves out).  Two
    comprehensions of the code are modelled on top of it: the
    important-word pool of the whole transcript (line 54) and the key
    terms of one sentence (line 102), which both keep the tokens whose tag
    starts with NN, VB or JJ.  The cleaning of line 47 is shown to only
    strip sentences that carry no marker of the transcript pattern. *)

From S2P Require Import Prelude PyBuiltins Regex Normalizer.

(** The NLTK calls, assumed to return: a missing resource, for which the
    real calls raise [LookupError], is outside the model (see the header
    of [Prelude]). *)
Class Nlp := {
  sent_tokenize : str → list str;
  word_tokenize : str → list str;
  pos_tag : list str → list (str * str);
  pos_tag_words ws : (pos_tag ws).*1 = ws
}.

(** [tag.startswith(('NN', 'VB', 'JJ'))] *)
Definition is_key_tag (tag : str) : bool :=
  starts_with (lit "NN") tag || starts_with (lit "VB") tag || starts_with (lit "JJ") tag.

(** [[word for word, tag in pos if tag.startswith(('NN', 'VB', 'JJ'))]] *)
Definition key_words (tagged : list (str * str)) : list str :=
  (filter (λ wt, is_key_tag wt.2 = true) tagged).*1.

Section Analyzer.
Context {nlp : Nlp}.

(** Lines 44-47: the sentences, each cleaned of simple markers. *)
Definition sentences_of (transcript : str) : list str :=
  map clean_sentence (sent_tokenize transcript).

(** Lines 50-54: the important words of the whole transcript. *)
Definition important_words_of (transcript : str) : list str :=
  key_words (pos_tag (word_tokenize transcript)).

(** Lines 98-102: the key terms of one sentence. *)
Definition key_terms_of (sentence : str) : list str :=
  key_words (pos_tag (word_tokenize sentence)).

Lemma key_words_spec ws w :
  w ∈ key_words (pos_tag ws) ↔ ∃ tag, (w, tag) ∈ pos_tag ws ∧ is_key_tag tag = true.
Proof.
  unfold key_words. rewrite list_elem_of_fmap. split.
  - intros ([w' tag] & -> & Hin%list_elem_of_filter). naive_solver.
  - intros (tag & Hin & Htag). exists (w, tag). split; [done|].
    by apply list_elem_of_filter.
Qed.

Lemma key_words_sublist ws : key_words (pos_tag ws) `sublist_of` ws.
Proof.
  unfold key_words. rewrite <- (pos_tag_words ws) at 2.
  apply fmap_sublist, sublist_filter.
Qed.

(** The marker removal of line 47 is redundant after line 220: when no
    sentence contains a timestamp marker of the transcript pattern, the
    cleaned sentences are the stripped sentences. *)
Theorem sentences_of_marker_free t :
  Forall (λ s, match_free ts_re s = true) (sent_tokenize t) →
  sentences_of t = map py_strip (sent_tokenize t).
Proof.
  intros Hf. unfold sentences_of. apply map_ext_Forall.
  eapply Forall_impl; [exact Hf|]. apply clean_sentence_marker_free.
Qed.
End Analyzer.

(** ** A stand-in tokenizer for running the model

    Not NLTK: used only to evaluate the model on examples.  Sentences end
    at a full stop, tokens are the whitespace-separated words, and a token
    is tagged NN when it has at least three characters, DT otherwise. *)

Fixpoint split_at_stops (acc : str) (s : str) : list str :=
  match s with
  | [] => [reverse acc]
  | c :: s' =>
      if bool_decide (c = "."%char) then reverse (c :: acc) :: split_at_stops [] s'
      else split_at_stops (c :: acc) s'
  end.

Definition toy_sent_tokenize (t : str) : list str :=
  filter (λ x, x ≠ []) (py_strip <$> split_at_stops [] t).

Definition toy_tag (w : str) : str := if 3 <=? length w then lit "NN" else lit "DT".

Definition toy_pos_tag (ws : list str) : list (str * str) := (λ w, (w, toy_tag w)) <$> ws.

Lemma toy_pos_tag_words ws : (toy_pos_tag ws).*1 = ws.
Proof. unfold toy_pos_tag. induction ws as [|w ws IH]; [done|]. simpl. by f_equal. Qed.

Definition toy_nlp : Nlp := {|
  sent_tokenize := toy_sent_tokenize;
  word_tokenize := py_split;
  pos_tag := toy_pos_tag;
  pos_tag_words := toy_pos_tag_words
|}.

Lemma sentences_of_marker_free_witness :
  Forall (λ s, match_free ts_re s = true) (sent_tokenize (Nlp:=toy_nlp) (lit " The cat. It sat. ")) ∧
  sentences_of (nlp:=toy_nlp) (lit " The cat. It sat. ") =
    map py_strip (sent_tokenize (Nlp:=toy_nlp) (lit " The cat. It sat. ")).
Proof.
  assert (H : Forall (λ s, match_free ts_re s = true) (sent_tokenize (Nlp:=toy_nlp) (lit " The cat. It sat. ")))
    by by_eval.
  split; [exact H|]. exact (sentences_of_marker_free _ H).
Defined.
