(* ===== verification/Json.v ===== *)
(** * [json.dumps] of the quiz fields (lines 90-91, 121-122)

    Each quiz item stores its options and its answer as JSON text:
    [json.dumps(["True", "False"])], [json.dumps(options)] and
    [json.dumps(answer)].  With the default [ensure_ascii=True], CPython
    writes a string between double quotes, escapes the quote and the
    backslash, writes [\b \f \n \r \t] for those controls and [\u00XX]
    (lower-case hex) for every other character outside [' '..'~'], and
    writes a list as [[a, b, c]] with the separator [", "].  Characters are
    the code points 0-255 here, which is all the [ascii] type holds.

    The decoder [json_loads_str]/[json_loads_list] reads the JSON grammar
    of strings and of arrays of strings as a consumer of the quiz would
    (RFC 8259, restricted to the layout [json.dumps] writes between array
    elements); the round-trip theorems show that what the server writes
    decodes to the original values. *)

From S2P Require Import Prelude PyBuiltins.

Definition dquote : ascii := ascii_of_nat 34.
Definition bslash : ascii := ascii_of_nat 92.

(** The lower-case hex digit of [n < 16]. *)
Definition hex_digit (n : nat) : ascii :=
  ascii_of_nat (if n <? 10 then 48 + n else 87 + n).

(** [ESCAPE_DCT] of [json.encoder] and the [\u{0:04x}] fallback. *)
Definition json_escape (c : ascii) : str :=
  let n := nat_of_ascii c in
  if n =? 34 then [bslash; dquote]
  else if n =? 92 then [bslash; bslash]
  else if n =? 8 then [bslash; "b"%char]
  else if n =? 12 then [bslash; "f"%char]
  else if n =? 10 then [bslash; "n"%char]
  else if n =? 13 then [bslash; "r"%char]
  else if n =? 9 then [bslash; "t"%char]
  else if (n <? 32) || (126 <? n) then
    [bslash; "u"%char; "0"%char; "0"%char; hex_digit (n / 16); hex_digit (n mod 16)]
  else [c].

(** [json.dumps(s)] for a string. *)
Definition json_dumps_str (s : str) : str :=
  dquote :: mjoin (map json_escape s) ++ [dquote].

(** [json.dumps(l)] for a list of strings. *)
Definition json_dumps_list (l : list str) : str :=
  "["%char :: py_join (lit ", ") (map json_dumps_str l) ++ ["]"%char].

(** ** Decoding *)

Definition hex_val (c : ascii) : option nat :=
  let n := nat_of_ascii c in
  if (48 <=? n) && (n <=? 57) then Some (n - 48)
  else if (97 <=? n) && (n <=? 102) then Some (n - 87)
  else if (65 <=? n) && (n <=? 70) then Some (n - 55)
  else None.

(** The code point of the escape [\u] followed by four hex digits, when
    the [ascii] type holds it. *)
Definition hex4 (a b c d : ascii) : option ascii :=
  match hex_val a, hex_val b, hex_val c, hex_val d with
  | Some va, Some vb, Some vc, Some vd =>
      let n := ((va * 16 + vb) * 16 + vc) * 16 + vd in
      if n <? 256 then Some (ascii_of_nat n) else None
  | _, _, _, _ => None
  end.

(** The character of a one-letter escape [\e]. *)
Definition unescape1 (e : ascii) : option ascii :=
  let n := nat_of_ascii e in
  if n =? 34 then Some dquote
  else if n =? 92 then Some bslash
  else if n =? 47 then Some "/"%char
  else if n =? 98 then Some (ascii_of_nat 8)
  else if n =? 102 then Some (ascii_of_nat 12)
  else if n =? 110 then Some (ascii_of_nat 10)
  else if n =? 114 then Some (ascii_of_nat 13)
  else if n =? 116 then Some (ascii_of_nat 9)
  else None.

(** The body of a JSON string up to its closing quote, and what follows. *)
Fixpoint parse_str_body (s : str) : option (str * str) :=
  match s with
  | [] => None
  | c :: s' =>
      if bool_decide (c = dquote) then Some ([], s')
      else if bool_decide (c = bslash) then
        match s' with
        | [] => None
        | e :: r =>
            if bool_decide (e = "u"%char) then
              match r with
              | a :: b :: c2 :: d :: r' =>
                  match hex4 a b c2 d, parse_str_body r' with
                  | Some x, Some (body, rest) => Some (x :: body, rest)
                  | _, _ => None
                  end
              | _ => None
              end
            else
              match unescape1 e, parse_str_body r with
              | Some x, Some (body, rest) => Some (x :: body, rest)
              | _, _ => None
              end
        end
      else if nat_of_ascii c <? 32 then None
      else match parse_str_body s' with
           | Some (body, rest) => Some (c :: body, rest)
           | None => None
           end
  end.

Definition json_loads_str (s : str) : option str :=
  match s with
  | c :: s' =>
      if bool_decide (c = dquote) then
        match parse_str_body s' with Some (body, []) => Some body | _ => None end
      else None
  | [] => None
  end.

(** The elements of a non-empty array after its [[]; [fuel] bounds the
    number of elements. *)
Fixpoint parse_items (fuel : nat) (s : str) : option (list str) :=
  match fuel with
  | 0 => None
  | S f =>
      match s with
      | c :: s' =>
          if bool_decide (c = dquote) then
            match parse_str_body s' with
            | Some (x, ["]"%char]) => Some [x]
            | Some (x, ","%char :: " "%char :: rest) =>
                match parse_items f rest with Some xs => Some (x :: xs) | None => None end
            | _ => None
            end
          else None
      | [] => None
      end
  end.

Definition json_loads_list (s : str) : option (list str) :=
  match s with
  | c :: s' =>
      if bool_decide (c = "["%char) then
        if bool_decide (s' = ["]"%char]) then Some [] else parse_items (length s') s'
      else None
  | [] => None
  end.

(** ** Round trips *)

(** The three shapes [json_escape] produces, each decoded back to the
    character; a boolean check, run on all 256 characters. *)
Definition escape_ok (c : ascii) : bool :=
  match json_escape c with
  | [d] => bool_decide (d = c ∧ c ≠ dquote ∧ c ≠ bslash ∧ 32 ≤ nat_of_ascii c)
  | [b; e] => bool_decide (b = bslash ∧ e ≠ "u"%char ∧ unescape1 e = Some c)
  | [b; u; h1; h2; h3; h4] => bool_decide (b = bslash ∧ u = "u"%char ∧ hex4 h1 h2 h3 h4 = Some c)
  | _ => false
  end.

Lemma escape_ok_all c : escape_ok c = true.
Proof. destruct c as [[] [] [] [] [] [] [] []]; vm_compute; reflexivity. Qed.

Lemma parse_escape c rest x r :
  parse_str_body rest = Some (x, r) →
  parse_str_body (json_escape c ++ rest) = Some (c :: x, r).
Proof.
  intros H. pose proof (escape_ok_all c) as Hok. unfold escape_ok in Hok.
  destruct (json_escape c) as [|d [|e [|h1 [|h2 [|h3 [|h4 [|]]]]]]]; try discriminate;
    apply bool_decide_eq_true_1 in Hok; simpl.
  - destruct Hok as (-> & Hq & Hb & Hn).
    rewrite (bool_decide_eq_false_2 (c = dquote)), (bool_decide_eq_false_2 (c = bslash)) by done.
    destruct (Nat.ltb_spec (nat_of_ascii c) 32); [lia|]. by rewrite H.
  - destruct Hok as (-> & Hu & Hun). rewrite (bool_decide_eq_false_2 (e = "u"%char)) by done.
    by rewrite Hun, H.
  - destruct Hok as (-> & -> & Hh). by rewrite Hh, H.
Qed.

Lemma parse_escaped_body s rest :
  parse_str_body (mjoin (map json_escape s) ++ dquote :: rest) = Some (s, rest).
Proof.
  induction s as [|c s IH]; [done|]. simpl. rewrite <- (assoc_L (++)).
  by apply parse_escape.
Qed.

Lemma loads_dumps_str s : json_loads_str (json_dumps_str s) = Some s.
Proof.
  unfold json_loads_str, json_dumps_str. rewrite bool_decide_eq_true_2 by done.
  by rewrite parse_escaped_body.
Qed.

Lemma json_dumps_str_app x rest :
  json_dumps_str x ++ rest = dquote :: mjoin (map json_escape x) ++ dquote :: rest.
Proof. unfold json_dumps_str. simpl. by rewrite <- (assoc_L (++)). Qed.

Lemma parse_items_step fuel x rest :
  parse_items (S fuel) (json_dumps_str x ++ rest) =
  match parse_str_body (mjoin (map json_escape x) ++ dquote :: rest) with
  | Some (x, ["]"%char]) => Some [x]
  | Some (x, ","%char :: " "%char :: rest) =>
      match parse_items fuel rest with Some xs => Some (x :: xs) | None => None end
  | _ => None
  end.
Proof. rewrite json_dumps_str_app. cbn [parse_items]. by rewrite bool_decide_eq_true_2. Qed.

Lemma parse_items_dumps fuel x xs :
  length xs < fuel →
  parse_items fuel (py_join (lit ", ") (map json_dumps_str (x :: xs)) ++ ["]"%char])
  = Some (x :: xs).
Proof.
  revert fuel x. induction xs as [|x' xs IH]; intros [|fuel] x Hf; simpl in Hf; try lia.
  - cbn [map py_join]. by rewrite parse_items_step, parse_escaped_body.
  - cbn [map]. rewrite py_join_cons2, <- !(assoc_L (++)).
    rewrite parse_items_step, parse_escaped_body.
    change (lit ", ") with [","%char; " "%char] in *.
    change ([","%char; " "%char] ++ ?r) with (","%char :: " "%char :: r).
    cbv beta iota.
    change (json_dumps_str x' :: map json_dumps_str xs) with (map json_dumps_str (x' :: xs)).
    by rewrite IH by lia.
Qed.

Lemma py_join_length_ge sep (l : list str) :
  Forall (λ w, 1 ≤ length w) l → length l ≤ length (py_join sep l).
Proof.
  induction 1 as [|w l Hw Hl IH]; [done|]. destruct l as [|w' l]; simpl; [lia|].
  rewrite !length_app. simpl in IH. lia.
Qed.

Lemma json_loads_list_open s' :
  json_loads_list ("["%char :: s') =
  if bool_decide (s' = ["]"%char]) then Some [] else parse_items (length s') s'.
Proof. unfold json_loads_list. cbv beta iota. by rewrite bool_decide_eq_true_2. Qed.

Lemma loads_dumps_list l : json_loads_list (json_dumps_list l) = Some l.
Proof.
  destruct l as [|x xs]; [done|]. unfold json_dumps_list.
  assert (length (x :: xs) ≤ length (py_join (lit ", ") (map json_dumps_str (x :: xs)))).
  { rewrite <- (length_map json_dumps_str). apply py_join_length_ge.
    apply Forall_forall. intros w (y & -> & _)%list_elem_of_fmap. simpl. lia. }
  rewrite json_loads_list_open, bool_decide_eq_false_2.
  - rewrite parse_items_dumps; [done|]. rewrite length_app. simpl in *. lia.
  - intros Heq. apply (f_equal length) in Heq. rewrite length_app in Heq. simpl in *. lia.
Qed.
