(* ===== verification/Quiz.v ===== *)
(** * The quiz items and their builders (lines 70-125, 133-136 of [app.py])

    The item dictionary is the record [item].  [create_true_false] and
    [create_mcq] are the builders nested in [generate_quiz_questions]; they
    read the enclosing [important_words], [quiz_id] and the current number
    of items, which are explicit parameters here.  Their random draws go
    through [PyRandom], and the exceptions a draw can raise propagate, as in
    the code.  [build_item] is the dispatch of lines 133-136.

    [valid_tf] and [valid_mcq] describe what each builder produces for
    every random outcome; the totality lemmas say when a builder returns.
    The last part runs the builders on given draws and shows where they
    depart from the specification: a "False" item equal to the truth,
    repeated options, and a blank for every occurrence of the target. *)

From S2P Require Import Prelude PyBuiltins PyRandom Regex Normalizer Analyzer Json.

(** The dictionary built by both builders (lines 86-94 and 117-125). *)
Record item := mk_item {
  quizId : str;
  item_type : str;
  question : str;
  options : str;
  answer : str;
  order : nat;
  correct_statement : str
}.

(** Line 57. *)
Definition question_types : list str := [lit "true-false"; lit "mcq"].

(** Line 90: [json.dumps(["True", "False"])]. *)
Definition tf_options : str := json_dumps_list [lit "True"; lit "False"].

Definition mcq_prompt : str := lit "What word completes this sentence: ".
Definition blank : str := lit "________".

Section Quiz.
Context {Σ : Type} {rs : RandomSource Σ} {nlp : Nlp}.

(** Lines 70-94.  [n] is [len(questions)] when the builder runs. *)
Definition create_true_false (important_words : list str) (quiz_id : str)
    (n : nat) (sentence : str) : PyM Σ item :=
  let* is_true := choice [true; false] in
  let* q :=
    (if negb is_true then
       let words := py_split sentence in
       let* replace_idx := randint 0 (Z.of_nat (length words) - 1) in
       let* w := choice important_words in
       let* words' := setitem words replace_idx w in
       pret (py_join [" "%char] words')
     else pret sentence) in
  pret {| quizId := quiz_id;
          item_type := lit "true-false";
          question := q;
          options := tf_options;
          answer := json_dumps_str (if is_true then lit "True" else lit "False");
          order := S n;
          correct_statement := sentence |}.

(** Lines 96-125. *)
Definition create_mcq (important_words : list str) (quiz_id : str)
    (n : nat) (sentence : str) : PyM Σ (option item) :=
  let key_terms := key_terms_of sentence in
  match key_terms with
  | [] => pret None
  | _ :: _ =>
      let* target_word := choice key_terms in
      let q := mcq_prompt ++ py_replace sentence target_word blank in
      let distractors := filter (λ w, w ≠ target_word) important_words in
      let* sampled := sample distractors (min 3 (length distractors)) in
      let* opts := shuffle (target_word :: sampled) in
      pret (Some {| quizId := quiz_id;
                    item_type := lit "mcq";
                    question := q;
                    options := json_dumps_list opts;
                    answer := json_dumps_str target_word;
                    order := S n;
                    correct_statement := sentence |})
  end.

(** Lines 133-136: dispatch on the drawn type. *)
Definition build_item (important_words : list str) (quiz_id : str)
    (question_type : str) (n : nat) (sentence : str) : PyM Σ (option item) :=
  if bool_decide (question_type = lit "true-false") then
    let* it := create_true_false important_words quiz_id n sentence in pret (Some it)
  else create_mcq important_words quiz_id n sentence.

End Quiz.

(** ** What the builders produce *)

Section Builders.
Context {nlp : Nlp} (important_words : list str) (quiz_id : str) (n : nat) (s : str).

(** A true/false item for sentence [s], as [create_true_false] builds
    it: the true form shows [s]; the false form shows [s] with one word
    replaced by an important word. *)
Definition valid_tf (it : item) : Prop :=
  quizId it = quiz_id ∧ item_type it = lit "true-false" ∧ options it = tf_options ∧
  order it = S n ∧ correct_statement it = s ∧
  ((answer it = json_dumps_str (lit "True") ∧ question it = s) ∨
   (answer it = json_dumps_str (lit "False") ∧
    ∃ i w, i < length (py_split s) ∧ w ∈ important_words ∧
           question it = py_join [" "%char] (<[i := w]> (py_split s)))).

(** The distractors of a multiple-choice item: the important words other
    than the target. *)
Definition distractors_of (target : str) : list str :=
  filter (λ w, w ≠ target) important_words.

(** A multiple-choice item for [s], as [create_mcq] builds it. *)
Definition valid_mcq (it : item) : Prop :=
  quizId it = quiz_id ∧ item_type it = lit "mcq" ∧ order it = S n ∧
  correct_statement it = s ∧
  ∃ target opts ds,
    target ∈ key_terms_of s ∧
    question it = mcq_prompt ++ py_replace s target blank ∧
    answer it = json_dumps_str target ∧ options it = json_dumps_list opts ∧
    opts ≡ₚ target :: ds ∧ ds ⊆+ distractors_of target ∧
    length ds = min 3 (length (distractors_of target)).

Definition valid_item (it : item) : Prop := valid_tf it ∨ valid_mcq it.

Context {Σ : Type} {rs : RandomSource Σ}.

Lemma create_true_false_valid st it st' :
  create_true_false important_words quiz_id n s st = inr (it, st') → valid_tf it.
Proof.
  unfold create_true_false. intros Hc.
  apply pbind_inr in Hc as (b & s1 & _ & Hc). apply pbind_inr in Hc as (q & s2 & Hq & Hc).
  injection Hc as <- _. destruct b; cbn [negb] in Hq.
  - injection Hq as <- _. repeat split. by left.
  - repeat split. right. split; [done|].
    apply pbind_inr in Hq as (ri & s3 & Hri & Hq). apply randint_ok in Hri.
    apply pbind_inr in Hq as (w & s4 & Hw & Hq). apply choice_ok_elem in Hw.
    apply pbind_inr in Hq as (ws & s5 & Hws & [= <- _]).
    exists (Z.to_nat ri), w. split; [clear -Hri; lia|]. split; [done|].
    assert (0 <= ri)%Z as Hri0 by (clear -Hri; lia).
    rewrite <- (Z2Nat.id ri Hri0) in Hws.
    assert (Z.to_nat ri < length (py_split s)) as Hlt by (clear -Hri; lia).
    by rewrite (setitem_ok _ _ _ _ _ _ Hlt Hws).
Qed.

Lemma create_mcq_valid st it st' :
  create_mcq important_words quiz_id n s st = inr (Some it, st') → valid_mcq it.
Proof.
  unfold create_mcq. destruct (key_terms_of s) as [|k ks] eqn:Hk; [done|]. intros Hc.
  apply pbind_inr in Hc as (target & s1 & Ht & Hc). apply choice_ok_elem in Ht.
  apply pbind_inr in Hc as (ds & s2 & Hds & Hc).
  apply sample_ok in Hds as [Hsub Hlen].
  apply pbind_inr in Hc as (opts & s3 & Hopts & [= <- _]).
  apply shuffle_ok_perm in Hopts.
  repeat split. exists target, opts, ds. rewrite Hk. done.
Qed.

Lemma create_mcq_none st st' :
  create_mcq important_words quiz_id n s st = inr (None, st') → key_terms_of s = [].
Proof.
  unfold create_mcq. destruct (key_terms_of s) as [|k ks]; [done|]. intros Hc.
  apply pbind_inr in Hc as (? & ? & _ & Hc). apply pbind_inr in Hc as (? & ? & _ & Hc).
  by apply pbind_inr in Hc as (? & ? & _ & Hc).
Qed.

Context {fs : FairSource Σ}.

(** [create_mcq] never raises: it returns an item exactly when the
    sentence has a key term. *)
Lemma create_mcq_total st :
  ∃ r st', create_mcq important_words quiz_id n s st = inr (r, st') ∧
           (r = None ↔ key_terms_of s = []).
Proof.
  unfold create_mcq. destruct (key_terms_of s) as [|k ks] eqn:Hk; [by eexists _, _|].
  destruct (choice_elem (k :: ks) st) as (target & s1 & Ht & _); [done|].
  set (ds := filter (λ w, w ≠ target) important_words).
  destruct (sample_spec ds (min 3 (length ds)) s1) as (smp & s2 & Hs & _); [lia|].
  destruct (shuffle_perm (target :: smp) s2) as (opts & s3 & Hsh & _).
  eexists _, s3. py_step Ht. py_step Hs. py_step Hsh. done.
Qed.

(** [create_true_false] succeeds on a sentence with a word when the pool
    of important words is not empty. *)
Lemma create_true_false_total st :
  py_split s ≠ [] → important_words ≠ [] →
  ∃ it st', create_true_false important_words quiz_id n s st = inr (it, st').
Proof.
  intros Hs Hi. unfold create_true_false.
  destruct (choice_elem [true; false] st) as (b & s1 & Hb & _); [done|]. py_step Hb.
  destruct b; cbn [negb]; [by eexists _, _|].
  destruct (randint_range 0 (Z.of_nat (length (py_split s)) - 1) s1) as (ri & s2 & Hri & Hr).
  { destruct (py_split s); [done|simpl; lia]. }
  destruct (choice_elem important_words s2) as (w & s3 & Hw & _); [done|].
  assert (0 <= ri)%Z as Hri0 by (clear -Hr; lia).
  assert (Z.to_nat ri < length (py_split s)) as Hlt by (clear -Hr; lia).
  pose proof (setitem_in_range (Σ:=Σ) (py_split s) (Z.to_nat ri) w Hlt) as Hset.
  rewrite Z2Nat.id in Hset by done.
  eexists _, _. py_step Hri. py_step Hw. rewrite Hset. done.
Qed.
End Builders.

Section Dispatch.
Context {nlp : Nlp} {Σ : Type} {rs : RandomSource Σ} (important_words : list str) (quiz_id : str).

(** What one iteration builds: a valid item, or nothing when the sentence
    has no key term. *)
Lemma build_item_spec qt n s st q st' :
  build_item important_words quiz_id qt n s st = inr (q, st') →
  match q with
  | Some it => valid_item important_words quiz_id n s it
  | None => key_terms_of s = []
  end.
Proof.
  unfold build_item. case_decide; intros Hb.
  - apply pbind_inr in Hb as (it & s1 & Hit & [= <- _]).
    change (valid_item important_words quiz_id n s it). left.
    eapply create_true_false_valid, Hit.
  - destruct q as [it|].
    + right. eapply create_mcq_valid, Hb.
    + eapply create_mcq_none, Hb.
Qed.
End Dispatch.

(** ** The item schema of Section 3 of the specification *)

(** An item as a consumer of the JSON reads it: a true/false item offers
    [["True", "False"]] and answers one of the two; a multiple-choice item
    offers one to four options and answers one of them; orders start at 1. *)
Definition item_schema (it : item) : bool :=
  bool_decide (1 ≤ order it) &&
  if bool_decide (item_type it = lit "true-false") then
    bool_decide (json_loads_list (options it) = Some [lit "True"; lit "False"]) &&
    bool_decide (json_loads_str (answer it) ∈ [Some (lit "True"); Some (lit "False")])
  else if bool_decide (item_type it = lit "mcq") then
    match json_loads_list (options it), json_loads_str (answer it) with
    | Some opts, Some a => bool_decide (1 ≤ length opts ≤ 4 ∧ a ∈ opts)
    | _, _ => false
    end
  else false.

Lemma valid_item_schema {nlp : Nlp} important_words quiz_id n s it :
  valid_item important_words quiz_id n s it → item_schema it = true ∧ quizId it = quiz_id.
Proof.
  unfold item_schema.
  intros [(Hq & Ht & Ho & Hord & _ & Hans)|(Hq & Ht & Hord & _ & target & opts & ds & _ & _ & Ha & Ho & Hp & _ & Hlen)];
    (split; [|done]); rewrite Hord, Ht, bool_decide_eq_true_2 by lia; simpl.
  - rewrite Ho. unfold tf_options.
    rewrite loads_dumps_list, bool_decide_eq_true_2 by done. simpl.
    apply bool_decide_eq_true_2.
    destruct Hans as [[-> _]|[-> _]]; rewrite loads_dumps_str; [left|right; left].
  - rewrite Ho, Ha, loads_dumps_list, loads_dumps_str. apply bool_decide_eq_true_2.
    rewrite Hp. split; [simpl; lia|left].
Qed.

(** ** The builders never run out of fuel, and when they succeed *)

Section Totality.
Context {nlp : Nlp} {Σ : Type} {rs : RandomSource Σ} (important_words : list str) (quiz_id : str).
Context {fs : FairSource Σ}.

Lemma build_item_total qt n s st :
  py_split s ≠ [] → important_words ≠ [] →
  ∃ q st', build_item important_words quiz_id qt n s st = inr (q, st') ∧
           (key_terms_of s ≠ [] → is_Some q).
Proof.
  intros Hs Hi. unfold build_item. case_bool_decide.
  - destruct (create_true_false_total important_words quiz_id n s st Hs Hi) as (it & st' & Hc).
    exists (Some it), st'. py_step Hc. split; [done|by eauto].
  - destruct (create_mcq_total important_words quiz_id n s st) as (q & st' & Hc & Hq).
    exists q, st'. split; [done|]. intros Hk. destruct q; [by eauto|]. naive_solver.
Qed.

Lemma build_item_no_fuel qt n s :
  never_raises FuelExhausted (build_item (Σ:=Σ) important_words quiz_id qt n s).
Proof.
  unfold build_item, create_true_false, create_mcq.
  case_bool_decide; [|destruct (key_terms_of s)]; no_raise. destruct a; cbn [negb]; no_raise.
Qed.

End Totality.

(** ** The builders on given draws *)

(** The true/false item in its true form. *)
Definition tf_true_item (quiz_id : str) (n : nat) (s : str) : item :=
  {| quizId := quiz_id; item_type := lit "true-false"; question := s;
     options := tf_options; answer := json_dumps_str (lit "True");
     order := S n; correct_statement := s |}.

Section TrueFalseRuns.
Context (important_words : list str) (quiz_id : str) (n : nat) (s : str).

(** The false form, drawing word position [r] and important word [j]. *)
Lemma create_true_false_false_run r j w rest :
  r < length (py_split s) → important_words !! j = Some w →
  create_true_false (Σ:=list nat) important_words quiz_id n s (1 :: r :: j :: rest) =
  inr ({| quizId := quiz_id; item_type := lit "true-false";
          question := py_join [" "%char] (<[r := w]> (py_split s));
          options := tf_options; answer := json_dumps_str (lit "False");
          order := S n; correct_statement := s |}, rest).
Proof.
  intros Hr Hw. unfold create_true_false.
  assert (choice (Σ:=list nat) [true; false] (1 :: r :: j :: rest) = inr (false, r :: j :: rest))
    as Hb by done.
  py_step Hb. cbn [negb].
  assert (randint (Σ:=list nat) 0 (Z.of_nat (length (py_split s)) - 1) (r :: j :: rest)
          = inr (Z.of_nat r, j :: rest)) as Hri.
  { rewrite randint_stream by lia. done. }
  py_step Hri.
  assert (choice (Σ:=list nat) important_words (j :: rest) = inr (w, rest)) as Hc.
  { by apply choice_stream. }
  py_step Hc. rewrite setitem_in_range by done. done.
Qed.

(** A sentence without words: [randint(0, -1)] raises [ValueError]. *)
Lemma create_true_false_no_words rest :
  py_split s = [] →
  create_true_false (Σ:=list nat) important_words quiz_id n s (1 :: rest) = inl ValueError.
Proof.
  intros Hs. unfold create_true_false.
  assert (choice (Σ:=list nat) [true; false] (1 :: rest) = inr (false, rest)) as Hb by done.
  py_step Hb. cbn [negb]. rewrite Hs. done.
Qed.

(** No important word: [random.choice([])] raises [IndexError]. *)
Lemma create_true_false_no_pool r rest :
  r < length (py_split s) → important_words = [] →
  create_true_false (Σ:=list nat) important_words quiz_id n s (1 :: r :: rest) = inl IndexError.
Proof.
  intros Hr ->. unfold create_true_false.
  assert (choice (Σ:=list nat) [true; false] (1 :: r :: rest) = inr (false, r :: rest))
    as Hb by done.
  py_step Hb. cbn [negb].
  assert (randint (Σ:=list nat) 0 (Z.of_nat (length (py_split s)) - 1) (r :: rest)
          = inr (Z.of_nat r, rest)) as Hri.
  { rewrite randint_stream by lia. done. }
  py_step Hri. done.
Qed.
End TrueFalseRuns.

(** C31: A true/false item whose answer is "False" can show the true
    sentence: the replacement word drawn from the pool can be the word it
    replaces, and then the question is the correct statement itself. *)
Theorem tf_false_item_can_be_true important_words qid n s r j w :
  ws_normal s → py_split s !! r = Some w → important_words !! j = Some w →
  ∃ it, create_true_false (Σ:=list nat) important_words qid n s [1; r; j] = inr (it, []) ∧
        json_loads_str (answer it) = Some (lit "False") ∧ question it = correct_statement it.
Proof.
  intros Hs Hr Hj. rewrite (create_true_false_false_run _ _ _ _ r j w);
    [|by eapply lookup_lt_Some|done].
  eexists. split; [done|]. split; [apply loads_dumps_str|]. simpl.
  rewrite list_insert_id by done. by apply ws_normal_join_split.
Qed.

(** C32: The options of a multiple-choice item can repeat a word: the
    distractors are sampled from the pool of important words, which keeps
    duplicates, so a word that occurs twice in the pool can appear twice
    among the options (the specification asks for distinct distractors). *)
Theorem mcq_repeated_options {nlp : Nlp} {Σ} {rs : RandomSource Σ} qid n s d st it st' :
  d ∉ key_terms_of s →
  create_mcq [d; d] qid n s st = inr (Some it, st') →
  ∃ opts, json_loads_list (options it) = Some opts ∧ length (filter (λ o, o = d) opts) = 2.
Proof.
  intros Hd Hc. apply create_mcq_valid in Hc
    as (_ & _ & _ & _ & target & opts & ds & Hk & _ & _ & Ho & Hp & Hsub & Hlen).
  assert (target ≠ d) as Hne by (intros ->; done).
  unfold distractors_of in *. rewrite !filter_cons_True in Hsub, Hlen by done.
  simpl in Hlen. apply submseteq_length_Permutation in Hsub; [|simpl; lia].
  exists opts. rewrite Ho, loads_dumps_list. split; [done|].
  rewrite Hp, filter_cons_False by done. rewrite Hsub. simpl.
  by rewrite !filter_cons_True by done.
Qed.

(** C33: The blank replaces every occurrence of the target word in the
    question, not only the first ([str.replace] replaces all). *)
Theorem mcq_blanks_every_occurrence {nlp : Nlp} {Σ} {rs : RandomSource Σ}
    important_words qid n st it st' :
  Forall (λ w, w = lit "cat") (key_terms_of (lit "a cat by a cat")) →
  create_mcq important_words qid n (lit "a cat by a cat") st = inr (Some it, st') →
  question it = mcq_prompt ++ lit "a ________ by a ________".
Proof.
  intros Hk Hc. apply create_mcq_valid in Hc
    as (_ & _ & _ & _ & target & opts & ds & Ht & Hq & _).
  rewrite Forall_forall in Hk. rewrite Hq, (Hk target Ht). vm_compute. reflexivity.
Qed.

(** ** The builder findings on concrete inputs *)

Lemma tf_false_item_can_be_true_witness :
  ws_normal (lit "cat sat") ∧ py_split (lit "cat sat") !! 0 = Some (lit "cat") ∧
  [lit "cat"] !! 0 = Some (lit "cat") ∧
  ∃ it, create_true_false (Σ:=list nat) [lit "cat"] (lit "q") 0 (lit "cat sat") [1; 0; 0] = inr (it, []) ∧
        json_loads_str (answer it) = Some (lit "False") ∧ question it = correct_statement it.
Proof.
  assert (Hn : ws_normal (lit "cat sat")).
  { exists [lit "cat"; lit "sat"]. split; [|reflexivity].
    repeat constructor; discriminate. }
  assert (Hr : py_split (lit "cat sat") !! 0 = Some (lit "cat")) by (vm_compute; reflexivity).
  split; [exact Hn|]. split; [exact Hr|]. split; [reflexivity|].
  exact (tf_false_item_can_be_true [lit "cat"] (lit "q") 0 _ 0 0 _ Hn Hr eq_refl).
Defined.

Definition mcq_dup_run : exn + (option item * list nat) :=
  create_mcq (nlp:=toy_nlp) (Σ:=list nat) [lit "dog"; lit "dog"] (lit "q") 0 (lit "The cat sat.")
    [0; 0; 0; 0; 0; 0].

Lemma mcq_repeated_options_witness :
  lit "dog" ∉ key_terms_of (nlp:=toy_nlp) (lit "The cat sat.") ∧
  ∃ it st', mcq_dup_run = inr (Some it, st') ∧
    ∃ opts, json_loads_list (options it) = Some opts ∧
            length (filter (λ o, o = lit "dog") opts) = 2.
Proof.
  assert (Hd : lit "dog" ∉ key_terms_of (nlp:=toy_nlp) (lit "The cat sat.")) by by_eval.
  split; [exact Hd|].
  destruct mcq_dup_run as [e|[[it|] st']] eqn:E; [vm_compute in E; discriminate| |vm_compute in E; discriminate].
  exists it, st'. split; [reflexivity|]. exact (mcq_repeated_options _ _ _ _ _ _ _ Hd E).
Defined.

Definition mcq_blank_run : exn + (option item * list nat) :=
  create_mcq (nlp:=toy_nlp) (Σ:=list nat) [lit "dog"] (lit "q") 0 (lit "a cat by a cat") [0; 0; 0; 0].

Lemma mcq_blanks_every_occurrence_witness :
  Forall (λ w, w = lit "cat") (key_terms_of (nlp:=toy_nlp) (lit "a cat by a cat")) ∧
  ∃ it st', mcq_blank_run = inr (Some it, st') ∧
    question it = mcq_prompt ++ lit "a ________ by a ________".
Proof.
  assert (Hk : Forall (λ w, w = lit "cat") (key_terms_of (nlp:=toy_nlp) (lit "a cat by a cat")))
    by by_eval.
  split; [exact Hk|].
  destruct mcq_blank_run as [e|[[it|] st']] eqn:E; [vm_compute in E; discriminate| |vm_compute in E; discriminate].
  exists it, st'. split; [reflexivity|]. exact (mcq_blanks_every_occurrence _ _ _ _ _ _ Hk E).
Defined.
