(* ===== verification/Generator.v ===== *)
(** * The generation loop, its specification and its results (lines 42-57, 127-148)

    [generate_quiz_questions] segments the transcript, builds the pool of
    important words and loops ([gen_loop]): while fewer than 50 items exist
    and sentences remain, it draws a question type and a sentence, removes
    that sentence ([sentences.remove]) and calls a builder of [Quiz].  The
    loop is a [Fixpoint] on fuel; [generate_quiz_questions] gives it
    [len(sentences)], and [gen_loop_no_fuel_exhaustion] shows the fuel is
    never exhausted, since every iteration removes a sentence.

    The loop is specified as a nondeterministic machine over [gstate] (the
    items produced so far and the sentences not yet used).  A step takes any
    remaining sentence out of the multiset of remaining sentences and either
    appends a valid item for it, numbered after the items before it, or,
    when the sentence has no key term, appends nothing; steps are allowed
    while fewer than 50 items exist.  This is the contract of Section 4.3 of
    the specification with the random choices abstracted away.
    [gen_loop_runs] shows that every successful run of the loop is a run of
    this machine ending where the loop guard is false ([generate_refines]
    for the whole generator).  The invariant [gen_inv], proved by rule
    induction over the machine, gives the properties of the result: orders
    [1..n], no sentence used more often than it occurs, at most 50 items,
    each item valid for its sentence.

    The file ends with runs on the example of the specification and on
    draws that make the generator crash or repeat a statement. *)

From stdpp Require Import relations.
From S2P Require Import Prelude PyBuiltins PyRandom Regex Normalizer Analyzer Json Quiz.

Section Loop.
Context {Σ : Type} {rs : RandomSource Σ} {nlp : Nlp}.

(** Lines 128-139: [while len(questions) < 50 and sentences]. *)
Fixpoint gen_loop (important_words : list str) (quiz_id : str) (fuel : nat)
    (questions : list item) (sentences : list str) : PyM Σ (list item) :=
  if bool_decide (length questions < 50) && bool_decide (sentences ≠ []) then
    match fuel with
    | 0 => praise FuelExhausted
    | S fuel' =>
        let* question_type := choice question_types in
        let* sentence := choice sentences in
        let* sentences' := list_remove sentences sentence in
        let* q := build_item important_words quiz_id question_type (length questions) sentence in
        let questions' := match q with Some it => questions ++ [it] | None => questions end in
        gen_loop important_words quiz_id fuel' questions' sentences'
    end
  else pret questions.

(** Lines 42-57 and 127-148. *)
Definition generate_quiz_questions (transcript quiz_id : str) : PyM Σ (list item) :=
  let sentences := sentences_of transcript in
  let important_words := important_words_of transcript in
  gen_loop important_words quiz_id (length sentences) [] sentences.
End Loop.

(** Lines 141-146: the numbers the final summary logs (total, true/false
    and multiple-choice items). *)
Definition quiz_summary (questions : list item) : nat * nat * nat :=
  (length questions,
   length (filter (λ q, item_type q = lit "true-false") questions),
   length (filter (λ q, item_type q = lit "mcq") questions)).

(** ** Progress: when the loop succeeds, and how many items it makes *)

Section Progress.
Context {nlp : Nlp} {Σ : Type} {rs : RandomSource Σ} (important_words : list str) (quiz_id : str).
Context {fs : FairSource Σ}.

Lemma gen_loop_progress fuel qs ss st :
  length ss ≤ fuel → length qs ≤ 50 →
  Forall (λ s, py_split s ≠ []) ss → important_words ≠ [] →
  ∃ qs' st', gen_loop important_words quiz_id fuel qs ss st = inr (qs', st') ∧
    (Forall (λ s, key_terms_of s ≠ []) ss → length qs' = min 50 (length qs + length ss)).
Proof.
  revert qs ss st. induction fuel as [|fuel IH]; intros qs ss st Hlen Hqs Hws Hi;
    cbn [gen_loop]; destruct (bool_decide (length qs < 50) && bool_decide (ss ≠ [])) eqn:Hg.
  - destruct ss; simpl in Hlen; [|exfalso; lia]. apply andb_true_iff in Hg as [_ Hg].
    by apply bool_decide_eq_true in Hg.
  - eexists _, _. split; [done|]. intros _.
    destruct ss; cbn [length] in *; [lia|exfalso; lia].
  - apply andb_true_iff in Hg as [Hlt%bool_decide_eq_true Hne%bool_decide_eq_true].
    destruct (choice_elem question_types st) as (qt & s1 & Hqt & _); [done|].
    destruct (choice_elem ss s1) as (s & s2 & Hs & Hin); [done|].
    destruct (list_remove_elem (Σ:=Σ) ss s s2 Hin) as (ss' & Hrm & Hp).
    assert (py_split s ≠ []) as Hsw by (by eapply Forall_forall in Hws).
    destruct (build_item_total important_words quiz_id qt (length qs) s s2 Hsw Hi) as (q & s3 & Hb & Hq).
    rewrite Hp in Hws, Hlen. apply Forall_cons in Hws as [_ Hws']. simpl in Hlen.
    set (qs'' := match q with Some it => qs ++ [it] | None => qs end).
    assert (length qs'' ≤ 50) as Hq''
      by (subst qs''; destruct q; rewrite ?length_app; simpl; lia).
    destruct (IH qs'' ss' s3 ltac:(lia) Hq'' Hws' Hi) as (qs' & st' & Hl & Hcount).
    exists qs', st'. py_step Hqt. py_step Hs. py_step Hrm. py_step Hb. split; [done|].
    intros Hk. rewrite Hp in Hk. apply Forall_cons in Hk as [Hk Hk'].
    rewrite (Hcount Hk'). subst qs''. destruct q; [|by destruct (Hq Hk)].
    rewrite Hp, length_app. cbn [length]. lia.
  - eexists _, _. split; [done|]. intros _.
    apply andb_false_iff in Hg as [Hg|Hg]; apply bool_decide_eq_false in Hg.
    + lia.
    + apply dec_stable in Hg. subst. cbn [length]. lia.
Qed.
End Progress.

(** ** The loop never runs out of fuel *)

Section Termination.
Context {nlp : Nlp} {Σ : Type} {rs : RandomSource Σ} (important_words : list str) (quiz_id : str).

(** C6: Termination of the [while] loop: with at least as much fuel as
    there are sentences, the loop never exhausts its fuel, because every
    iteration removes one sentence. *)
Theorem gen_loop_no_fuel_exhaustion fuel qs ss st :
  length ss ≤ fuel →
  gen_loop important_words quiz_id fuel qs ss st ≠ inl FuelExhausted.
Proof.
  revert qs ss st. induction fuel as [|fuel IH]; intros qs ss st Hlen; cbn [gen_loop].
  - destruct ss; [|simpl in Hlen; lia]. by destruct (bool_decide _).
  - destruct (_ && _); [|done]. intros Hl.
    apply pbind_inl in Hl as [Hl|(qt & s1 & _ & Hl)]; [by eapply choice_no_fuel|].
    apply pbind_inl in Hl as [Hl|(s & s2 & _ & Hl)]; [by eapply choice_no_fuel|].
    apply pbind_inl in Hl as [Hl|(ss' & s3 & Hrm & Hl)]; [by eapply list_remove_no_fuel|].
    apply pbind_inl in Hl as [Hl|(q & s4 & _ & Hl)]; [by eapply build_item_no_fuel|].
    apply list_remove_ok, Permutation_length in Hrm. simpl in Hrm.
    eapply IH; [|exact Hl]. lia.
Qed.
End Termination.

Lemma gen_loop_no_fuel_exhaustion_witness :
  length (sentences_of (nlp:=toy_nlp) (lit "A cat. A dog.")) ≤ 2 ∧
  gen_loop (nlp:=toy_nlp) (Σ:=list nat) [] (lit "q") 2 [] (sentences_of (nlp:=toy_nlp) (lit "A cat. A dog."))
    [0; 0; 0] ≠ inl FuelExhausted.
Proof.
  split; [by_eval|]. apply gen_loop_no_fuel_exhaustion. by_eval.
Defined.

(** ** The specification of the loop, and its refinement *)

Record gstate := GState { produced : list item; remaining : list str }.

Section Spec.
Context {nlp : Nlp} (important_words : list str) (quiz_id : str).

Inductive gen_step : gstate → gstate → Prop :=
| gen_step_item qs ss s ss' it :
    length qs < 50 → ss ≡ₚ s :: ss' →
    valid_item important_words quiz_id (length qs) s it →
    gen_step (GState qs ss) (GState (qs ++ [it]) ss')
| gen_step_skip qs ss s ss' :
    length qs < 50 → ss ≡ₚ s :: ss' → key_terms_of s = [] →
    gen_step (GState qs ss) (GState qs ss').

(** The loop guard of line 128 is false. *)
Definition gen_final (g : gstate) : Prop :=
  ¬ (length (produced g) < 50 ∧ remaining g ≠ []).

(** Every item is valid for its own sentence at its own position. *)
Definition items_valid (qs : list item) : Prop :=
  ∀ i it, qs !! i = Some it → valid_item important_words quiz_id i (correct_statement it) it.

(** The invariant of the machine started from the sentences [S0]: the
    sentences of the items, the sentences skipped for want of a key term
    and the remaining sentences are a permutation of [S0]; every item is
    valid; there are at most 50 items. *)
Definition gen_inv (S0 : list str) (g : gstate) : Prop :=
  (∃ skipped, (correct_statement <$> produced g) ++ skipped ++ remaining g ≡ₚ S0 ∧
              Forall (λ s, key_terms_of s = []) skipped) ∧
  items_valid (produced g) ∧ length (produced g) ≤ 50.

Lemma items_valid_snoc qs it s :
  items_valid qs → valid_item important_words quiz_id (length qs) s it →
  correct_statement it = s → items_valid (qs ++ [it]).
Proof.
  intros Hqs Hit Hs i it' Hi. apply lookup_app_Some in Hi as [Hi|[Hlen Hi]].
  - by apply Hqs.
  - apply list_lookup_singleton_Some in Hi as [Hi ->].
    replace i with (length qs) by lia. by subst.
Qed.

Lemma valid_item_statement n s it :
  valid_item important_words quiz_id n s it → correct_statement it = s.
Proof. by intros [(_ & _ & _ & _ & ? & _)|(_ & _ & _ & ? & _)]. Qed.

Lemma valid_item_order n s it :
  valid_item important_words quiz_id n s it → order it = S n.
Proof. by intros [(_ & _ & _ & ? & _)|(_ & _ & ? & _)]. Qed.

Lemma gen_step_inv S0 g g' : gen_step g g' → gen_inv S0 g → gen_inv S0 g'.
Proof.
  intros [qs ss s ss' it Hlt Hp Hv|qs ss s ss' Hlt Hp Hk] ((sk & Hperm & Hsk) & Hval & Hle);
    unfold gen_inv; simpl in *.
  - pose proof (valid_item_statement _ _ _ Hv) as Hs.
    split; [|split; [by eapply items_valid_snoc|rewrite length_app; simpl; lia]].
    exists sk. split; [|done]. rewrite <- Hperm, Hp, fmap_app. simpl.
    rewrite Hs, <- (assoc_L (++)). simpl. f_equiv. by rewrite Permutation_middle.
  - split; [|done]. exists (s :: sk). split; [|by constructor].
    rewrite <- Hperm, Hp. f_equiv. simpl. by rewrite Permutation_middle.
Qed.

Lemma gen_steps_inv S0 g g' : rtc gen_step g g' → gen_inv S0 g → gen_inv S0 g'.
Proof. induction 1; eauto using gen_step_inv. Qed.

Lemma gen_inv_init S0 : gen_inv S0 (GState [] S0).
Proof. split; [by exists []|]. split; [by intros ? ?|simpl; lia]. Qed.

Lemma items_valid_orders qs : items_valid qs → order <$> qs = seq 1 (length qs).
Proof.
  intros Hv. apply list_eq. intros i. rewrite list_lookup_fmap.
  destruct (qs !! i) as [it|] eqn:Hi; simpl.
  - rewrite lookup_seq_lt by (apply lookup_lt_Some in Hi; lia).
    by rewrite (valid_item_order _ _ _ (Hv i it Hi)).
  - symmetry. apply lookup_seq_ge. apply lookup_ge_None in Hi. lia.
Qed.
End Spec.

#[export] Hint Resolve gen_step_inv : pyq.

Lemma gen_guard_true (qs : list item) (ss : list str) :
  bool_decide (length qs < 50) && bool_decide (ss ≠ []) = true ↔ length qs < 50 ∧ ss ≠ [].
Proof. rewrite andb_true_iff, !bool_decide_eq_true. done. Qed.

Lemma gen_guard_false (qs : list item) (ss : list str) :
  bool_decide (length qs < 50) && bool_decide (ss ≠ []) = false ↔ ¬ (length qs < 50 ∧ ss ≠ []).
Proof.
  rewrite andb_false_iff, !bool_decide_eq_false. split; [naive_solver|].
  intros Hn. destruct (decide (length qs < 50)); [right|by left]. naive_solver.
Qed.

Section Refinement.
Context {nlp : Nlp} {Σ : Type} {rs : RandomSource Σ} (important_words : list str) (quiz_id : str).

(** One iteration of the loop, when its guard holds. *)
Lemma gen_loop_iter fuel qs ss st r st' :
  length qs < 50 → ss ≠ [] →
  gen_loop important_words quiz_id (S fuel) qs ss st = inr (r, st') →
  ∃ s ss' q st1,
    ss ≡ₚ s :: ss' ∧
    match q with
    | Some it => valid_item important_words quiz_id (length qs) s it
    | None => key_terms_of s = []
    end ∧
    gen_loop important_words quiz_id fuel
      (match q with Some it => qs ++ [it] | None => qs end) ss' st1 = inr (r, st').
Proof.
  intros Hlt Hne Hl. cbn [gen_loop] in Hl.
  rewrite (proj2 (gen_guard_true qs ss)) in Hl by done.
  apply pbind_inr in Hl as (qt & s1 & _ & Hl).
  apply pbind_inr in Hl as (s & s2 & _ & Hl).
  apply pbind_inr in Hl as (ss' & s3 & Hrm & Hl). apply list_remove_ok in Hrm.
  apply pbind_inr in Hl as (q & s4 & Hb & Hl). apply build_item_spec in Hb.
  by exists s, ss', q, s4.
Qed.

(** The run of the machine that a successful run of the loop follows. *)
Lemma gen_loop_runs fuel qs ss st qs' st' :
  gen_loop important_words quiz_id fuel qs ss st = inr (qs', st') →
  ∃ g, rtc (gen_step important_words quiz_id) (GState qs ss) g ∧ gen_final g ∧
       produced g = qs'.
Proof.
  revert qs ss st. induction fuel as [|fuel IH]; intros qs ss st Hl;
    destruct (bool_decide (length qs < 50) && bool_decide (ss ≠ [])) eqn:Hg.
  - cbn [gen_loop] in Hl. by rewrite Hg in Hl.
  - cbn [gen_loop] in Hl. rewrite Hg in Hl. injection Hl as <- _.
    exists (GState qs ss). split; [done|]. split; [|done]. by apply gen_guard_false.
  - apply gen_guard_true in Hg as [Hlt Hne].
    destruct (gen_loop_iter fuel qs ss st qs' st' Hlt Hne Hl)
      as (s & ss' & q & st1 & Hp & Hq & Hrest).
    destruct (IH _ _ _ Hrest) as (g & Hsteps & Hfin & Hprod).
    exists g. split; [|done]. eapply rtc_l; [|exact Hsteps].
    destruct q as [it|]; [by eapply gen_step_item|by eapply gen_step_skip].
  - cbn [gen_loop] in Hl. rewrite Hg in Hl. injection Hl as <- _.
    exists (GState qs ss). split; [done|]. split; [|done]. by apply gen_guard_false.
Qed.
End Refinement.

(** ** What [generate_quiz_questions] guarantees

    [generate_refines] states the refinement for the whole generator; the
    properties below follow from the invariant of the machine. *)

Section Results.
Context {nlp : Nlp} {Σ : Type} {rs : RandomSource Σ}.

(** C1: Refinement: every successful run of [generate_quiz_questions] is
    a run of the specification machine [gen_step] from no items and all
    the sentences of the transcript to a state where the loop guard is
    false, whose items are the result. *)
Theorem generate_refines t qid st qs st' :
  generate_quiz_questions t qid st = inr (qs, st') →
  ∃ g, rtc (gen_step (important_words_of t) qid) (GState [] (sentences_of t)) g ∧
       gen_final g ∧ produced g = qs.
Proof. apply gen_loop_runs. Qed.

Lemma generate_inv t qid st qs st' :
  generate_quiz_questions t qid st = inr (qs, st') →
  ∃ rem, gen_inv (important_words_of t) qid (sentences_of t) (GState qs rem) ∧
         gen_final (GState qs rem).
Proof.
  unfold generate_quiz_questions. intros Hg.
  destruct (gen_loop_runs _ _ _ _ _ _ _ _ Hg) as ([qs' rem] & Hs & Hf & Hp).
  simpl in Hp. subst qs'. exists rem. split; [|done].
  eapply gen_steps_inv; [exact Hs|apply gen_inv_init].
Qed.

Lemma generate_submseteq t qid st qs st' :
  generate_quiz_questions t qid st = inr (qs, st') →
  (correct_statement <$> qs) ⊆+ sentences_of t.
Proof.
  intros Hg. destruct (generate_inv _ _ _ _ _ Hg) as (rem & ((sk & Hp & _) & _) & _).
  rewrite <- Hp. by apply submseteq_inserts_r.
Qed.

(** C2: Order monotonicity: the [order] fields of the generated items
    are [1, 2, ..., n] in emission order. *)
Theorem generate_orders t qid st qs st' :
  generate_quiz_questions t qid st = inr (qs, st') → order <$> qs = seq 1 (length qs).
Proof.
  intros Hg. destruct (generate_inv _ _ _ _ _ Hg) as (rem & (_ & Hv & _) & _).
  by eapply items_valid_orders.
Qed.

(** C3: Sentence non-reuse: the correct statements of the items form a
    sub-multiset of the sentences; no sentence is used more often than it
    occurs. *)
Theorem generate_statements_submultiset t qid st qs st' :
  generate_quiz_questions t qid st = inr (qs, st') →
  (correct_statement <$> qs) ⊆+ sentences_of t.
Proof. apply generate_submseteq. Qed.

(** C4: At most 50 items, and at most one per sentence. *)
Theorem generate_count_bounds t qid st qs st' :
  generate_quiz_questions t qid st = inr (qs, st') →
  length qs ≤ 50 ∧ length qs ≤ length (sentences_of t).
Proof.
  intros Hg. split.
  - by destruct (generate_inv _ _ _ _ _ Hg) as (rem & (_ & _ & ?) & _).
  - rewrite <- (length_fmap correct_statement). by apply submseteq_length, (generate_submseteq _ qid st _ st').
Qed.

(** C24: When the sentences are pairwise distinct, so are the correct
    statements of the items. *)
Theorem generate_statements_distinct t qid st qs st' :
  generate_quiz_questions t qid st = inr (qs, st') →
  NoDup (sentences_of t) → NoDup (correct_statement <$> qs).
Proof.
  intros Hg Hnd. eapply submseteq_NoDup, Hnd. by eapply generate_submseteq.
Qed.

(** C25: Completeness: when fewer than 50 items are produced, every
    sentence became an item except sentences without a key term. *)
Theorem generate_uses_every_sentence t qid st qs st' :
  generate_quiz_questions t qid st = inr (qs, st') → length qs < 50 →
  ∃ skipped, sentences_of t ≡ₚ (correct_statement <$> qs) ++ skipped ∧
             Forall (λ s, key_terms_of s = []) skipped.
Proof.
  intros Hg Hlt. destruct (generate_inv _ _ _ _ _ Hg) as (rem & ((sk & Hp & Hsk) & _) & Hf).
  unfold gen_final in Hf. simpl in Hf.
  assert (rem = []) as -> by (destruct rem; [done|]; exfalso; apply Hf; split; [lia|done]).
  exists sk. rewrite app_nil_r in Hp. by rewrite Hp.
Qed.
End Results.

Section Outcomes.
Context {nlp : Nlp} {Σ : Type} {rs : RandomSource Σ}.
Context {fs : FairSource Σ}.

Lemma generate_item_valid t qid st qs st' i it :
  generate_quiz_questions t qid st = inr (qs, st') → qs !! i = Some it →
  valid_item (important_words_of t) qid i (correct_statement it) it.
Proof.
  intros Hg Hi. destruct (generate_inv _ _ _ _ _ Hg) as (rem & (_ & Hv & _) & _).
  by apply Hv.
Qed.

(** C11: Exact count: when every sentence has a key term, the loop makes
    one item per sentence up to the cap, [min(50, len(sentences))]. *)
Theorem generate_exact_count t qid st qs st' :
  generate_quiz_questions t qid st = inr (qs, st') →
  Forall (λ s, key_terms_of s ≠ []) (sentences_of t) →
  length qs = min 50 (length (sentences_of t)).
Proof.
  intros Hg Hk. destruct (generate_inv _ _ _ _ _ Hg) as (rem & ((sk & Hp & Hsk) & _ & Hle) & Hf).
  pose proof (submseteq_length _ _ (generate_submseteq _ _ _ _ _ Hg)) as Hsub.
  rewrite length_fmap in Hsub. cbn [produced remaining] in *.
  destruct (decide (length qs < 50)) as [Hlt|]; [|lia].
  assert (rem = []) as -> by (destruct rem; [done|]; exfalso; apply Hf; split; [cbn [produced]; lia|done]).
  destruct sk as [|s sk]; [rewrite !app_nil_r in Hp; apply Permutation_length in Hp; rewrite length_fmap in Hp; lia|].
  exfalso. apply Forall_cons in Hsk as [Hs _]. eapply Forall_forall in Hk; [exact (Hk Hs)|].
  rewrite <- Hp. apply elem_of_app. right. left.
Qed.

(** C12: Liveness of the generator: when every sentence has a word and
    the transcript has an important word, [generate_quiz_questions]
    returns a list of items from every state of every fair generator (one
    whose rejection loops in [random.sample] end). *)
Theorem generate_succeeds t qid st :
  Forall (λ s, py_split s ≠ []) (sentences_of t) → important_words_of t ≠ [] →
  ∃ qs st', generate_quiz_questions t qid st = inr (qs, st').
Proof.
  intros Hws Hi. unfold generate_quiz_questions.
  destruct (gen_loop_progress (important_words_of t) qid (length (sentences_of t)) []
              (sentences_of t) st) as (qs & st' & Hl & _); [done|simpl; lia|done|done|].
  by exists qs, st'.
Qed.

(** C7: Every true/false item offers the options [["True", "False"]], and
    an item whose answer is "True" shows its correct statement. *)
Theorem generate_tf_items t qid st qs st' it :
  generate_quiz_questions t qid st = inr (qs, st') → it ∈ qs →
  item_type it = lit "true-false" →
  json_loads_list (options it) = Some [lit "True"; lit "False"] ∧
  (json_loads_str (answer it) = Some (lit "True") → question it = correct_statement it).
Proof.
  intros Hg (i & Hi)%list_elem_of_lookup Hty.
  destruct (generate_item_valid _ _ _ _ _ _ _ Hg Hi)
    as [(_ & _ & -> & _ & _ & Hans)|(_ & Hty' & _)]; [|by rewrite Hty in Hty'].
  split; [apply loads_dumps_list|].
  destruct Hans as [[_ ->]|[-> _]]; [done|]. by rewrite loads_dumps_str.
Qed.

(** C8: Every multiple-choice item is answerable: its answer decodes to a
    key term of its sentence, the options decode to a list holding that
    term, and the question is the sentence with the term blanked out. *)
Theorem generate_mcq_items t qid st qs st' it :
  generate_quiz_questions t qid st = inr (qs, st') → it ∈ qs →
  item_type it = lit "mcq" →
  ∃ target opts, json_loads_str (answer it) = Some target ∧
    json_loads_list (options it) = Some opts ∧ target ∈ opts ∧
    target ∈ key_terms_of (correct_statement it) ∧
    question it = mcq_prompt ++ py_replace (correct_statement it) target blank.
Proof.
  intros Hg (i & Hi)%list_elem_of_lookup Hty.
  destruct (generate_item_valid _ _ _ _ _ _ _ Hg Hi)
    as [(_ & Hty' & _)|(_ & _ & _ & _ & target & opts & ds & Hk & Hq & -> & -> & Hp & _)];
    [by rewrite Hty in Hty'|].
  exists target, opts. rewrite loads_dumps_str, loads_dumps_list.
  do 2 (split; [done|]). split; [rewrite Hp; left|done].
Qed.

(** C5: MCQ option integrity: the answer of every multiple-choice item
    occurs exactly once among its options, and there are at most four
    options. *)
Theorem generate_mcq_option_integrity t qid st qs st' it :
  generate_quiz_questions t qid st = inr (qs, st') → it ∈ qs →
  item_type it = lit "mcq" →
  ∃ target opts, json_loads_str (answer it) = Some target ∧
    json_loads_list (options it) = Some opts ∧
    length (filter (λ o, o = target) opts) = 1 ∧ length opts ≤ 4.
Proof.
  intros Hg (i & Hi)%list_elem_of_lookup Hty.
  destruct (generate_item_valid _ _ _ _ _ _ _ Hg Hi)
    as [(_ & Hty' & _)|(_ & _ & _ & _ & target & opts & ds & _ & _ & -> & -> & Hp & Hsub & Hlen)];
    [by rewrite Hty in Hty'|].
  exists target, opts. rewrite loads_dumps_str, loads_dumps_list.
  do 2 (split; [done|]). split.
  - apply (count_once _ _ ds Hp). intros Hin.
    apply (elem_of_submseteq _ _ _ Hin), list_elem_of_filter in Hsub as [Hne _]. done.
  - rewrite Hp. simpl. lia.
Qed.
(** C9: Type of the output: every generated item follows the item schema
    of Section 3 of the specification ([item_schema]: options and answer
    decode, a true/false item offers ["True"] and ["False"] and answers one
    of them, a multiple-choice item answers one of its one to four options)
    and carries the quiz id. *)
Theorem generate_items_schema t qid st qs st' :
  generate_quiz_questions t qid st = inr (qs, st') →
  Forall (λ it, item_schema it = true ∧ quizId it = qid) qs.
Proof.
  intros Hg. apply Forall_lookup. intros i it Hi.
  eapply valid_item_schema, generate_item_valid; [exact Hg|exact Hi].
Qed.
(** The two types partition a list whose items all have one of them. *)
Lemma filter_types_length (qs : list item) :
  Forall (λ q, item_type q = lit "true-false" ∨ item_type q = lit "mcq") qs →
  length (filter (λ q, item_type q = lit "true-false") qs) +
  length (filter (λ q, item_type q = lit "mcq") qs) = length qs.
Proof.
  induction 1 as [|q qs [Ht|Ht] _ IH]; [done| |].
  - rewrite filter_cons_True, filter_cons_False by (rewrite Ht; by_eval). cbn [length]. lia.
  - rewrite filter_cons_False, filter_cons_True by (rewrite Ht; by_eval). cbn [length]. lia.
Qed.

(** The logged summary is consistent: the true/false and the
    multiple-choice counts of lines 144-145 add up to the total of line
    143, since every item has one of the two types. *)
Lemma generate_summary_consistent t qid st qs st' :
  generate_quiz_questions t qid st = inr (qs, st') →
  (quiz_summary qs).1.2 + (quiz_summary qs).2 = (quiz_summary qs).1.1.
Proof.
  intros Hg. apply filter_types_length, Forall_lookup. intros i it Hi.
  destruct (generate_item_valid _ _ _ _ _ _ _ Hg Hi) as [(_ & Ht & _)|(_ & Ht & _)]; auto.
Qed.

(** No material, no items: a transcript without sentences gives the
    empty quiz without drawing anything (the edge case of Section 4.2 of
    the specification). *)
Theorem generate_no_sentences t qid st :
  sentences_of t = [] → generate_quiz_questions t qid st = inr ([], st).
Proof. intros Hs. unfold generate_quiz_questions. by rewrite Hs. Qed.
End Outcomes.

(** ** Runs of the model on the example of the specification

    The stand-in tokenizer [toy_nlp] and draws replayed from a list stand
    for NLTK and the generator of [random]. *)

Definition demo_transcript : str :=
  normalize (lit "The cat sat on the mat. [00:01] Dogs bark loudly at night.").

Definition demo_run (draws : list nat) : exn + (list item * list nat) :=
  generate_quiz_questions (nlp:=toy_nlp) demo_transcript (lit "q1") draws.

Definition run_items (r : exn + (list item * list nat)) : list item :=
  match r with inr (qs, _) => qs | inl _ => [] end.

Definition run_state (r : exn + (list item * list nat)) : list nat :=
  match r with inr (_, st) => st | inl _ => [] end.

(** Two true/false items, the second one corrupted. *)
Definition tf_draws : list nat := [0; 0; 0; 0; 1; 5; 6; 7].
(** Two multiple-choice items. *)
Definition mcq_draws : list nat := [1; 0; 2; 3; 4; 5; 6; 7; 8; 9].

Definition tf_items : list item := run_items (demo_run tf_draws).
Definition tf_state : list nat := run_state (demo_run tf_draws).
Definition mcq_items : list item := run_items (demo_run mcq_draws).
Definition mcq_state : list nat := run_state (demo_run mcq_draws).

Lemma tf_run : demo_run tf_draws = inr (tf_items, tf_state).
Proof. vm_compute. reflexivity. Qed.

Lemma mcq_run : demo_run mcq_draws = inr (mcq_items, mcq_state).
Proof. vm_compute. reflexivity. Qed.

(** The specification's end-to-end example: the marker is removed, the two
    sentences give two items numbered 1 and 2, one per sentence. *)
Example demo_end_to_end :
  demo_transcript = lit "The cat sat on the mat. Dogs bark loudly at night." ∧
  correct_statement <$> tf_items = [lit "The cat sat on the mat."; lit "Dogs bark loudly at night."] ∧
  order <$> mcq_items = [1; 2] ∧ length mcq_items = 2.
Proof. vm_compute. repeat split. Qed.

Lemma generate_refines_witness :
  demo_run tf_draws = inr (tf_items, tf_state) ∧
  ∃ g, rtc (gen_step (nlp:=toy_nlp) (important_words_of (nlp:=toy_nlp) demo_transcript) (lit "q1"))
         (GState [] (sentences_of (nlp:=toy_nlp) demo_transcript)) g ∧ gen_final g ∧ produced g = tf_items.
Proof.
  assert (E : demo_run tf_draws = inr (tf_items, tf_state)) by (vm_compute; reflexivity).
  split; [exact E|]. exact (generate_refines _ _ _ _ _ E).
Defined.

Lemma generate_orders_witness :
  demo_run tf_draws = inr (tf_items, tf_state) ∧ order <$> tf_items = seq 1 (length tf_items).
Proof.
  assert (E : demo_run tf_draws = inr (tf_items, tf_state)) by (vm_compute; reflexivity).
  split; [exact E|]. exact (generate_orders _ _ _ _ _ E).
Defined.

Lemma generate_statements_submultiset_witness :
  demo_run mcq_draws = inr (mcq_items, mcq_state) ∧
  (correct_statement <$> mcq_items) ⊆+ sentences_of (nlp:=toy_nlp) demo_transcript.
Proof.
  assert (E : demo_run mcq_draws = inr (mcq_items, mcq_state)) by (vm_compute; reflexivity).
  split; [exact E|]. exact (generate_statements_submultiset _ _ _ _ _ E).
Defined.

Lemma generate_count_bounds_witness :
  demo_run tf_draws = inr (tf_items, tf_state) ∧
  length tf_items ≤ 50 ∧ length tf_items ≤ length (sentences_of (nlp:=toy_nlp) demo_transcript).
Proof.
  assert (E : demo_run tf_draws = inr (tf_items, tf_state)) by (vm_compute; reflexivity).
  split; [exact E|]. exact (generate_count_bounds _ _ _ _ _ E).
Defined.

Lemma generate_statements_distinct_witness :
  demo_run mcq_draws = inr (mcq_items, mcq_state) ∧
  NoDup (sentences_of (nlp:=toy_nlp) demo_transcript) ∧ NoDup (correct_statement <$> mcq_items).
Proof.
  assert (E : demo_run mcq_draws = inr (mcq_items, mcq_state)) by (vm_compute; reflexivity).
  assert (Hnd : NoDup (sentences_of (nlp:=toy_nlp) demo_transcript)) by by_eval.
  split; [exact E|]. split; [exact Hnd|]. exact (generate_statements_distinct _ _ _ _ _ E Hnd).
Defined.

Lemma generate_uses_every_sentence_witness :
  demo_run tf_draws = inr (tf_items, tf_state) ∧ length tf_items < 50 ∧
  ∃ skipped, sentences_of (nlp:=toy_nlp) demo_transcript ≡ₚ (correct_statement <$> tf_items) ++ skipped ∧
             Forall (λ s, key_terms_of (nlp:=toy_nlp) s = []) skipped.
Proof.
  assert (E : demo_run tf_draws = inr (tf_items, tf_state)) by (vm_compute; reflexivity).
  assert (Hlt : length tf_items < 50) by by_eval.
  split; [exact E|]. split; [exact Hlt|]. exact (generate_uses_every_sentence _ _ _ _ _ E Hlt).
Defined.

Lemma generate_exact_count_witness :
  demo_run mcq_draws = inr (mcq_items, mcq_state) ∧
  Forall (λ s, key_terms_of (nlp:=toy_nlp) s ≠ []) (sentences_of (nlp:=toy_nlp) demo_transcript) ∧
  length mcq_items = min 50 (length (sentences_of (nlp:=toy_nlp) demo_transcript)).
Proof.
  assert (E : demo_run mcq_draws = inr (mcq_items, mcq_state)) by (vm_compute; reflexivity).
  assert (Hk : Forall (λ s, key_terms_of (nlp:=toy_nlp) s ≠ []) (sentences_of (nlp:=toy_nlp) demo_transcript))
    by by_eval.
  split; [exact E|]. split; [exact Hk|]. exact (generate_exact_count _ _ _ _ _ E Hk).
Defined.

Lemma generate_succeeds_witness :
  Forall (λ s, py_split s ≠ []) (sentences_of (nlp:=toy_nlp) demo_transcript) ∧
  important_words_of (nlp:=toy_nlp) demo_transcript ≠ [] ∧
  ∃ qs st', generate_quiz_questions (nlp:=toy_nlp) demo_transcript (lit "q1") 7 = inr (qs, st').
Proof.
  assert (Hw : Forall (λ s, py_split s ≠ []) (sentences_of (nlp:=toy_nlp) demo_transcript)) by by_eval.
  assert (Hi : important_words_of (nlp:=toy_nlp) demo_transcript ≠ []) by by_eval.
  split; [exact Hw|]. split; [exact Hi|]. exact (generate_succeeds _ _ _ Hw Hi).
Defined.

Lemma generate_items_schema_witness :
  demo_run mcq_draws = inr (mcq_items, mcq_state) ∧
  Forall (λ it, item_schema it = true ∧ quizId it = lit "q1") mcq_items.
Proof.
  assert (E : demo_run mcq_draws = inr (mcq_items, mcq_state)) by (vm_compute; reflexivity).
  split; [exact E|]. exact (generate_items_schema _ _ _ _ _ E).
Defined.

Lemma generate_no_sentences_witness :
  sentences_of (nlp:=toy_nlp) (lit "  ") = [] ∧
  generate_quiz_questions (nlp:=toy_nlp) (lit "  ") (lit "q1") [3; 1] = inr ([], [3; 1]).
Proof.
  assert (Hs : sentences_of (nlp:=toy_nlp) (lit "  ") = []) by (vm_compute; reflexivity).
  split; [exact Hs|]. exact (generate_no_sentences _ _ _ Hs).
Defined.

Lemma generate_tf_items_witness :
  ∃ it, head tf_items = Some it ∧ item_type it = lit "true-false" ∧
    json_loads_list (options it) = Some [lit "True"; lit "False"] ∧
    (json_loads_str (answer it) = Some (lit "True") → question it = correct_statement it).
Proof.
  assert (E : demo_run tf_draws = inr (tf_items, tf_state)) by (vm_compute; reflexivity).
  destruct (head tf_items) as [it|] eqn:Hh; [|vm_compute in Hh; discriminate].
  assert (Ht : item_type it = lit "true-false")
    by (vm_compute in Hh; injection Hh as <-; reflexivity).
  exists it. split; [done|]. split; [exact Ht|].
  exact (generate_tf_items _ _ _ _ _ it E (head_Some_elem_of _ _ Hh) Ht).
Defined.

Lemma generate_mcq_items_witness :
  ∃ it, head mcq_items = Some it ∧ item_type it = lit "mcq" ∧
    ∃ target opts, json_loads_str (answer it) = Some target ∧
      json_loads_list (options it) = Some opts ∧ target ∈ opts ∧
      target ∈ key_terms_of (nlp:=toy_nlp) (correct_statement it) ∧
      question it = mcq_prompt ++ py_replace (correct_statement it) target blank.
Proof.
  assert (E : demo_run mcq_draws = inr (mcq_items, mcq_state)) by (vm_compute; reflexivity).
  destruct (head mcq_items) as [it|] eqn:Hh; [|vm_compute in Hh; discriminate].
  assert (Ht : item_type it = lit "mcq") by (vm_compute in Hh; injection Hh as <-; reflexivity).
  exists it. split; [done|]. split; [exact Ht|].
  exact (generate_mcq_items _ _ _ _ _ it E (head_Some_elem_of _ _ Hh) Ht).
Defined.

Lemma generate_mcq_option_integrity_witness :
  ∃ it, head mcq_items = Some it ∧ item_type it = lit "mcq" ∧
    ∃ target opts, json_loads_str (answer it) = Some target ∧
      json_loads_list (options it) = Some opts ∧
      length (filter (λ o, o = target) opts) = 1 ∧ length opts ≤ 4.
Proof.
  assert (E : demo_run mcq_draws = inr (mcq_items, mcq_state)) by (vm_compute; reflexivity).
  destruct (head mcq_items) as [it|] eqn:Hh; [|vm_compute in Hh; discriminate].
  assert (Ht : item_type it = lit "mcq") by (vm_compute in Hh; injection Hh as <-; reflexivity).
  exists it. split; [done|]. split; [exact Ht|].
  exact (generate_mcq_option_integrity _ _ _ _ _ it E (head_Some_elem_of _ _ Hh) Ht).
Defined.

(** ** Runs of the loop on given draws *)

Section Steps.
Context {nlp : Nlp} (important_words : list str) (quiz_id : str).

Lemma gen_loop_guard_true (qs : list item) (s : str) ss :
  length qs < 50 →
  bool_decide (length qs < 50) && bool_decide (s :: ss ≠ []) = true.
Proof. intros Hlt. by apply gen_guard_true. Qed.

(** An iteration drawing the true/false type, the first sentence and the
    true form. *)
Lemma gen_loop_step_tf_true fuel qs s ss rest :
  length qs < 50 →
  gen_loop (Σ:=list nat) important_words quiz_id (S fuel) qs (s :: ss) (0 :: 0 :: 0 :: rest) =
  gen_loop important_words quiz_id fuel (qs ++ [tf_true_item quiz_id (length qs) s]) ss rest.
Proof.
  intros Hlt. cbn [gen_loop]. rewrite gen_loop_guard_true by done.
  py_step (choice_head (lit "true-false") [lit "mcq"] (0 :: 0 :: rest)).
  py_step (choice_head s ss (0 :: rest)).
  py_step (list_remove_head s ss (0 :: rest)). done.
Qed.

(** An iteration drawing the true/false type, the first sentence, the
    false form, and [r] for the word position. *)
Lemma gen_loop_step_tf_false fuel qs s ss r rest :
  length qs < 50 →
  gen_loop (Σ:=list nat) important_words quiz_id (S fuel) qs (s :: ss) (0 :: 0 :: 1 :: r :: rest) =
  match create_true_false (Σ:=list nat) important_words quiz_id (length qs) s (1 :: r :: rest) with
  | inl e => inl e
  | inr (it, st) => gen_loop important_words quiz_id fuel (qs ++ [it]) ss st
  end.
Proof.
  intros Hlt. cbn [gen_loop]. rewrite gen_loop_guard_true by done.
  py_step (choice_head (lit "true-false") [lit "mcq"] (0 :: 1 :: r :: rest)).
  py_step (choice_head s ss (1 :: r :: rest)).
  py_step (list_remove_head s ss (1 :: r :: rest)).
  unfold build_item. rewrite bool_decide_eq_true_2 by done. unfold pbind.
  destruct (create_true_false important_words quiz_id (length qs) s (1 :: r :: rest))
    as [e|[it st]]; reflexivity.
Qed.
End Steps.

(** ** Where the code departs from the specification *)

Section Findings.
Context {nlp : Nlp}.

(** C28: A sentence without words aborts the whole quiz: when the
    true/false type and the false form are drawn for it,
    [random.randint(0, -1)] raises [ValueError] (the specification asks
    for a fallback to the true form). *)
Theorem generate_crash_wordless_sentence t qid s ss rest :
  sentences_of t = s :: ss → py_split s = [] →
  generate_quiz_questions (Σ:=list nat) t qid (0 :: 0 :: 1 :: 0 :: rest) = inl ValueError.
Proof.
  intros Hs Hw. unfold generate_quiz_questions. rewrite Hs. cbn [length].
  rewrite gen_loop_step_tf_false by (simpl; lia). by rewrite create_true_false_no_words.
Qed.

(** C29: A transcript none of whose tokens is tagged NN, VB or JJ aborts
    the quiz: the false form draws from the empty pool of important words
    and [random.choice([])] raises [IndexError]. *)
Theorem generate_crash_no_important_words t qid s ss rest :
  sentences_of t = s :: ss → py_split s ≠ [] → important_words_of t = [] →
  generate_quiz_questions (Σ:=list nat) t qid (0 :: 0 :: 1 :: 0 :: rest) = inl IndexError.
Proof.
  intros Hs Hw Hi. unfold generate_quiz_questions. rewrite Hs. cbn [length].
  rewrite gen_loop_step_tf_false by (simpl; lia).
  rewrite create_true_false_no_pool; [done| |done]. destruct (py_split s); [done|simpl; lia].
Qed.

(** C30: A sentence that occurs twice can be the correct statement of two
    items: "no two items share the identical correct_statement" fails for
    transcripts that repeat a sentence. *)
Theorem generate_repeated_sentence t qid s :
  sentences_of t = [s; s] →
  ∃ qs st', generate_quiz_questions (Σ:=list nat) t qid [0; 0; 0; 0; 0; 0] = inr (qs, st') ∧
            correct_statement <$> qs = [s; s].
Proof.
  intros Hs. unfold generate_quiz_questions. rewrite Hs. cbn [length].
  rewrite gen_loop_step_tf_true by (simpl; lia).
  rewrite gen_loop_step_tf_true by (simpl; lia).
  by eexists _, _.
Qed.
End Findings.

Lemma generate_crash_wordless_sentence_witness :
  sentences_of (nlp:=toy_nlp) (normalize (nested_marker (lit "1") (lit "0") (lit "00") (lit "2"))) = [[]] ∧ py_split [] = [] ∧
  generate_quiz_questions (nlp:=toy_nlp) (Σ:=list nat) (normalize (nested_marker (lit "1") (lit "0") (lit "00") (lit "2"))) (lit "q")
    [0; 0; 1; 0] = inl ValueError.
Proof.
  assert (Hs : sentences_of (nlp:=toy_nlp) (normalize (nested_marker (lit "1") (lit "0") (lit "00") (lit "2"))) = [[]])
    by (vm_compute; reflexivity).
  split; [exact Hs|]. split; [reflexivity|].
  exact (generate_crash_wordless_sentence _ _ [] [] [] Hs eq_refl).
Defined.

Lemma generate_crash_no_important_words_witness :
  sentences_of (nlp:=toy_nlp) (lit "Oh") = [lit "Oh"] ∧ py_split (lit "Oh") ≠ [] ∧
  important_words_of (nlp:=toy_nlp) (lit "Oh") = [] ∧
  generate_quiz_questions (nlp:=toy_nlp) (Σ:=list nat) (lit "Oh") (lit "q") [0; 0; 1; 0]
    = inl IndexError.
Proof.
  assert (Hs : sentences_of (nlp:=toy_nlp) (lit "Oh") = [lit "Oh"]) by (vm_compute; reflexivity).
  assert (Hw : py_split (lit "Oh") ≠ []) by by_eval.
  assert (Hi : important_words_of (nlp:=toy_nlp) (lit "Oh") = []) by (vm_compute; reflexivity).
  split; [exact Hs|]. split; [exact Hw|]. split; [exact Hi|].
  exact (generate_crash_no_important_words _ _ _ [] [] Hs Hw Hi).
Defined.

Lemma generate_repeated_sentence_witness :
  sentences_of (nlp:=toy_nlp) (lit "Yes. Yes.") = [lit "Yes."; lit "Yes."] ∧
  ∃ qs st', generate_quiz_questions (nlp:=toy_nlp) (Σ:=list nat) (lit "Yes. Yes.") (lit "q")
              [0; 0; 0; 0; 0; 0] = inr (qs, st') ∧
            correct_statement <$> qs = [lit "Yes."; lit "Yes."].
Proof.
  assert (Hs : sentences_of (nlp:=toy_nlp) (lit "Yes. Yes.") = [lit "Yes."; lit "Yes."])
    by (vm_compute; reflexivity).
  split; [exact Hs|]. exact (generate_repeated_sentence _ _ _ Hs).
Defined.

