(* ===== verification/Logging.v ===== *)
(** * Logging (lines 20-25, 59-68, 141-148)

    The program logs through one module-level logger configured by
    [logging.basicConfig(level=logging.INFO, format=...)] (lines 20-25).
    A log record has a level, a message and, where the code formats an
    exception with [str(e)], that exception; the text [str(e)] of an
    exception is not modelled, so the record keeps the exception itself.
    [logged] is a writer monad over the records, which keeps the records
    written before an exception, as Python's logging does.  Integers are
    formatted by f-strings with [str(int)], modelled with stdpp's decimal
    [pretty], and [py_str_nat_int] shows that the logged numbers read back
    as the numbers.  [generate_quiz_questions] logs only its final summary
    ([summary_log]); [log_question] is defined by the code but never
    called.  The handler's records are in [HandlerLog]. *)

From stdpp Require Import pretty.
From S2P Require Import Prelude PyBuiltins PyRandom Regex Normalizer Analyzer Json Quiz Generator.

(** The levels of Python's [logging] module. *)
Inductive log_level := DEBUG | INFO | WARNING | ERROR | CRITICAL.

#[export] Instance log_level_eq_dec : EqDecision log_level.
Proof. solve_decision. Defined.

Definition level_no (l : log_level) : nat :=
  match l with DEBUG => 10 | INFO => 20 | WARNING => 30 | ERROR => 40 | CRITICAL => 50 end.

Definition levelname (l : log_level) : str :=
  match l with
  | DEBUG => lit "DEBUG" | INFO => lit "INFO" | WARNING => lit "WARNING"
  | ERROR => lit "ERROR" | CRITICAL => lit "CRITICAL"
  end.

(** The exception a record formats with [str(e)]: one of the model's, or
    the [CalledProcessError] of a failed whisper run. *)
Inductive log_exc := LExn (e : exn) | LCalledProcessError.

(** A call [logger.<level>(text + str(e))]. *)
Record log_record := LogRecord { level : log_level; text : str; exc : option log_exc }.

(** Line 21: [level=logging.INFO]: records below INFO are dropped. *)
Definition logger_level : log_level := INFO.

Definition emitted (r : log_record) : bool := level_no logger_level <=? level_no (level r).

(** Line 23: [format='%(asctime)s - %(levelname)s - %(message)s'], for
    the time stamp and the text of the exception given. *)
Definition format_record (asctime : str) (exc_str : log_exc → str) (r : log_record) : str :=
  asctime ++ lit " - " ++ levelname (level r) ++ lit " - " ++ text r ++
  from_option exc_str [] (exc r).

(** ** The writer of log records *)

Record logged (A : Type) := Logged { result : exn + A; logs : list log_record }.
Arguments Logged {_} _ _.
Arguments result {_} _.
Arguments logs {_} _.

#[export] Instance logged_ret : MRet logged := λ A x, Logged (inr x) [].

#[export] Instance logged_bind : MBind logged := λ A B k m,
  match result m with
  | inl e => Logged (inl e) (logs m)
  | inr x => Logged (result (k x)) (logs m ++ logs (k x))
  end.

Definition lraise {A} (e : exn) : logged A := Logged (inl e) [].

(** [logger.info(text)] and [logger.error(text + str(e))]. *)
Definition logger_info (s : str) : logged unit := Logged (inr ()) [LogRecord INFO s None].

Definition logger_error (s : str) (e : option log_exc) : logged unit :=
  Logged (inr ()) [LogRecord ERROR s e].

(** An [exn + A] computation that logs nothing. *)
Definition of_result {A} (r : exn + A) : logged A := Logged r [].

Lemma result_bind {A B} (m : logged A) (k : A → logged B) :
  result (m ≫= k) = match result m with inl e => inl e | inr x => result (k x) end.
Proof. unfold mbind, logged_bind. by destruct (result m). Qed.

Lemma logs_bind {A B} (m : logged A) (k : A → logged B) :
  logs (m ≫= k) = logs m ++ match result m with inl _ => [] | inr x => logs (k x) end.
Proof. unfold mbind, logged_bind. destruct (result m); simpl; by rewrite ?app_nil_r. Qed.

(** [erase] computes the result of a logged computation, forgetting its
    records. *)
Ltac erase :=
  repeat (rewrite ?result_bind; cbn [result logger_info logger_error of_result lraise mret logged_ret]).

(** Whether a list of records holds an ERROR record. *)
Definition logs_error (rs : list log_record) : bool := existsb (λ r, bool_decide (level r = ERROR)) rs.

(** A computation that writes no ERROR record. *)
Definition info_only {A} (m : logged A) : Prop := logs_error (logs m) = false.

Lemma logs_error_app rs1 rs2 : logs_error (rs1 ++ rs2) = logs_error rs1 || logs_error rs2.
Proof. apply existsb_app. Qed.

Lemma info_only_bind {A B} (m : logged A) (k : A → logged B) :
  info_only m → (∀ x, info_only (k x)) → info_only (m ≫= k).
Proof.
  unfold info_only. intros Hm Hk. rewrite logs_bind, logs_error_app, Hm.
  destruct (result m); [done|]. apply Hk.
Qed.

Lemma info_only_ret {A} (x : A) : info_only (mret x).
Proof. done. Qed.

Lemma info_only_info s : info_only (logger_info s).
Proof. done. Qed.

Lemma info_only_of_result {A} (r : exn + A) : info_only (of_result r).
Proof. done. Qed.

Lemma info_only_raise {A} e : info_only (A:=A) (lraise e).
Proof. done. Qed.

Create HintDb logq discriminated.
#[export] Hint Resolve info_only_ret info_only_info info_only_of_result info_only_raise : logq.

(** [info_tac] splits a logged computation into its binds and branches and
    closes the pieces with [logq]. *)
Ltac info_tac :=
  repeat first [apply info_only_bind; intros | progress cbv zeta | case_bool_decide | case_match];
  auto with logq.

(** ** Numbers in f-strings *)

(** [str(n)] for a non-negative [int]. *)
Definition py_str_nat (n : nat) : str := lit (pretty n).

(** Reading a string of decimal digits back ([int(s)] on such a string). *)
Definition digit_val (c : ascii) : option nat :=
  if is_digit c then Some (nat_of_ascii c - 48) else None.

Fixpoint py_int_go (acc : nat) (s : str) : option nat :=
  match s with
  | [] => Some acc
  | c :: s' => digit_val c ≫= λ d, py_int_go (acc * 10 + d) s'
  end.

Definition py_int (s : str) : option nat :=
  match s with [] => None | _ => py_int_go 0 s end.

(** ** The summary of [generate_quiz_questions] and [log_question] *)

(** Lines 142-146. *)
Definition summary_log (questions : list item) : logged unit :=
  let '(total, tf, mcq) := quiz_summary questions in
  logger_info (nl :: lit "=== Quiz Generation Summary ===");;
  logger_info (lit "Total questions generated: " ++ py_str_nat total);;
  logger_info (lit "True/False questions: " ++ py_str_nat tf);;
  logger_info (lit "MCQ questions: " ++ py_str_nat mcq);;
  logger_info (lit "============================" ++ [nl]).

(** Lines 59-68, a function the code defines and never calls. *)
Definition log_question (q : item) : logged unit :=
  logger_info (nl :: lit "=== New Question Generated ===");;
  logger_info (lit "Type: " ++ item_type q);;
  logger_info (lit "Question: " ++ question q);;
  logger_info (lit "Options: " ++ options q);;
  logger_info (lit "Answer: " ++ answer q);;
  logger_info (lit "Order: " ++ py_str_nat (order q));;
  logger_info (lit "Correct Statement: " ++ correct_statement q);;
  logger_info (lit "============================" ++ [nl]).

Section Generate.
Context {nlp : Nlp} {Σ : Type} {rs : RandomSource Σ}.

(** Lines 42-148 with the log: the loop logs nothing, the summary is
    written once it ends, and [return questions]. *)
Definition generate_quiz_questions_logged (t quiz_id : str) (st : Σ) : logged (list item * Σ) :=
  match generate_quiz_questions t quiz_id st with
  | inl e => lraise e
  | inr (questions, st') => summary_log questions;; mret (questions, st')
  end.
End Generate.

(** ** Reading the numbers back from the summary *)

(** The number a record logs after the text [prefix]. *)
Definition read_count (prefix : str) (r : log_record) : option nat :=
  scan_lit prefix (text r) ≫= py_int.

Arguments read_count : simpl never.

(** The three counts of a five-record summary (lines 143-145). *)
Definition summary_counts (rs : list log_record) : option (nat * nat * nat) :=
  match rs with
  | [_; r1; r2; r3; _] =>
      total ← read_count (lit "Total questions generated: ") r1;
      tf ← read_count (lit "True/False questions: ") r2;
      mcq ← read_count (lit "MCQ questions: ") r3;
      Some (total, tf, mcq)
  | _ => None
  end.

(** ** [str(n)] reads back as [n] *)

Lemma lit_append s t : lit (s +:+ t) = lit s ++ lit t.
Proof. induction s as [|c s IH]; [done|]. simpl. by rewrite IH. Qed.

Lemma pretty_N_go_lit x s : lit (pretty_N_go x s) = lit (pretty_N_go x "") ++ lit s.
Proof.
  revert s. induction (N.lt_wf_0 x) as [x _ IH]; intros s.
  destruct (decide (x = 0)%N) as [->|Hx]; [by rewrite !pretty_N_go_0|].
  rewrite !(pretty_N_go_step x) by lia.
  rewrite (IH _ (N.div_lt x 10 ltac:(lia) ltac:(lia)) (String _ s)).
  rewrite (IH _ (N.div_lt x 10 ltac:(lia) ltac:(lia)) (String _ "")).
  by rewrite <- (assoc_L (++)).
Qed.

Lemma digit_val_pretty d : (d < 10)%N → digit_val (pretty_N_char d) = Some (N.to_nat d).
Proof.
  intros Hd. assert (d = 0 ∨ d = 1 ∨ d = 2 ∨ d = 3 ∨ d = 4 ∨ d = 5 ∨ d = 6 ∨ d = 7 ∨ d = 8 ∨ d = 9)%N
    as Hcases by lia.
  by repeat destruct Hcases as [->|Hcases]; [..|subst].
Qed.

Lemma py_int_go_app acc s t : py_int_go acc (s ++ t) = py_int_go acc s ≫= λ a, py_int_go a t.
Proof.
  revert acc. induction s as [|c s IH]; intros acc; [done|]. simpl.
  destruct (digit_val c); [apply IH|done].
Qed.

Lemma py_int_go_pretty x : (0 < x)%N → py_int_go 0 (lit (pretty_N_go x "")) = Some (N.to_nat x).
Proof.
  induction (N.lt_wf_0 x) as [x _ IH]; intros Hx.
  rewrite pretty_N_go_step, pretty_N_go_lit, py_int_go_app by lia.
  destruct (decide (x `div` 10 = 0)%N) as [Hq|Hq].
  - rewrite Hq, pretty_N_go_0. simpl. rewrite digit_val_pretty by (apply N.mod_lt; lia).
    simpl. f_equal. pose proof (N.div_mod x 10). lia.
  - assert (x `div` 10 < x)%N by (apply N.div_lt; lia).
    rewrite IH; [|done|by apply N.neq_0_lt_0]. simpl.
    rewrite digit_val_pretty by (apply N.mod_lt; lia). simpl.
    f_equal. pose proof (N.div_mod x 10). lia.
Qed.

(** [int(str(n)) == n]. *)
Lemma py_str_nat_int n : py_int (py_str_nat n) = Some n.
Proof.
  unfold py_str_nat, pretty, pretty_nat, pretty, pretty_N.
  case_decide as Hn; [simpl; f_equal; lia|].
  destruct (lit (pretty_N_go (N.of_nat n) "")) as [|c s] eqn:E.
  - pose proof (py_int_go_pretty (N.of_nat n) ltac:(lia)) as H. rewrite E in H. simpl in H.
    injection H. lia.
  - unfold py_int. rewrite <- E, py_int_go_pretty by lia. f_equal. lia.
Qed.

Lemma scan_lit_app p s : scan_lit p (p ++ s) = Some s.
Proof. induction p as [|c p IH]; [done|]. simpl. by rewrite bool_decide_eq_true_2. Qed.

Lemma read_count_info prefix n : read_count prefix (LogRecord INFO (prefix ++ py_str_nat n) None) = Some n.
Proof. unfold read_count. simpl. rewrite scan_lit_app. apply py_str_nat_int. Qed.

Lemma summary_log_result qs : result (summary_log qs) = inr ().
Proof. unfold summary_log. by destruct (quiz_summary qs) as [[? ?] ?]. Qed.

Lemma summary_log_logs qs :
  logs (summary_log qs) =
  let '(total, tf, mcq) := quiz_summary qs in
  [LogRecord INFO (nl :: lit "=== Quiz Generation Summary ===") None;
   LogRecord INFO (lit "Total questions generated: " ++ py_str_nat total) None;
   LogRecord INFO (lit "True/False questions: " ++ py_str_nat tf) None;
   LogRecord INFO (lit "MCQ questions: " ++ py_str_nat mcq) None;
   LogRecord INFO (lit "============================" ++ [nl]) None].
Proof. unfold summary_log. by destruct (quiz_summary qs) as [[? ?] ?]. Qed.

Lemma summary_counts_log qs : summary_counts (logs (summary_log qs)) = Some (quiz_summary qs).
Proof.
  rewrite summary_log_logs. destruct (quiz_summary qs) as [[total tf] mcq].
  unfold summary_counts. cbv beta iota. by rewrite !read_count_info.
Qed.

Lemma summary_log_info_only qs : info_only (summary_log qs).
Proof. unfold summary_log. destruct (quiz_summary qs) as [[? ?] ?]. info_tac. Qed.
#[export] Hint Resolve summary_log_info_only : logq.

Section GenerateLog.
Context {nlp : Nlp} {Σ : Type} {rs : RandomSource Σ}.

Lemma generate_quiz_questions_logged_info_only t qid st : info_only (generate_quiz_questions_logged t qid st).
Proof. unfold generate_quiz_questions_logged. info_tac. Qed.

Lemma generate_quiz_questions_logged_result t qid st :
  result (generate_quiz_questions_logged t qid st) = generate_quiz_questions t qid st.
Proof.
  unfold generate_quiz_questions_logged. destruct (generate_quiz_questions t qid st) as [|[qs st']]; [done|].
  unfold mbind, logged_bind. by rewrite summary_log_result.
Qed.

Lemma generate_quiz_questions_logged_logs t qid st qs st' :
  generate_quiz_questions t qid st = inr (qs, st') →
  logs (generate_quiz_questions_logged t qid st) = logs (summary_log qs).
Proof.
  intros Hg. unfold generate_quiz_questions_logged. rewrite Hg.
  unfold mbind, logged_bind. rewrite summary_log_result. cbn [logs]. apply app_nil_r.
Qed.

(** C26: The summary that [generate_quiz_questions] logs can be read back:
    parsing the numbers of its three count lines gives the number of
    items, of true/false items and of multiple-choice items of the
    returned list, and the last two add up to the first. *)
Theorem generate_summary_log t qid st qs st' :
  result (generate_quiz_questions_logged t qid st) = inr (qs, st') →
  summary_counts (logs (generate_quiz_questions_logged t qid st)) = Some (quiz_summary qs) ∧
  (quiz_summary qs).1.2 + (quiz_summary qs).2 = length qs.
Proof.
  rewrite generate_quiz_questions_logged_result. intros Hg.
  rewrite (generate_quiz_questions_logged_logs _ _ _ _ _ Hg), summary_counts_log.
  split; [done|]. exact (generate_summary_consistent _ _ _ _ _ Hg).
Qed.
End GenerateLog.
#[export] Hint Resolve generate_quiz_questions_logged_info_only : logq.

Lemma generate_summary_log_witness :
  result (generate_quiz_questions_logged (nlp:=toy_nlp) demo_transcript (lit "q1") tf_draws)
    = inr (tf_items, tf_state) ∧
  summary_counts (logs (generate_quiz_questions_logged (nlp:=toy_nlp) demo_transcript (lit "q1") tf_draws))
    = Some (quiz_summary tf_items) ∧
  (quiz_summary tf_items).1.2 + (quiz_summary tf_items).2 = length tf_items.
Proof.
  assert (E : result (generate_quiz_questions_logged (nlp:=toy_nlp) demo_transcript (lit "q1") tf_draws)
              = inr (tf_items, tf_state)) by (vm_compute; reflexivity).
  split; [exact E|]. exact (generate_summary_log _ _ _ _ _ E).
Defined.
