(* ===== verification/Commands.v ===== *)
(** * The files and commands of the conversion and the transcription
    (lines 170, 184, 186-188, 200-205, 210)

    The handler builds the paths of its files inside the temporary
    directory with [os.path.join], passes them to ffmpeg and whisper, and
    looks for whisper's text output at [os.path.splitext(audio_path)[0] +
    '.txt'].  This file models [os.path.join] and [os.path.splitext] as
    CPython's [posixpath] writes them, the paths and the two commands the
    code builds, and, as a model of the external tool, where whisper
    writes its text output: into [--output_dir], by default the working
    directory of the process, under the base name of the audio file.
    [whisper_txt_elsewhere] shows that the file the code reads is never
    the file whisper writes when the server runs from another directory
    than the fresh temporary one. *)

From S2P Require Import Prelude PyBuiltins.

(** [posixpath.join(a, b)]. *)
Definition path_join (a b : str) : str :=
  if starts_with (lit "/") b then b
  else if bool_decide (a = [] ∨ last a = Some "/"%char) then a ++ b
  else a ++ lit "/" ++ b.

(** [str.rfind(c)]: the last index of [c], [None] for [-1]. *)
Fixpoint rfind_go (c : ascii) (s : str) (i : nat) (found : option nat) : option nat :=
  match s with
  | [] => found
  | d :: s' => rfind_go c s' (S i) (if bool_decide (d = c) then Some i else found)
  end.

Definition rfind (c : ascii) (s : str) : option nat := rfind_go c s 0 None.

(** [genericpath._splitext(p, '/', None, '.')]: split at the last dot
    when it is after the last separator and the file name has a character
    other than a dot before it (the [while] loop). *)
Definition py_splitext (p : str) : str * str :=
  match rfind "." p with
  | None => (p, [])
  | Some dot_index =>
      let filename_index := match rfind "/" p with Some sep_index => S sep_index | None => 0 end in
      if bool_decide (filename_index ≤ dot_index) &&
         existsb (λ ch, negb (bool_decide (ch = "."%char)))
           (take (dot_index - filename_index) (drop filename_index p))
      then (take dot_index p, drop dot_index p)
      else (p, [])
  end.

(** [os.path.basename(p)]. *)
Definition py_basename (p : str) : str :=
  drop (match rfind "/" p with Some i => S i | None => 0 end) p.

(** Line 170. *)
Definition video_path (tmp_dir : str) : str := path_join tmp_dir (lit "input_video.mp4").

(** Line 184. *)
Definition audio_path (tmp_dir : str) : str := path_join tmp_dir (lit "audio.wav").

(** Lines 186-188: [ffmpeg.input(video_path)] and [ffmpeg.output(stream,
    audio_path, acodec='pcm_s16le', ac=1, ar='16k')]. *)
Record ffmpeg_job := FfmpegJob { job_input : str; job_output : str; acodec : str; ac : nat; ar : str }.

Definition convert_job (tmp_dir : str) : ffmpeg_job :=
  FfmpegJob (video_path tmp_dir) (audio_path tmp_dir) (lit "pcm_s16le") 1 (lit "16k").

(** Lines 200-205. *)
Definition whisper_argv (tmp_dir : str) : list str :=
  [lit "whisper"; audio_path tmp_dir; lit "--model"; lit "base"; lit "--output_format"; lit "txt"].

(** Line 210. *)
Definition txt_path (tmp_dir : str) : str := (py_splitext (audio_path tmp_dir)).1 ++ lit ".txt".

(** ** Where whisper writes (a model of the external tool)

    The whisper command line takes the audio file as its first argument
    and [--output_dir] with default ["."], and its txt writer writes
    [os.path.join(output_dir, splitext(basename(audio))[0] + ".txt")],
    relative to the working directory of the process, which
    [subprocess.run] without [cwd=] inherits from the server. *)

Fixpoint arg_value (name : str) (argv : list str) : option str :=
  match argv with
  | x :: (y :: _) as rest => if bool_decide (x = name) then Some y else arg_value name rest
  | _ => None
  end.

Definition whisper_written_path (argv : list str) : option str :=
  match argv with
  | _ :: audio :: _ =>
      Some (path_join (default (lit ".") (arg_value (lit "--output_dir") argv))
              ((py_splitext (py_basename audio)).1 ++ lit ".txt"))
  | _ => None
  end.

(** A path relative to the working directory [cwd], for the paths
    ["./name"] and ["name"] whisper writes. *)
Definition resolve (cwd p : str) : str :=
  if starts_with (lit "/") p then p
  else path_join cwd (if starts_with (lit "./") p then drop 2 p else p).

(** An absolute directory as [tempfile.mkdtemp] and [os.getcwd] return
    them: starting with a separator and not ending with one. *)
Definition abs_dir (d : str) : bool :=
  bool_decide (head d = Some "/"%char) && negb (bool_decide (last d = Some "/"%char)).

(** ** The paths the code reads and whisper writes *)

Lemma rfind_go_app c s t i found :
  rfind_go c (s ++ t) i found = rfind_go c t (length s + i) (rfind_go c s i found).
Proof. revert i found. induction s as [|d s IH]; intros i found; [done|]. simpl. rewrite IH. f_equal. lia. Qed.

Lemma rfind_go_none c t i found : c ∉ t → rfind_go c t i found = found.
Proof.
  revert i found. induction t as [|d t IH]; intros i found Hc; [done|]. simpl.
  rewrite bool_decide_eq_false_2 by (intros ->; apply Hc; left). apply IH. intros ?. apply Hc. by right.
Qed.

(** The last occurrence of [c] in [s ++ t], when [t] has none. *)
Lemma rfind_app_none c s t : c ∉ t → rfind c (s ++ t) = rfind c s.
Proof. intros Hc. unfold rfind. by rewrite rfind_go_app, rfind_go_none. Qed.

Lemma rfind_snoc c s : rfind c (s ++ [c]) = Some (length s).
Proof. unfold rfind. rewrite rfind_go_app. simpl. rewrite bool_decide_eq_true_2 by done. f_equal. lia. Qed.

(** The directory part: empty, or ending with a separator. *)
Definition dir_prefix (p : str) : Prop := p = [] ∨ last p = Some "/"%char.

Lemma dir_prefix_rfind p : dir_prefix p → match rfind "/" p with Some i => S i | None => 0 end = length p.
Proof.
  intros [->|Hl]; [done|]. apply last_Some in Hl as [p' ->].
  rewrite rfind_snoc, length_app. simpl. lia.
Qed.

(** [splitext] of a file name with one extension in a directory. *)
Lemma splitext_in_dir p name ext :
  dir_prefix p → "/"%char ∉ name ++ "."%char :: ext → "."%char ∉ ext →
  existsb (λ ch, negb (bool_decide (ch = "."%char))) name = true →
  py_splitext (p ++ name ++ "."%char :: ext) = (p ++ name, "."%char :: ext).
Proof.
  intros Hp Hsep Hext Hname. unfold py_splitext.
  assert (Hdot : rfind "." (p ++ name ++ "."%char :: ext) = Some (length (p ++ name))).
  { replace (p ++ name ++ "."%char :: ext) with (((p ++ name) ++ ["."%char]) ++ ext)
      by by rewrite <- !(assoc_L (++)).
    by rewrite rfind_app_none, rfind_snoc. }
  rewrite Hdot, rfind_app_none, (dir_prefix_rfind p Hp) by done. rewrite length_app.
  replace (length p + length name - length p) with (length name) by lia.
  rewrite drop_app_length, take_app_length, Hname, bool_decide_eq_true_2 by lia. simpl.
  rewrite <- length_app, (assoc_L (++)), take_app_length, drop_app_length. done.
Qed.

(** [os.path.join(d, name)] for a relative [name]. *)
Lemma path_join_rel d name :
  head name ≠ Some "/"%char →
  path_join d name = (if bool_decide (d = [] ∨ last d = Some "/"%char) then d else d ++ lit "/") ++ name.
Proof.
  intros Hn. unfold path_join. destruct name as [|c name]; [by case_bool_decide; rewrite ?app_nil_r|].
  cbn [starts_with lit String.list_ascii_of_string].
  rewrite (bool_decide_eq_false_2 ("/"%char = c)) by naive_solver. simpl.
  by case_bool_decide; [|rewrite <- (assoc_L (++))].
Qed.

Lemma join_dir_prefix d : dir_prefix (if bool_decide (d = [] ∨ last d = Some "/"%char) then d else d ++ lit "/").
Proof. case_bool_decide as H; [done|]. right. by rewrite last_app. Qed.

Lemma txt_path_join d : txt_path d = path_join d (lit "audio.txt").
Proof.
  unfold txt_path, audio_path. rewrite !path_join_rel by done.
  change (lit "audio.wav") with (lit "audio" ++ "."%char :: lit "wav").
  rewrite splitext_in_dir; [|apply join_dir_prefix|by_eval|by_eval|done].
  simpl. by rewrite <- (assoc_L (++)).
Qed.

Lemma path_join_abs d name :
  abs_dir d = true → head name ≠ Some "/"%char → path_join d name = d ++ lit "/" ++ name.
Proof.
  intros Hd Hn. rewrite path_join_rel by done. apply andb_prop in Hd as [Hh Hl].
  rewrite bool_decide_eq_false_2; [by rewrite <- (assoc_L (++))|].
  intros [->|Hl']; [done|]. by rewrite bool_decide_eq_true_2 in Hl.
Qed.

Lemma basename_abs d name : abs_dir d = true → "/"%char ∉ name → py_basename (d ++ lit "/" ++ name) = name.
Proof.
  intros _ Hn. unfold py_basename. rewrite (assoc_L (++)), rfind_app_none by done.
  rewrite (dir_prefix_rfind (d ++ lit "/")) by (right; by rewrite last_app).
  apply drop_app_length.
Qed.

(** The audio path is never the option name [--output_dir]: it ends
    with [v]. *)
Lemma audio_path_not_option d : abs_dir d = true → audio_path d ≠ lit "--output_dir".
Proof.
  intros Hd Heq. unfold audio_path in Heq. rewrite path_join_abs in Heq by done.
  apply (f_equal last) in Heq. rewrite !last_app in Heq. discriminate.
Qed.

Lemma whisper_written_abs d : abs_dir d = true → whisper_written_path (whisper_argv d) = Some (lit "./audio.txt").
Proof.
  intros Hd. unfold whisper_written_path, whisper_argv. cbn [arg_value].
  rewrite (bool_decide_eq_false_2 (audio_path d = _)) by (by apply audio_path_not_option).
  unfold audio_path. rewrite (path_join_abs d), basename_abs by (done || by_eval).
  vm_compute. reflexivity.
Qed.

(** C19: The text file the code looks for is not the one whisper writes.
    For every temporary directory, line 210 looks for [audio.txt] inside
    it (whatever dots the directory name has); but whisper, run without
    [--output_dir] from the server's working directory, writes
    [audio.txt] into that working directory, which is another file for
    an absolute working directory other than the fresh temporary one. *)
Theorem whisper_txt_elsewhere tmp_dir cwd :
  txt_path tmp_dir = path_join tmp_dir (lit "audio.txt") ∧
  (abs_dir tmp_dir = true → abs_dir cwd = true → cwd ≠ tmp_dir →
   resolve cwd <$> whisper_written_path (whisper_argv tmp_dir) = Some (path_join cwd (lit "audio.txt")) ∧
   path_join cwd (lit "audio.txt") ≠ txt_path tmp_dir).
Proof.
  split; [apply txt_path_join|]. intros Hd Hc Hne.
  rewrite whisper_written_abs by done. split; [done|].
  rewrite txt_path_join, (path_join_abs cwd), (path_join_abs tmp_dir) by done.
  intros Heq. by apply app_inv_tail in Heq.
Qed.

Lemma whisper_txt_elsewhere_witness :
  abs_dir (lit "/tmp/tmpq1") = true ∧ abs_dir (lit "/srv/app") = true ∧
  lit "/srv/app" ≠ lit "/tmp/tmpq1" ∧
  txt_path (lit "/tmp/tmpq1") = path_join (lit "/tmp/tmpq1") (lit "audio.txt") ∧
  resolve (lit "/srv/app") <$> whisper_written_path (whisper_argv (lit "/tmp/tmpq1"))
    = Some (path_join (lit "/srv/app") (lit "audio.txt")) ∧
  path_join (lit "/srv/app") (lit "audio.txt") ≠ txt_path (lit "/tmp/tmpq1").
Proof.
  assert (Hd : abs_dir (lit "/tmp/tmpq1") = true) by reflexivity.
  assert (Hc : abs_dir (lit "/srv/app") = true) by reflexivity.
  assert (Hne : lit "/srv/app" ≠ lit "/tmp/tmpq1") by by_eval.
  destruct (whisper_txt_elsewhere (lit "/tmp/tmpq1") (lit "/srv/app")) as [H1 H2].
  destruct (H2 Hd Hc Hne) as [H3 H4]. repeat split; assumption.
Defined.
