(* ===== verification/Handler.v ===== *)
(** * The request handler [generate_transcript] (lines 32-38, 150-274)

    The handler checks for ffmpeg ([check_ffmpeg], called before any
    [try]), validates the upload, saves it in a fresh temporary directory,
    converts it to audio, runs whisper, cleans the transcript, generates the
    quiz and answers with JSON; a [finally] block removes the temporary
    directory and an outer [except Exception] turns any exception of its
    body into a 500 response.

    The outside world is a record [world] of the answers the handler gets
    from it, each with the exceptions the call can raise: the ffmpeg probe,
    the uploaded file, [tempfile.mkdtemp], [file.save], whether the saved
    file exists and its size, the ffmpeg conversion, the whisper process,
    the contents of [audio.txt] when it exists, the fresh UUID and whether
    [shutil.rmtree] succeeds.  The file system is reduced to the set of
    temporary directories ([tmpfs]); a response is a value of [response],
    whose constructors are the [jsonify] payloads of the code with their
    status codes, and [RUncaught] for an exception that leaves the view
    function (Flask then answers with its own error page).  The logger
    calls are left out here; [HandlerLog] writes the handler with them and
    proves that they do not change the answer. *)

From S2P Require Import Prelude PyBuiltins PyRandom Regex Normalizer Analyzer Json Quiz Generator.

(** [subprocess.run(['ffmpeg', '-version'])] (line 34): it runs, the binary
    is missing ([FileNotFoundError]), or it raises another exception. *)
Inductive probe := ProbeRan | ProbeNotFound | ProbeRaised (e : exn).

(** [ffmpeg.run] (lines 186-188): success, [ffmpeg.Error] with its message,
    or another exception. *)
Inductive conversion := ConvertOk | ConvertFailed (message : str) | ConvertRaised (e : exn).

(** [subprocess.run(['whisper', ...], check=True)] (lines 200-205):
    success, [CalledProcessError] with its stderr, or another exception
    (a missing binary raises [FileNotFoundError]). *)
Inductive whisper_result :=
| WhisperOk (stdout stderr : str)
| WhisperFailed (stderr : str)
| WhisperRaised (e : exn).

Record upload := Upload { filename : str }.

Record world := World {
  ffmpeg_probe : probe;
  video : option upload;
  mkdtemp_error : option exn;
  save_error : option exn;
  saved_size : option nat;
  conversion_result : conversion;
  whisper : whisper_result;
  txt_output : option (exn + str);
  fresh_uuid : str;
  rmtree_ok : bool
}.

Inductive detail := DText (s : str) | DExn (e : exn).

Inductive response :=
| RError (status : nat) (error : str) (details : option detail)
| ROk (transcript : str) (quiz_questions : list item) (quiz_id : str)
| RUncaught (e : exn).

(** The temporary directories that exist, and the name [mkdtemp] gives next. *)
Record tmpfs := TmpFs { tmp_dirs : list nat; next_dir : nat }.

(** Lines 32-38: [True] when the probe runs, [False] on
    [FileNotFoundError]; any other exception propagates. *)
Definition check_ffmpeg (p : probe) : exn + bool :=
  match p with
  | ProbeRan => inr true
  | ProbeNotFound => inr false
  | ProbeRaised e => inl e
  end.

(** Line 167: [tempfile.mkdtemp()]. *)
Definition mkdtemp (err : option exn) (fs : tmpfs) : exn + (nat * tmpfs) :=
  match err with
  | Some e => inl e
  | None => inr (next_dir fs, TmpFs (next_dir fs :: tmp_dirs fs) (S (next_dir fs)))
  end.

(** Lines 261-267: [shutil.rmtree(tmp_dir)], its failure only logged. *)
Definition rmtree (ok : bool) (d : nat) (fs : tmpfs) : tmpfs :=
  if ok then TmpFs (filter (λ x, x ≠ d) (tmp_dirs fs)) (next_dir fs) else fs.

Section Handler.
Context {nlp : Nlp} {Σ : Type} {rs : RandomSource Σ}.

(** Lines 210-215: the whisper output, read from [audio.txt] when it
    exists (which can raise), from stdout otherwise, and stripped. *)
Definition read_transcript (w : world) (stdout : str) : exn + str :=
  match txt_output w with
  | Some (inl e) => inl e
  | Some (inr contents) => inr (py_strip contents)
  | None => inr (py_strip stdout)
  end.

(** Lines 209-252, after whisper succeeded; [inl] is an exception that
    escapes to the outer [except]. *)
Definition transcribe_and_quiz (w : world) (stdout stderr : str) (rng : Σ) : exn + response :=
  match read_transcript w stdout with
  | inl e => inl e
  | inr raw =>
      let transcript := normalize raw in
      let formatted_transcript := py_join [nl; nl] (sent_tokenize transcript) in
      if bool_decide (formatted_transcript = []) then
        inr (RError 500 (lit "No transcript generated") (Some (DText stderr)))
      else
        let quiz_id := fresh_uuid w in
        match generate_quiz_questions transcript quiz_id rng with
        | inl e => inl e
        | inr (questions, _) => inr (ROk formatted_transcript questions quiz_id)
        end
  end.

(** Lines 168-259: the body of the inner [try]. *)
Definition process_upload (w : world) (rng : Σ) : exn + response :=
  match save_error w with
  | Some e => inl e
  | None =>
      match saved_size w with
      | None => inr (RError 500 (lit "Failed to save uploaded file") None)
      | Some size =>
          if bool_decide (size = 0) then inr (RError 400 (lit "Uploaded file is empty") None)
          else match conversion_result w with
          | ConvertFailed m => inr (RError 500 (lit "Audio conversion failed") (Some (DText m)))
          | ConvertRaised e => inl e
          | ConvertOk =>
              match whisper w with
              | WhisperFailed err => inr (RError 500 (lit "Transcription failed") (Some (DText err)))
              | WhisperRaised e => inl e
              | WhisperOk out err => transcribe_and_quiz w out err rng
              end
          end
      end
  end.

(** Lines 155-268: the body of the outer [try], with the directory state
    after its [finally]. *)
Definition handle_upload (w : world) (rng : Σ) (fs : tmpfs) : (exn + response) * tmpfs :=
  match video w with
  | None => (inr (RError 400 (lit "No video file in request") None), fs)
  | Some f =>
      if bool_decide (filename f = []) then (inr (RError 400 (lit "No selected file") None), fs)
      else match mkdtemp (mkdtemp_error w) fs with
      | inl e => (inl e, fs)
      | inr (tmp_dir, fs1) => (process_upload w rng, rmtree (rmtree_ok w) tmp_dir fs1)
      end
  end.

(** Lines 269-274: [except Exception as e] answers 500 with [str(e)]. *)
Definition outer_except (r : exn + response) : response :=
  match r with
  | inr resp => resp
  | inl e => RError 500 (lit "Server error") (Some (DExn e))
  end.

(** Lines 150-274. *)
Definition generate_transcript (w : world) (rng : Σ) (fs : tmpfs) : response * tmpfs :=
  match check_ffmpeg (ffmpeg_probe w) with
  | inl e => (RUncaught e, fs)
  | inr false => (RError 500 (lit "FFmpeg is not installed") None, fs)
  | inr true => let '(r, fs') := handle_upload w rng fs in (outer_except r, fs')
  end.
End Handler.

(** ** The temporary directory is removed on every path *)

(** Every existing temporary directory has a name below [next_dir]. *)
Definition tmpfs_wf (fs : tmpfs) : Prop := Forall (λ d, d < next_dir fs) (tmp_dirs fs).

(** The directory state after [mkdtemp] succeeded. *)
Definition with_fresh_dir (fs : tmpfs) : tmpfs :=
  TmpFs (next_dir fs :: tmp_dirs fs) (S (next_dir fs)).

Lemma rmtree_fresh fs :
  tmpfs_wf fs → tmp_dirs (rmtree true (next_dir fs) (with_fresh_dir fs)) = tmp_dirs fs.
Proof.
  intros Hwf. simpl. rewrite filter_cons_False by naive_solver.
  apply filter_Forall_id. eapply Forall_impl; [exact Hwf|]. simpl. lia.
Qed.

Lemma rmtree_fresh_wf ok fs :
  tmpfs_wf fs → tmpfs_wf (rmtree ok (next_dir fs) (with_fresh_dir fs)).
Proof.
  intros Hwf. assert (tmpfs_wf (with_fresh_dir fs)) as Hwf'.
  { constructor; [simpl; lia|]. eapply Forall_impl; [exact Hwf|]. simpl. lia. }
  destruct ok; [|done]. apply Forall_forall. intros x [_ Hx]%list_elem_of_filter.
  by eapply Forall_forall in Hwf'.
Qed.

(** ** The responses of the handler, as a consumer reads them *)

(** The error statuses are 400 and 500; a successful answer has a
    non-empty transcript and items that follow the schema and carry its
    quiz id; an exception that leaves the view is not a JSON answer. *)
Definition response_schema (r : response) : bool :=
  match r with
  | RError status _ _ => bool_decide (status = 400 ∨ status = 500)
  | ROk tr qs qid =>
      bool_decide (tr ≠ []) && forallb (λ it, item_schema it && bool_decide (quizId it = qid)) qs
  | RUncaught _ => false
  end.

Section HandlerProps.
Context {nlp : Nlp} {Σ : Type} {rs : RandomSource Σ}.

(** The exceptions that leave the inner [try] and reach the outer
    [except]: from [file.save], from the conversion other than
    [ffmpeg.Error], from whisper other than [CalledProcessError], from
    reading [audio.txt], and from quiz generation. *)
Definition raises_in_try (w : world) (rng : Σ) (e : exn) : Prop :=
  save_error w = Some e ∨
  save_error w = None ∧ ∃ size, saved_size w = Some size ∧ size ≠ 0 ∧
    (conversion_result w = ConvertRaised e ∨
     conversion_result w = ConvertOk ∧
       (whisper w = WhisperRaised e ∨
        ∃ out err, whisper w = WhisperOk out err ∧
          (read_transcript w out = inl e ∨
           ∃ raw, read_transcript w out = inr raw ∧
             py_join [nl; nl] (sent_tokenize (normalize raw)) ≠ [] ∧
             generate_quiz_questions (normalize raw) (fresh_uuid w) rng = inl e))).

(** The three outcomes of the ffmpeg check. *)
Lemma generate_transcript_probe w rng fs :
  generate_transcript w rng fs =
  match ffmpeg_probe w with
  | ProbeRaised e => (RUncaught e, fs)
  | ProbeNotFound => (RError 500 (lit "FFmpeg is not installed") None, fs)
  | ProbeRan => (outer_except (handle_upload w rng fs).1, (handle_upload w rng fs).2)
  end.
Proof.
  unfold generate_transcript, check_ffmpeg.
  destruct (ffmpeg_probe w); [|done|done]. by destruct (handle_upload w rng fs).
Qed.

Lemma handle_upload_fs w rng fs :
  tmpfs_wf fs →
  tmpfs_wf (handle_upload w rng fs).2 ∧
  (rmtree_ok w = true → tmp_dirs (handle_upload w rng fs).2 = tmp_dirs fs).
Proof.
  intros Hwf. unfold handle_upload. destruct (video w) as [f|]; [|done].
  case_bool_decide; [done|]. destruct (mkdtemp_error w); [done|]. simpl.
  split; [by apply rmtree_fresh_wf|]. intros ->. by apply rmtree_fresh.
Qed.

Lemma process_upload_inl w rng e : process_upload w rng = inl e ↔ raises_in_try w rng e.
Proof.
  unfold process_upload, raises_in_try, transcribe_and_quiz.
  destruct (save_error w) as [e'|]; [naive_solver|].
  destruct (saved_size w) as [size|]; [|naive_solver]. case_bool_decide; [naive_solver|].
  destruct (conversion_result w) as [| |e']; [|naive_solver|naive_solver].
  destruct (whisper w) as [out err|err|e']; [|naive_solver|naive_solver].
  split.
  - intros Hp. right. split; [done|]. exists size. do 2 (split; [done|]). right.
    split; [done|]. right. exists out, err. split; [done|].
    destruct (read_transcript w out) as [e'|raw]; [left; by simplify_eq|right]. exists raw.
    cbv zeta in Hp. case_bool_decide; [done|].
    destruct (generate_quiz_questions _ _ _) as [e'|[]]; [|done]. by simplify_eq.
  - intros [?|(_ & ? & [= <-] & _ & [?|(_ & [?|(o & er & [= <- <-] & Hr)])])]; try done.
    destruct Hr as [->|(raw & -> & Hne & Hq)]; [done|]. cbv zeta.
    by rewrite bool_decide_eq_false_2, Hq.
Qed.

(** The directory state after the whole handler. *)
Lemma generate_transcript_fs w rng fs :
  tmpfs_wf fs →
  tmpfs_wf (generate_transcript w rng fs).2 ∧
  (rmtree_ok w = true → tmp_dirs (generate_transcript w rng fs).2 = tmp_dirs fs).
Proof.
  intros Hwf. rewrite generate_transcript_probe.
  destruct (ffmpeg_probe w); [by apply handle_upload_fs|done|done].
Qed.

Lemma handle_upload_inl w rng fs e :
  (handle_upload w rng fs).1 = inl e ↔
  ∃ f, video w = Some f ∧ filename f ≠ [] ∧
    (mkdtemp_error w = Some e ∨ mkdtemp_error w = None ∧ raises_in_try w rng e).
Proof.
  setoid_rewrite <- process_upload_inl. unfold handle_upload.
  destruct (video w) as [f|]; [|naive_solver]. case_bool_decide; [naive_solver|].
  destruct (mkdtemp_error w); naive_solver.
Qed.

Lemma process_upload_ok w rng tr qs qid :
  process_upload w rng = inr (ROk tr qs qid) →
  ∃ out err raw rng', whisper w = WhisperOk out err ∧ read_transcript w out = inr raw ∧
    qid = fresh_uuid w ∧ tr = py_join [nl; nl] (sent_tokenize (normalize raw)) ∧ tr ≠ [] ∧
    generate_quiz_questions (normalize raw) qid rng = inr (qs, rng').
Proof.
  unfold process_upload, transcribe_and_quiz.
  destruct (save_error w); [done|]. destruct (saved_size w); [|done].
  case_bool_decide; [done|]. destruct (conversion_result w); try done.
  destruct (whisper w) as [out err| |]; try done.
  destruct (read_transcript w out) as [|raw] eqn:Hr; [done|]. cbv zeta.
  case_bool_decide; [done|].
  destruct (generate_quiz_questions _ _ _) as [|[qs' rng']] eqn:Hq; [done|].
  intros [= <- <- <-]. by exists out, err, raw, rng'.
Qed.

(** After whisper, the only JSON errors are 500s. *)
Lemma transcribe_and_quiz_500 w out err rng status msg d :
  transcribe_and_quiz w out err rng = inr (RError status msg d) → status = 500.
Proof.
  unfold transcribe_and_quiz. destruct (read_transcript w out); [done|]. cbv zeta.
  case_bool_decide; [naive_solver|]. by destruct (generate_quiz_questions _ _ _) as [|[]].
Qed.

Lemma handle_upload_ok w rng fs tr qs qid :
  (handle_upload w rng fs).1 = inr (ROk tr qs qid) → process_upload w rng = inr (ROk tr qs qid).
Proof.
  unfold handle_upload. destruct (video w); [|done]. case_bool_decide; [done|].
  by destruct (mkdtemp_error w).
Qed.
End HandlerProps.

Section HandlerClaims.
Context {nlp : Nlp} {Σ : Type} {rs : RandomSource Σ}.

(** What the body of the outer [try] answers when it does not raise: a
    JSON error with status 400 or 500 and no exception in its details, or
    the success answer of the inner [try]. *)
Lemma handle_upload_inr w rng fs resp :
  (handle_upload w rng fs).1 = inr resp →
  (∃ status msg d, resp = RError status msg d ∧ (status = 400 ∨ status = 500) ∧
     ∀ e, d ≠ Some (DExn e)) ∨
  ∃ tr qs qid, resp = ROk tr qs qid ∧ process_upload w rng = inr (ROk tr qs qid).
Proof.
  unfold handle_upload. destruct (video w) as [f|]; [|intros [= <-]; left; naive_solver].
  case_bool_decide; [intros [= <-]; left; naive_solver|].
  destruct (mkdtemp_error w); [done|]. simpl. intros Hp.
  destruct resp as [status msg d|tr qs qid|e]; [left|right; naive_solver|].
  - exists status, msg, d. split; [done|]. revert Hp.
    unfold process_upload, transcribe_and_quiz.
    destruct (save_error w); [done|]. destruct (saved_size w); [|naive_solver].
    case_bool_decide; [naive_solver|]. destruct (conversion_result w); [| naive_solver|done].
    destruct (whisper w) as [out err| |]; [|naive_solver|done].
    destruct (read_transcript w out); [done|]. cbv zeta. case_bool_decide; [naive_solver|].
    by destruct (generate_quiz_questions _ _ _) as [|[]].
  - revert Hp. unfold process_upload, transcribe_and_quiz.
    destruct (save_error w); [done|]. destruct (saved_size w); [|done].
    case_bool_decide; [done|]. destruct (conversion_result w); [|done|done].
    destruct (whisper w) as [out err| |]; [|done|done].
    destruct (read_transcript w out); [done|]. cbv zeta. case_bool_decide; [done|].
    by destruct (generate_quiz_questions _ _ _) as [|[]].
Qed.

(** C13: Cleanup: when [shutil.rmtree] succeeds, the handler leaves the
    set of temporary directories as it found it, on every path, the
    paths that end in an exception included; and it keeps the file system
    well formed whether or not the removal succeeds. *)
Theorem handler_cleans_up w rng fs :
  tmpfs_wf fs →
  tmpfs_wf (generate_transcript w rng fs).2 ∧
  (rmtree_ok w = true → tmp_dirs (generate_transcript w rng fs).2 = tmp_dirs fs).
Proof. apply generate_transcript_fs. Qed.

(** C15: A successful response carries the fresh quiz id, the cleaned
    whisper output formatted as its sentences separated by blank lines
    (not empty), and the items [generate_quiz_questions] makes from the
    cleaned output: numbered 1..n, one per sentence at most. *)
Theorem handler_success w rng fs tr qs qid fs' :
  generate_transcript w rng fs = (ROk tr qs qid, fs') →
  ∃ out err raw rng',
    whisper w = WhisperOk out err ∧ read_transcript w out = inr raw ∧ qid = fresh_uuid w ∧
    tr = py_join [nl; nl] (sent_tokenize (normalize raw)) ∧ tr ≠ [] ∧
    generate_quiz_questions (normalize raw) qid rng = inr (qs, rng') ∧
    order <$> qs = seq 1 (length qs) ∧
    (correct_statement <$> qs) ⊆+ sentences_of (normalize raw).
Proof.
  rewrite generate_transcript_probe. destruct (ffmpeg_probe w); try discriminate.
  intros [= Hr _]. destruct (handle_upload w rng fs).1 as [e|resp] eqn:Hh;
    simpl in Hr; [discriminate|subst resp].
  apply handle_upload_ok, process_upload_ok in Hh as (out & err & raw & rng' & Hw & Hrd & -> & Htr & Hne & Hq).
  exists out, err, raw, rng'. destruct (generate_inv _ _ _ _ _ Hq) as (rem & (_ & Hv & _) & _).
  repeat split; try done; [by eapply items_valid_orders|by eapply generate_submseteq].
Qed.
(** C17: When the answer is "Server error": the handler answers 500
    "Server error" with an exception exactly when ffmpeg was found, a named
    file was uploaded, and then [mkdtemp] raised or the inner [try] raised:
    [file.save], a conversion error other than [ffmpeg.Error], a whisper
    failure other than [CalledProcessError] (a missing binary), reading
    [audio.txt], or quiz generation on a non-empty transcript.  In the last
    case the transcript is not returned. *)
Theorem handler_server_error w rng fs e :
  (generate_transcript w rng fs).1 = RError 500 (lit "Server error") (Some (DExn e)) ↔
  ffmpeg_probe w = ProbeRan ∧ ∃ f, video w = Some f ∧ filename f ≠ [] ∧
    (mkdtemp_error w = Some e ∨ mkdtemp_error w = None ∧ raises_in_try w rng e).
Proof.
  rewrite generate_transcript_probe, <- handle_upload_inl.
  destruct (ffmpeg_probe w); simpl; [|naive_solver|naive_solver].
  destruct (handle_upload w rng fs).1 as [e'|resp] eqn:Hh; simpl.
  { split; [intros Heq; by simplify_eq|intros [_ Heq]; rewrite Heq in Hh; by simplify_eq]. }
  split; [|intros [_ Heq]; congruence]. intros ->. exfalso.
  destruct (handle_upload_inr _ _ _ _ Hh) as [(? & ? & ? & ? & _ & Hd)|(? & ? & ? & ? & _)];
    simplify_eq. by eapply Hd.
Qed.

(** The answer is an uncaught exception exactly when the probe raises. *)
Lemma generate_transcript_uncaught w rng fs e :
  (generate_transcript w rng fs).1 = RUncaught e ↔ ffmpeg_probe w = ProbeRaised e.
Proof.
  rewrite generate_transcript_probe.
  destruct (ffmpeg_probe w) as [| |e']; simpl; [|naive_solver|naive_solver].
  split; [|done]. destruct (handle_upload w rng fs).1 as [e'|resp] eqn:Hh; [done|]. simpl.
  intros ->.
  by destruct (handle_upload_inr _ _ _ _ Hh) as [(? & ? & ? & ? & _)|(? & ? & ? & ? & _)].
Qed.

(** C10: Type of the answers: every answer of the handler follows the
    response schema (error statuses 400 or 500; a success carries a
    non-empty transcript and items that follow the item schema and carry
    its quiz id), except the uncaught exception of the ffmpeg probe. *)
Theorem handler_response_schema w rng fs :
  response_schema (generate_transcript w rng fs).1 = true ∨
  ∃ e, ffmpeg_probe w = ProbeRaised e ∧ (generate_transcript w rng fs).1 = RUncaught e.
Proof.
  rewrite generate_transcript_probe.
  destruct (ffmpeg_probe w) as [| |e]; simpl; [left|left; by_eval|right; by eexists].
  destruct (handle_upload w rng fs).1 as [e|resp] eqn:Hh; simpl; [by_eval|].
  destruct (handle_upload_inr _ _ _ _ Hh)
    as [(status & ? & ? & -> & Hs & _)|(tr & qs & qid & -> & Hp)].
  - by apply bool_decide_eq_true_2.
  - apply process_upload_ok in Hp as (? & ? & raw & ? & _ & _ & -> & _ & Hne & Hq).
    apply andb_true_intro. split; [by apply bool_decide_eq_true_2|].
    apply forallb_forall. intros it (i & Hi)%list_elem_of_In%list_elem_of_lookup.
    destruct (valid_item_schema _ _ _ _ _ (generate_item_valid _ _ _ _ _ _ _ Hq Hi)) as [-> ->].
    by rewrite bool_decide_eq_true_2.
Qed.
(** C18: The client errors: the handler answers 400 exactly when ffmpeg
    was found and the request has no [video] file, or a file with an
    empty name, or a file that was saved empty; the message says which,
    and there are no details. *)
Theorem handler_client_error w rng fs msg d :
  (generate_transcript w rng fs).1 = RError 400 msg d ↔
  ffmpeg_probe w = ProbeRan ∧ d = None ∧
  (video w = None ∧ msg = lit "No video file in request" ∨
   ∃ f, video w = Some f ∧
     (filename f = [] ∧ msg = lit "No selected file" ∨
      filename f ≠ [] ∧ mkdtemp_error w = None ∧ save_error w = None ∧
      saved_size w = Some 0 ∧ msg = lit "Uploaded file is empty")).
Proof.
  rewrite generate_transcript_probe. destruct (ffmpeg_probe w); simpl; [|naive_solver|naive_solver].
  unfold handle_upload. destruct (video w) as [f|]; simpl; [|naive_solver].
  case_bool_decide; simpl; [naive_solver|]. destruct (mkdtemp_error w); simpl; [naive_solver|].
  unfold process_upload. destruct (save_error w); simpl; [naive_solver|].
  destruct (saved_size w) as [size|]; [|naive_solver].
  case_bool_decide; [subst; naive_solver|].
  destruct (conversion_result w); try naive_solver. destruct (whisper w) as [out err| |]; try naive_solver.
  destruct (transcribe_and_quiz w out err rng) as [|resp] eqn:E; simpl; [naive_solver|].
  split; [intros ->; by apply transcribe_and_quiz_500 in E|naive_solver].
Qed.
End HandlerClaims.

(** ** The handler on concrete requests *)

Definition demo_world (stdout : str) : world := {|
  ffmpeg_probe := ProbeRan; video := Some (Upload (lit "lecture.mp4")); mkdtemp_error := None;
  save_error := None; saved_size := Some 1024; conversion_result := ConvertOk;
  whisper := WhisperOk stdout []; txt_output := None; fresh_uuid := lit "q1"; rmtree_ok := true |}.

Definition demo_fs : tmpfs := TmpFs [0] 1.

Definition demo_response (w : world) (draws : list nat) : response * tmpfs :=
  generate_transcript (nlp:=toy_nlp) w draws demo_fs.

Definition spec_stdout : str := lit "The cat sat on the mat. [00:01] Dogs bark loudly at night.".

Lemma handler_cleans_up_witness :
  tmpfs_wf demo_fs ∧
  tmpfs_wf (demo_response (demo_world spec_stdout) tf_draws).2 ∧
  (rmtree_ok (demo_world spec_stdout) = true →
   tmp_dirs (demo_response (demo_world spec_stdout) tf_draws).2 = tmp_dirs demo_fs).
Proof.
  assert (Hwf : tmpfs_wf demo_fs) by by_eval.
  split; [exact Hwf|]. exact (handler_cleans_up _ _ _ Hwf).
Defined.

Lemma handler_success_witness :
  ∃ tr qs qid fs', demo_response (demo_world spec_stdout) tf_draws = (ROk tr qs qid, fs') ∧
  ∃ out err raw rng',
    whisper (demo_world spec_stdout) = WhisperOk out err ∧
    read_transcript (demo_world spec_stdout) out = inr raw ∧ qid = lit "q1" ∧
    tr = py_join [nl; nl] (sent_tokenize (Nlp:=toy_nlp) (normalize raw)) ∧ tr ≠ [] ∧
    generate_quiz_questions (nlp:=toy_nlp) (normalize raw) qid tf_draws = inr (qs, rng') ∧
    order <$> qs = seq 1 (length qs) ∧
    (correct_statement <$> qs) ⊆+ sentences_of (nlp:=toy_nlp) (normalize raw).
Proof.
  destruct (demo_response (demo_world spec_stdout) tf_draws) as [[st m d|tr qs qid|e] fs'] eqn:E;
    [vm_compute in E; discriminate| |vm_compute in E; discriminate].
  exists tr, qs, qid, fs'. split; [reflexivity|].
  exact (handler_success _ _ _ _ _ _ _ E).
Defined.

(** A transcript whose only sentence has no noun, verb or adjective ("Oh")
    makes the handler answer 500 when the false form of a true/false item
    is drawn. *)
Lemma handler_server_error_witness :
  (demo_response (demo_world (lit "Oh")) [0; 0; 1; 0]).1
    = RError 500 (lit "Server error") (Some (DExn IndexError)) ∧
  ffmpeg_probe (demo_world (lit "Oh")) = ProbeRan.
Proof.
  assert (E : (demo_response (demo_world (lit "Oh")) [0; 0; 1; 0]).1
              = RError 500 (lit "Server error") (Some (DExn IndexError))) by (vm_compute; reflexivity).
  split; [exact E|]. exact (proj1 (proj1 (handler_server_error _ _ _ _) E)).
Defined.

(** The ffmpeg probe raising [PermissionError] leaves the view function. *)
Definition denied_probe_world : world :=
  {| ffmpeg_probe := ProbeRaised OSError; video := None; mkdtemp_error := None;
     save_error := None; saved_size := None; conversion_result := ConvertOk;
     whisper := WhisperFailed []; txt_output := None; fresh_uuid := []; rmtree_ok := true |}.

(** A missing whisper binary ([FileNotFoundError] from [subprocess.run])
    is not a [CalledProcessError]: the answer is "Server error", not
    "Transcription failed". *)
Example handler_whisper_missing :
  (demo_response {| ffmpeg_probe := ProbeRan; video := Some (Upload (lit "lecture.mp4"));
                    mkdtemp_error := None; save_error := None; saved_size := Some 1024;
                    conversion_result := ConvertOk; whisper := WhisperRaised OSError;
                    txt_output := None; fresh_uuid := lit "q1"; rmtree_ok := true |} []).1
  = RError 500 (lit "Server error") (Some (DExn OSError)).
Proof. reflexivity. Qed.
