(* ===== verification/HandlerLog.v ===== *)
(** * The handler with its log (lines 32-38, 150-274)

    [generate_transcript] and [check_ffmpeg] written again with every
    [logger.info] and [logger.error] call of the code, in the writer
    [logged] of [Logging]: the records written before an exception are
    kept, the [finally] adds its record when [shutil.rmtree] fails, and
    the outer [except] adds ["Server error: " + str(e)].  The first
    theorem erases the log: the answer and the directory state are those
    of [Handler.generate_transcript], so every theorem about the handler
    holds of the logged one.  The second says which failures leave no
    ERROR record. *)

From S2P Require Import Prelude PyBuiltins PyRandom Regex Normalizer Analyzer Json Quiz Generator Logging Handler.

(** Lines 32-38. *)
Definition check_ffmpeg_logged (p : probe) : logged bool :=
  match p with
  | ProbeRan => mret true
  | ProbeNotFound => logger_error (lit "FFmpeg not found. Please install FFmpeg.") None;; mret false
  | ProbeRaised e => lraise e
  end.

(** Lines 261-267 around a body: [shutil.rmtree] and, when it fails, its
    [OSError] logged. *)
Definition with_cleanup {A} (body : logged A) (ok : bool) (d : nat) (fs : tmpfs) : logged A * tmpfs :=
  (Logged (result body)
     (logs body ++ if ok then [] else [LogRecord ERROR (lit "Error cleaning up temporary files: ")
                                        (Some (LExn OSError))]),
   rmtree ok d fs).

(** Lines 269-274. *)
Definition outer_except_logged (r : logged response) : response * list log_record :=
  match result r with
  | inr resp => (resp, logs r)
  | inl e => (RError 500 (lit "Server error") (Some (DExn e)),
              logs r ++ [LogRecord ERROR (lit "Server error: ") (Some (LExn e))])
  end.

Section HandlerLog.
Context {nlp : Nlp} {Σ : Type} {rs : RandomSource Σ}.

(** Lines 209-252. *)
Definition transcribe_and_quiz_logged (w : world) (stdout stderr : str) (rng : Σ) : logged response :=
  raw ← of_result (read_transcript w stdout);
  logger_info (lit "Processing transcript...");;
  let transcript := normalize raw in
  let sentences := sent_tokenize transcript in
  let formatted_transcript := py_join [nl; nl] sentences in
  logger_info (lit "Transcript processed. Length: " ++ py_str_nat (length formatted_transcript) ++
               lit " characters");;
  if bool_decide (formatted_transcript = []) then
    mret (RError 500 (lit "No transcript generated") (Some (DText stderr)))
  else
    let quiz_id := fresh_uuid w in
    r ← generate_quiz_questions_logged transcript quiz_id rng;
    let questions := r.1 in
    logger_info (nl :: lit "=== API Response ===");;
    logger_info (lit "Transcript length: " ++ py_str_nat (length formatted_transcript) ++
                 lit " characters");;
    logger_info (lit "Number of sentences: " ++ py_str_nat (length sentences));;
    logger_info (lit "Number of questions: " ++ py_str_nat (length questions));;
    logger_info (lit "==================" ++ [nl]);;
    mret (ROk formatted_transcript questions quiz_id).

(** Lines 168-259. *)
Definition process_upload_logged (w : world) (rng : Σ) : logged response :=
  match save_error w with
  | Some e => lraise e
  | None =>
      match saved_size w with
      | None => mret (RError 500 (lit "Failed to save uploaded file") None)
      | Some file_size =>
          logger_info (lit "File saved successfully. Size: " ++ py_str_nat file_size ++ lit " bytes");;
          if bool_decide (file_size = 0) then mret (RError 400 (lit "Uploaded file is empty") None)
          else match conversion_result w with
          | ConvertFailed m =>
              logger_error (lit "FFmpeg error: " ++ m) None;;
              mret (RError 500 (lit "Audio conversion failed") (Some (DText m)))
          | ConvertRaised e => lraise e
          | ConvertOk =>
              logger_info (lit "Audio conversion completed successfully");;
              logger_info (lit "Starting Whisper transcription...");;
              match whisper w with
              | WhisperFailed err =>
                  logger_error (lit "Whisper error: ") (Some LCalledProcessError);;
                  mret (RError 500 (lit "Transcription failed") (Some (DText err)))
              | WhisperRaised e => lraise e
              | WhisperOk out err =>
                  logger_info (lit "Whisper transcription completed successfully");;
                  transcribe_and_quiz_logged w out err rng
              end
          end
      end
  end.

(** Lines 155-268. *)
Definition handle_upload_logged (w : world) (rng : Σ) (fs : tmpfs) : logged response * tmpfs :=
  match video w with
  | None => (mret (RError 400 (lit "No video file in request") None), fs)
  | Some f =>
      if bool_decide (filename f = []) then (mret (RError 400 (lit "No selected file") None), fs)
      else match mkdtemp (mkdtemp_error w) fs with
      | inl e => (lraise e, fs)
      | inr (tmp_dir, fs1) => with_cleanup (process_upload_logged w rng) (rmtree_ok w) tmp_dir fs1
      end
  end.

(** Lines 150-274: the answer, the directory state and the records. *)
Definition generate_transcript_logged (w : world) (rng : Σ) (fs : tmpfs) :
    (response * tmpfs) * list log_record :=
  let c := check_ffmpeg_logged (ffmpeg_probe w) in
  match result c with
  | inl e => ((RUncaught e, fs), logs c)
  | inr false => ((RError 500 (lit "FFmpeg is not installed") None, fs), logs c)
  | inr true =>
      let '(r, fs') := handle_upload_logged w rng fs in
      let '(resp, ls) := outer_except_logged r in ((resp, fs'), logs c ++ ls)
  end.
End HandlerLog.

(** ** Erasing the log *)

Section Erasure.
Context {nlp : Nlp} {Σ : Type} {rs : RandomSource Σ}.

Lemma check_ffmpeg_logged_result p : result (check_ffmpeg_logged p) = check_ffmpeg p.
Proof. by destruct p. Qed.

Lemma transcribe_and_quiz_logged_result w out err rng :
  result (transcribe_and_quiz_logged w out err rng) = transcribe_and_quiz w out err rng.
Proof.
  unfold transcribe_and_quiz_logged, transcribe_and_quiz. erase.
  destruct (read_transcript w out) as [e|raw]; [done|]. erase.
  case_bool_decide; [done|]. erase.
  rewrite generate_quiz_questions_logged_result. by destruct (generate_quiz_questions _ _ _) as [|[]].
Qed.

Lemma process_upload_logged_result w rng : result (process_upload_logged w rng) = process_upload w rng.
Proof.
  unfold process_upload_logged, process_upload.
  destruct (save_error w); [done|]. destruct (saved_size w); [|done]. erase.
  case_bool_decide; [done|]. destruct (conversion_result w); erase; [|done|done].
  destruct (whisper w); erase; [|done|done]. apply transcribe_and_quiz_logged_result.
Qed.

Lemma handle_upload_logged_result w rng fs :
  (result (handle_upload_logged w rng fs).1, (handle_upload_logged w rng fs).2) = handle_upload w rng fs.
Proof.
  unfold handle_upload_logged, handle_upload.
  destruct (video w); [|done]. case_bool_decide; [done|]. destruct (mkdtemp _ _) as [|[]]; [done|].
  simpl. by rewrite process_upload_logged_result.
Qed.

Lemma outer_except_logged_result r : (outer_except_logged r).1 = outer_except (result r).
Proof. unfold outer_except_logged. by destruct (result r). Qed.

(** Logging never changes what the handler does: with its log
    records erased, the logged handler gives the answer and the directory
    state of [generate_transcript], so every theorem about the handler
    holds of the code with its logging. *)
Theorem handler_log_erasure w rng fs :
  (generate_transcript_logged w rng fs).1 = generate_transcript w rng fs.
Proof.
  unfold generate_transcript_logged, generate_transcript.
  rewrite check_ffmpeg_logged_result. destruct (check_ffmpeg (ffmpeg_probe w)) as [|[]]; [done| |done].
  rewrite <- handle_upload_logged_result.
  destruct (handle_upload_logged w rng fs) as [r fs']. simpl.
  rewrite <- outer_except_logged_result. by destruct (outer_except_logged r).
Qed.
End Erasure.

(** ** Which failures are logged as errors *)

(** [msg_neq] closes a goal [true = false ↔ P] whose [P] equates two
    different literal messages. *)
Ltac msg_neq :=
  let Hr := fresh "Hr" in
  split; [discriminate|]; intros Hr; exfalso; revert Hr; vm_compute; intuition discriminate.

Section Errors.
Context {nlp : Nlp} {Σ : Type} {rs : RandomSource Σ}.

Lemma transcribe_and_quiz_logged_info_only w out err rng :
  info_only (transcribe_and_quiz_logged w out err rng).
Proof. unfold transcribe_and_quiz_logged. info_tac. Qed.

(** After whisper, the only JSON error is "No transcript generated". *)
Lemma transcribe_and_quiz_error w out err rng status msg d :
  transcribe_and_quiz w out err rng = inr (RError status msg d) → msg = lit "No transcript generated".
Proof.
  unfold transcribe_and_quiz. destruct (read_transcript w out); [done|]. cbv zeta.
  case_bool_decide; [naive_solver|]. by destruct (generate_quiz_questions _ _ _) as [|[]].
Qed.

(** The 500 answers of the inner [try] that write no ERROR record. *)
Lemma process_upload_logged_silent w rng msg d :
  result (process_upload_logged w rng) = inr (RError 500 msg d) →
  (logs_error (logs (process_upload_logged w rng)) = false ↔
   msg = lit "Failed to save uploaded file" ∨ msg = lit "No transcript generated").
Proof.
  unfold process_upload_logged. destruct (save_error w); [done|].
  destruct (saved_size w) as [size|]; [|intros [= <- _]; split; [by left|done]].
  rewrite logs_bind, result_bind. cbn [result logs logger_info].
  case_bool_decide; [intros [=]; lia|].
  destruct (conversion_result w) as [|m|e]; erase; [|intros [= <- _]; msg_neq|done].
  rewrite !logs_bind. erase. cbn [logs logger_info logger_error].
  destruct (whisper w) as [out err|err|e]; erase; [|intros [= <- _]; msg_neq|done].
  rewrite logs_bind. cbn [logs logger_info result].
  rewrite transcribe_and_quiz_logged_result. intros Ht.
  rewrite (transcribe_and_quiz_logged_info_only w out err rng).
  split; [intros _; right; by eapply transcribe_and_quiz_error|done].
Qed.

(** C20: Two failures are not logged as errors: when the handler answers
    500, no ERROR record is written exactly when the answer is "Failed to
    save uploaded file" or "No transcript generated" and the temporary
    directory was removed; every other 500 answer ("FFmpeg is not
    installed", "Audio conversion failed", "Transcription failed", "Server
    error") comes with an ERROR record. *)
Theorem handler_silent_500 w rng fs msg d :
  (generate_transcript_logged w rng fs).1.1 = RError 500 msg d →
  (logs_error (generate_transcript_logged w rng fs).2 = false ↔
   rmtree_ok w = true ∧ (msg = lit "Failed to save uploaded file" ∨ msg = lit "No transcript generated")).
Proof.
  unfold generate_transcript_logged. destruct (ffmpeg_probe w); cbn; [|intros [= <- _]; msg_neq|done].
  unfold handle_upload_logged. destruct (video w) as [f|]; cbn; [|intros [=]].
  case_bool_decide; cbn; [intros [=]|]. destruct (mkdtemp_error w); cbn; [intros [= <- _]; msg_neq|].
  unfold with_cleanup, outer_except_logged. cbn.
  destruct (result (process_upload_logged w rng)) as [e|resp] eqn:E; cbn.
  - intros [= <- _]. rewrite logs_error_app. cbn. rewrite orb_true_r. msg_neq.
  - intros ->. destruct (rmtree_ok w); cbn.
    + rewrite app_nil_r, (process_upload_logged_silent _ _ _ _ E). naive_solver.
    + rewrite logs_error_app, orb_true_r. split; [discriminate|naive_solver].
Qed.
End Errors.

(** ** A request whose upload is not saved *)

Definition unsaved_world : world := {|
  ffmpeg_probe := ProbeRan; video := Some (Upload (lit "lecture.mp4")); mkdtemp_error := None;
  save_error := None; saved_size := None; conversion_result := ConvertOk;
  whisper := WhisperOk spec_stdout []; txt_output := None; fresh_uuid := lit "q1"; rmtree_ok := true |}.

Definition unsaved_run : (response * tmpfs) * list log_record :=
  generate_transcript_logged (nlp:=toy_nlp) unsaved_world ([] : list nat) demo_fs.

Lemma handler_silent_500_witness :
  unsaved_run.1.1 = RError 500 (lit "Failed to save uploaded file") None ∧
  (logs_error unsaved_run.2 = false ↔
   rmtree_ok unsaved_world = true ∧
   (lit "Failed to save uploaded file" = lit "Failed to save uploaded file" ∨
    lit "Failed to save uploaded file" = lit "No transcript generated")).
Proof.
  assert (E : unsaved_run.1.1 = RError 500 (lit "Failed to save uploaded file") None) by reflexivity.
  split; [exact E|]. exact (handler_silent_500 _ _ _ _ _ E).
Defined.

(** The successful request of the specification's example writes sixteen
    INFO records: six of the handler up to line 228, the five of the quiz
    summary and the five of the response (lines 241-245). *)
Example handler_log_success :
  map level (generate_transcript_logged (nlp:=toy_nlp) (demo_world spec_stdout) tf_draws demo_fs).2 =
  repeat INFO 16.
Proof. vm_compute. reflexivity. Qed.
