(* ===== verification/Server.v ===== *)
(** * Serving a sequence of requests

    The Flask process runs [generate_transcript] once per request, and the
    temporary directories it creates live as long as the process.  This
    file follows the directories across requests: [serve] runs a list of
    requests one after the other, threading the directory state, and
    [reachable] is the set of directory states a process can reach from
    an empty temporary area, by rule induction over the requests.  A
    request leaks its directory exactly when it reaches [mkdtemp] and
    [shutil.rmtree] then fails ([leaks]); nothing else ever stays. *)

From S2P Require Import Prelude PyBuiltins PyRandom Regex Normalizer Analyzer Json Quiz Generator Handler.

(** The request reaches [tempfile.mkdtemp()] (line 167) and [rmtree]
    fails in the [finally] (lines 263-267). *)
Definition leaks (w : world) : bool :=
  match ffmpeg_probe w, video w with
  | ProbeRan, Some f =>
      if bool_decide (filename f = []) then false
      else match mkdtemp_error w with None => negb (rmtree_ok w) | Some _ => false end
  | _, _ => false
  end.

(** The directory state of a process that has not served anything. *)
Definition tmpfs_init : tmpfs := TmpFs [] 0.

(** The invariant of the directory state: names below [next_dir], and
    pairwise distinct. *)
Definition tmpfs_inv (fs : tmpfs) : Prop := tmpfs_wf fs ∧ NoDup (tmp_dirs fs).

Section Server.
Context {nlp : Nlp} {Σ : Type} {rs : RandomSource Σ}.

(** The requests one after the other: each with the world it sees and the
    state of the generator it starts from. *)
Fixpoint serve (reqs : list (world * Σ)) (fs : tmpfs) : list response * tmpfs :=
  match reqs with
  | [] => ([], fs)
  | (w, rng) :: reqs' =>
      let '(r, fs1) := generate_transcript w rng fs in
      let '(rs', fs2) := serve reqs' fs1 in (r :: rs', fs2)
  end.

Inductive reachable : tmpfs → Prop :=
| reach_init : reachable tmpfs_init
| reach_step w rng fs : reachable fs → reachable (generate_transcript w rng fs).2.

(** One request adds its directory when it leaks it, and nothing else. *)
Lemma generate_transcript_dirs w rng fs :
  tmpfs_wf fs →
  tmp_dirs (generate_transcript w rng fs).2 = (if leaks w then [next_dir fs] else []) ++ tmp_dirs fs ∧
  next_dir fs ≤ next_dir (generate_transcript w rng fs).2.
Proof.
  intros Hwf. rewrite generate_transcript_probe. unfold leaks.
  destruct (ffmpeg_probe w); simpl; [|done|done]. unfold handle_upload.
  destruct (video w) as [f|]; simpl; [|done].
  case_bool_decide; simpl; [done|]. destruct (mkdtemp_error w); simpl; [done|].
  destruct (rmtree_ok w); simpl; [|split; [done|lia]].
  split; [|lia]. by apply (rmtree_fresh fs).
Qed.

Lemma generate_transcript_inv w rng fs :
  tmpfs_inv fs → tmpfs_inv (generate_transcript w rng fs).2.
Proof.
  intros [Hwf Hnd]. split; [by apply generate_transcript_fs|].
  rewrite (proj1 (generate_transcript_dirs w rng fs Hwf)).
  destruct (leaks w); [|done]. constructor; [|done].
  intros Hin. eapply Forall_forall in Hwf; [|done]. lia.
Qed.

Lemma serve_step w rng reqs fs :
  serve ((w, rng) :: reqs) fs =
  ((generate_transcript w rng fs).1 :: (serve reqs (generate_transcript w rng fs).2).1,
   (serve reqs (generate_transcript w rng fs).2).2).
Proof. simpl. destruct (generate_transcript w rng fs) as [r fs1]. simpl. by destruct (serve reqs fs1). Qed.
Lemma serve_app reqs w rng fs :
  (serve (reqs ++ [(w, rng)]) fs).2 = (generate_transcript w rng (serve reqs fs).2).2.
Proof.
  induction reqs as [|[w' rng'] reqs IH] in fs |- *.
  - simpl. destruct (generate_transcript w rng fs). done.
  - rewrite <- app_comm_cons, !serve_step. apply IH.
Qed.

(** The states a process reaches are those of the runs of [serve]. *)
Lemma serve_reachable fs : reachable fs ↔ ∃ reqs, fs = (serve reqs tmpfs_init).2.
Proof.
  split.
  - induction 1 as [|w rng fs _ [reqs ->]]; [by exists []|].
    exists (reqs ++ [(w, rng)]). by rewrite serve_app.
  - intros [reqs ->]. induction reqs as [|[w rng] reqs IH] using rev_ind; [constructor|].
    rewrite serve_app. by constructor.
Qed.

(** C14: Over any sequence of requests the temporary directories stay
    well formed and pairwise distinct, the directories that existed before
    are never removed, and exactly one directory is left behind per
    request that reached [mkdtemp] and whose [rmtree] failed. *)
Theorem serve_leaks reqs fs :
  tmpfs_inv fs →
  tmpfs_inv (serve reqs fs).2 ∧
  length (tmp_dirs (serve reqs fs).2) =
    length (tmp_dirs fs) + length (filter (λ r, leaks r.1 = true) reqs) ∧
  tmp_dirs fs ⊆ tmp_dirs (serve reqs fs).2.
Proof.
  induction reqs as [|[w rng] reqs IH] in fs |- *; intros Hinv; [simpl; split_and!; done || lia|].
  rewrite serve_step.
  destruct (IH _ (generate_transcript_inv w rng fs Hinv)) as (Hinv' & Hlen & Hsub).
  destruct (generate_transcript_dirs w rng fs (proj1 Hinv)) as [Hd _].
  rewrite Hd in Hlen, Hsub. split; [done|]. destruct (leaks w) eqn:Hl.
  - rewrite filter_cons_True by exact Hl. simpl in *. split; [lia|]. intros x Hx. apply Hsub. by right.
  - rewrite filter_cons_False by (simpl; by rewrite Hl). done.
Qed.

(** Every directory state a process reaches, from an empty temporary
    area and whatever the requests, satisfies the invariant [tmpfs_inv]:
    by rule induction over [reachable]. *)
Theorem reachable_inv fs : reachable fs → tmpfs_inv fs.
Proof.
  induction 1 as [|w rng fs _ IH]; [split; constructor|].
  by apply generate_transcript_inv.
Qed.
End Server.

(** ** Two requests, the first of which cannot remove its directory *)

Definition leaky_world : world := {|
  ffmpeg_probe := ProbeRan; video := Some (Upload (lit "lecture.mp4")); mkdtemp_error := None;
  save_error := None; saved_size := Some 1024; conversion_result := ConvertOk;
  whisper := WhisperOk spec_stdout []; txt_output := None; fresh_uuid := lit "q1";
  rmtree_ok := false |}.

Definition demo_requests : list (world * list nat) :=
  [(leaky_world, tf_draws); (demo_world spec_stdout, mcq_draws)].

Lemma serve_leaks_witness :
  tmpfs_inv tmpfs_init ∧
  tmpfs_inv (serve (nlp:=toy_nlp) demo_requests tmpfs_init).2 ∧
  length (tmp_dirs (serve (nlp:=toy_nlp) demo_requests tmpfs_init).2) =
    length (tmp_dirs tmpfs_init) + length (filter (λ r, leaks r.1 = true) demo_requests) ∧
  tmp_dirs tmpfs_init ⊆ tmp_dirs (serve (nlp:=toy_nlp) demo_requests tmpfs_init).2.
Proof.
  assert (H : tmpfs_inv tmpfs_init) by (split; constructor).
  split; [exact H|]. exact (serve_leaks _ _ H).
Defined.

(** The first request leaves its directory [0] behind; the second one
    removes its directory [1]. *)
Example demo_requests_leak :
  tmp_dirs (serve (nlp:=toy_nlp) demo_requests tmpfs_init).2 = [0].
Proof. vm_compute. reflexivity. Qed.
