(* ===== verification/App.v ===== *)
(** * The Flask application around the handler (lines 17-18, 150, 276-278)

    [app = Flask(__name__)] and [CORS(app)] create the application and
    enable cross-origin requests from every origin; [@app.route(
    '/generate-transcript', methods=['POST'])] registers the one view;
    [app.run(host='192.168.138.35', port=5000, debug=True)] serves it.
    [dispatch] is what the application answers to one HTTP request, as
    Flask documents it for this configuration: an unknown path is a 404, an
    [OPTIONS] request is answered automatically, another method than the
    registered ones is a 405, and otherwise the view's answer is sent with
    the status it returns.  Flask-CORS adds
    [Access-Control-Allow-Origin: *] to every answer that Flask finishes;
    with [debug=True] an exception that leaves the view is not finished by
    Flask but shown by the debugger as its traceback page.  The theorems
    say when a client gets that page, and that every other answer of the
    route is the handler's own JSON answer. *)

From S2P Require Import Prelude PyBuiltins PyRandom Regex Normalizer Analyzer Json Quiz Generator Handler.

Inductive http_method := GET | HEAD | POST | PUT | DELETE | PATCH | OPTIONS.

#[export] Instance http_method_eq_dec : EqDecision http_method.
Proof. solve_decision. Defined.

Record route := Route { rule : str; methods : list http_method }.

(** Line 150. *)
Definition app_routes : list route := [Route (lit "/generate-transcript") [POST]].

(** Line 18: [CORS(app)], every origin allowed. *)
Definition cors_enabled : bool := true.

(** Lines 276-278. *)
Record run_config := RunConfig { host : str; port : nat; debug : bool }.

Definition main_run : run_config := RunConfig (lit "192.168.138.35") 5000 true.

Inductive http_body :=
| BJson (r : response)
| BNotFound
| BMethodNotAllowed
| BOptions
| BDebugger (e : exn)
| BInternalServerError.

Record http_response := HttpResponse { status : nat; body : http_body; headers : list (str * str) }.

Definition allow_origin : str * str := (lit "Access-Control-Allow-Origin", lit "*").

(** The [after_request] hook of Flask-CORS. *)
Definition with_cors (h : http_response) : http_response :=
  if cors_enabled then HttpResponse (status h) (body h) (allow_origin :: headers h) else h.

(** [return jsonify(...), status] and [return jsonify(...)]. *)
Definition json_status (r : response) : nat :=
  match r with RError s _ _ => s | ROk _ _ _ => 200 | RUncaught _ => 500 end.

(** The answer sent for what the view returned: an exception that left
    it goes to the debugger when [debug] is set. *)
Definition view_answer (cfg : run_config) (r : response) : http_response :=
  match r with
  | RUncaught e =>
      if debug cfg then HttpResponse 500 (BDebugger e) []
      else with_cors (HttpResponse 500 BInternalServerError [])
  | _ => with_cors (HttpResponse (json_status r) (BJson r) [])
  end.

Section App.
Context {nlp : Nlp} {Σ : Type} {rs : RandomSource Σ}.

(** Lines 17-18 with the route of line 150: the application answering a
    request with [method] on [path]; the view is [generate_transcript]. *)
Definition dispatch (cfg : run_config) (method : http_method) (path : str) (w : world) (rng : Σ)
    (fs : tmpfs) : http_response * tmpfs :=
  match list_find (λ rt, rule rt = path) app_routes with
  | None => (with_cors (HttpResponse 404 BNotFound []), fs)
  | Some (_, rt) =>
      if bool_decide (method = OPTIONS) then (with_cors (HttpResponse 200 BOptions []), fs)
      else if bool_decide (method ∉ methods rt) then
        (with_cors (HttpResponse 405 BMethodNotAllowed []), fs)
      else
        let '(r, fs') := generate_transcript w rng fs in (view_answer cfg r, fs')
  end.
End App.

(** ** What a client receives *)

Section AppProps.
Context {nlp : Nlp} {Σ : Type} {rs : RandomSource Σ}.

Lemma dispatch_answer cfg m path w rng fs :
  (dispatch cfg m path w rng fs).1 =
  if bool_decide (path = lit "/generate-transcript") then
    if bool_decide (m = OPTIONS) then with_cors (HttpResponse 200 BOptions [])
    else if bool_decide (m = POST) then view_answer cfg (generate_transcript w rng fs).1
    else with_cors (HttpResponse 405 BMethodNotAllowed [])
  else with_cors (HttpResponse 404 BNotFound []).
Proof.
  unfold dispatch, app_routes. cbn [list_find rule methods].
  destruct (decide (lit "/generate-transcript" = path)) as [<-|Hp]; cbn;
    [rewrite (bool_decide_eq_true_2 (lit "/generate-transcript" = _)) by done
    |by rewrite (bool_decide_eq_false_2 (path = _)) by (intros ->; by apply Hp)].
  case_bool_decide; [done|]. destruct (generate_transcript w rng fs) as [r fs']. cbn.
  destruct (decide (m = POST)) as [->|Hm].
  - rewrite (bool_decide_eq_false_2 (POST ∉ [POST])) by (intros Hn; by apply Hn, list_elem_of_singleton).
    by rewrite (bool_decide_eq_true_2 (POST = POST)).
  - rewrite (bool_decide_eq_true_2 (m ∉ [POST])) by (by intros ?%list_elem_of_singleton).
    by rewrite (bool_decide_eq_false_2 (m = POST)).
Qed.

Lemma with_cors_origin h : allow_origin ∈ headers (with_cors h).
Proof. left. Qed.

(** What the route answers for each outcome of the view. *)
Lemma view_answer_body r :
  (∀ e, body (view_answer main_run r) = BDebugger e ↔ r = RUncaught e) ∧
  (∀ r', body (view_answer main_run r) = BJson r' ↔ r' = r ∧ ∀ e, r ≠ RUncaught e).
Proof. destruct r; simpl; naive_solver. Qed.

(** C21: The debugger is served to clients: with [debug=True], a request
    gets the debugger's traceback page, and not a JSON answer, exactly
    when it is a POST to [/generate-transcript] and the ffmpeg probe
    raises something other than [FileNotFoundError] (the exception that
    [check_ffmpeg] lets escape outside any [try]); every other answer is
    finished by Flask and carries the CORS header. *)
Theorem app_debugger_page m path w rng fs :
  (∀ e, body (dispatch main_run m path w rng fs).1 = BDebugger e ↔
        m = POST ∧ path = lit "/generate-transcript" ∧ ffmpeg_probe w = ProbeRaised e) ∧
  ((∀ e, body (dispatch main_run m path w rng fs).1 ≠ BDebugger e) →
   allow_origin ∈ headers (dispatch main_run m path w rng fs).1).
Proof.
  rewrite dispatch_answer. case_bool_decide as Hp; [|split; [naive_solver|intros _; apply with_cors_origin]].
  case_bool_decide as Ho; [split; [naive_solver|intros _; apply with_cors_origin]|].
  case_bool_decide as Hm; [|split; [naive_solver|intros _; apply with_cors_origin]].
  split.
  - intros e. rewrite (proj1 (view_answer_body _)), generate_transcript_uncaught. naive_solver.
  - intros Hd. unfold view_answer.
    destruct (generate_transcript w rng fs).1 as [| |e]; [apply with_cors_origin..|].
    exfalso. by apply (Hd e).
Qed.

(** C16: The route answers with the handler: a JSON body is the answer of
    [generate_transcript] to a POST on [/generate-transcript], sent with
    the status the view returns and the CORS header; and every such POST
    whose ffmpeg probe does not raise gets that JSON answer. *)
Theorem app_json_answer m path w rng fs r :
  (body (dispatch main_run m path w rng fs).1 = BJson r →
   m = POST ∧ path = lit "/generate-transcript" ∧ r = (generate_transcript w rng fs).1 ∧
   status (dispatch main_run m path w rng fs).1 = json_status r ∧
   allow_origin ∈ headers (dispatch main_run m path w rng fs).1) ∧
  (m = POST → path = lit "/generate-transcript" → (∀ e, ffmpeg_probe w ≠ ProbeRaised e) →
   body (dispatch main_run m path w rng fs).1 = BJson (generate_transcript w rng fs).1).
Proof.
  split.
  - rewrite dispatch_answer. case_bool_decide as Hp; [|done].
    case_bool_decide; [done|]. case_bool_decide as Hm; [|done].
    intros Hb. unfold view_answer in *.
    destruct (generate_transcript w rng fs).1 as [st msg d|tr qs qid|e]; simpl in Hb |- *;
      [injection Hb as <-..|discriminate]; split_and!; try done; left.
  - intros -> -> Hpr. rewrite dispatch_answer, !bool_decide_eq_true_2 by done.
    rewrite bool_decide_eq_false_2 by done. apply (proj2 (view_answer_body _)).
    split; [done|]. intros e He. apply (Hpr e). by apply (generate_transcript_uncaught w rng fs e).
Qed.
End AppProps.

(** ** Requests on the application *)

Lemma app_debugger_page_witness :
  ffmpeg_probe denied_probe_world = ProbeRaised OSError ∧
  body (dispatch (nlp:=toy_nlp) main_run POST (lit "/generate-transcript") denied_probe_world
          ([] : list nat) demo_fs).1 = BDebugger OSError.
Proof.
  assert (H : ffmpeg_probe denied_probe_world = ProbeRaised OSError) by reflexivity.
  split; [exact H|].
  apply (proj1 (app_debugger_page (nlp:=toy_nlp) POST (lit "/generate-transcript")
                  denied_probe_world ([] : list nat) demo_fs) OSError).
  split; [done|]. split; [done|exact H].
Defined.

Lemma app_json_answer_witness :
  (∀ e, ffmpeg_probe (demo_world spec_stdout) ≠ ProbeRaised e) ∧
  body (dispatch (nlp:=toy_nlp) main_run POST (lit "/generate-transcript") (demo_world spec_stdout)
          tf_draws demo_fs).1 = BJson (generate_transcript (nlp:=toy_nlp) (demo_world spec_stdout) tf_draws demo_fs).1.
Proof.
  assert (H : ∀ e, ffmpeg_probe (demo_world spec_stdout) ≠ ProbeRaised e) by (intros e; discriminate).
  split; [exact H|].
  exact (proj2 (app_json_answer (nlp:=toy_nlp) POST (lit "/generate-transcript") (demo_world spec_stdout)
                  tf_draws demo_fs (generate_transcript (nlp:=toy_nlp) (demo_world spec_stdout) tf_draws demo_fs).1)
           eq_refl eq_refl H).
Defined.

